(** * PDF to JSONL converter (pdf_to_jsonl_ocr_v4.py): model and properties

    A shallow embedding of [PDFToJSONLConverterOCRv4]: the preflight
    diagnostics, the per-page OCR trigger, [ocr_page], the Tesseract path
    detection, the table extractor and the record loop of [convert_pdf].

    Conventions of the model.
    - A Python [str] is a [string]; a character is one [ascii] code
      (the Latin-1 range of Unicode), and [isspace] is Python's table
      restricted to that range.
    - A Python [int] is a [Z]; a page number, which comes from
      [enumerate(..., start=1)], is a [nat].
    - A Python [float] is an exact rational [Q]: the arithmetic of the
      coverage ratio is the ideal one, without binary rounding.  Python
      rounds the binary double, which lies a little beside a decimal tie,
      so at such a tie [round(x, 4)] may give the other neighbour than
      the one computed here; what is stated about the rounded coverage
      holds for either neighbour.
    - [None] is [None]; a JSON null in a record is [None].
    - The libraries behind the program (PyMuPDF, pdfplumber, pytesseract,
      the operating system) are records of functions; a call that may raise
      returns a [result].  Files written are recorded in a trace of writes.
      In the modules [Ocr], [Tables], [Convert] and [Images] a write always
      succeeds; the module [IO] models the OCR artifacts and the table
      files once more with writes that may fail, as the disk and the codec
      decide.
    - [open_document] and [package_and_save] are not modelled: the
      document is the list of its pages and [convert_pdf] ends with the
      list of records that [package_and_save] would serialise.  In
      [Convert.convert_pdf] the image paths per page are an input of the
      record loop; [Images.convert_pdf] adds the image pass in its place. *)

From Stdlib Require Import ZArith QArith Qround Qabs Lia Lqa Ascii.
From stdpp Require Import base gmap strings list pretty.

(** ** Python values *)

(** The outcome of a call that may raise: [Raise msg] carries [str(e)]. *)
Inductive result (A : Type) : Type :=
| Ok (a : A)
| Raise (msg : string).
Arguments Ok {A} a.
Arguments Raise {A} msg.

Definition bind {A B : Type} (r : result A) (k : A → result B) : result B :=
  match r with
  | Ok a => k a
  | Raise msg => Raise msg
  end.

Notation "'do' x <- r 'in' k" := (bind r (λ x, k))
  (at level 10, x name, r at level 100, k at level 200, only parsing).

(** [try: r  except Exception: d]. *)
Definition try_except {A : Type} (r : result A) (d : A) : A :=
  match r with
  | Ok a => a
  | Raise _ => d
  end.

Module PyStr.

(** [ch.isspace()] for a character of the Latin-1 range: TAB, LF, VT, FF,
    CR, the separators FS, GS, RS, US, the space, NEL and the no-break
    space. *)
Definition isspace (ch : ascii) : bool :=
  let n := Ascii.N_of_ascii ch in
  ((9 <=? n) && (n <=? 13) || (28 <=? n) && (n <=? 32)
   || (n =? 133) || (n =? 160))%N.

(** Truth value of a string: non-empty. *)
Definition truthy (s : string) : bool :=
  match s with
  | EmptyString => false
  | String _ _ => true
  end.

Fixpoint lstrip (s : string) : string :=
  match s with
  | EmptyString => EmptyString
  | String ch rest => if isspace ch then lstrip rest else s
  end.

Fixpoint rstrip (s : string) : string :=
  match s with
  | EmptyString => EmptyString
  | String ch rest =>
      let rest' := rstrip rest in
      if isspace ch && negb (truthy rest') then EmptyString
      else String ch rest'
  end.

(** [s.strip()]. *)
Definition strip (s : string) : string := rstrip (lstrip s).

(** [sum(1 for ch in s if not ch.isspace())]. *)
Fixpoint count_non_ws (s : string) : Z :=
  match s with
  | EmptyString => 0
  | String ch rest =>
      if isspace ch then count_non_ws rest else 1 + count_non_ws rest
  end.

(** Truth value of an [Optional[str]]. *)
Definition truthy_opt (o : option string) : bool :=
  match o with
  | Some s => truthy s
  | None => false
  end.

(** [a or b] on two [Optional[str]] values. *)
Definition or_else (a b : option string) : option string :=
  if truthy_opt a then a else b.

End PyStr.

Module PyFloat.

(** Nearest integer, ties to the even one. *)
Definition round_half_even (x : Q) : Z :=
  let f := Qfloor x in
  match (x - inject_Z f ?= 1 # 2)%Q with
  | Lt => f
  | Gt => f + 1
  | Eq => if Z.even f then f else f + 1
  end.

(** [round(x, 4)] of the exact value: the multiple of 0.0001 nearest to
    [x], the even one at a tie. *)
Definition round4 (x : Q) : Q :=
  (inject_Z (round_half_even (x * 10000)) / 10000)%Q.

(** [a / b]: raises [ZeroDivisionError] on a zero divisor. *)
Definition truediv (a b : Q) : result Q :=
  if Qeq_bool b 0 then Raise "float division by zero"
  else Ok (a / b)%Q.

(** [x or 1.0]. *)
Definition or_one (x : Q) : Q :=
  if Qeq_bool x 0 then 1%Q else x.

(** [max(0, x)]. *)
Definition max0 (x : Q) : Q :=
  if Qle_bool x 0 then 0%Q else x.

End PyFloat.

(** ** Pages and diagnostics *)

(** A block of [page.get_text("rawdict")]: [b.get("type")] and
    [b.get("bbox")]. *)
Record Block : Type := {
  b_type : option Z;
  b_bbox : option (Q * Q * Q * Q);
}.

(** A PyMuPDF page, as far as the converter looks at it. [rawdict_blocks] is
    [None] when the raw value is not a dict or has no ["blocks"] key. *)
Record Page : Type := {
  get_text : string;
  rawdict_blocks : option (list Block);
  rect_width : Q;
  rect_height : Q;
}.

(** One entry of [info["pages"]]. *)
Record PageDiag : Type := {
  page : nat;
  has_text_block : bool;
  non_ws_chars : Z;
  image_block_coverage : Q;
}.

Module Preflight.

Definition blocks_of (p : Page) : list Block :=
  default [] (rawdict_blocks p).

Definition is_type (t : Z) (b : Block) : bool :=
  match b_type b with
  | Some t' => (t' =? t)%Z
  | None => false
  end.

(** [max(0, x1 - x0) * max(0, y1 - y0)] of a block's bounding box,
    [(0, 0, 0, 0)] when the block has none. *)
Definition bbox_area (b : Block) : Q :=
  let '(x0, y0, x1, y1) := default (0, 0, 0, 0)%Q (b_bbox b) in
  (PyFloat.max0 (x1 - x0) * PyFloat.max0 (y1 - y0))%Q.

(** The loop [for b in blocks: if b.get("type") == 1: img_area += ...]. *)
Fixpoint img_area_loop (blocks : list Block) (img_area : Q) : Q :=
  match blocks with
  | [] => img_area
  | b :: rest =>
      if is_type 1 b then img_area_loop rest (img_area + bbox_area b)%Q
      else img_area_loop rest img_area
  end.

Definition page_area (p : Page) : Q :=
  PyFloat.or_one (rect_width p * rect_height p)%Q.

(** The body of the loop of [preflight] for page number [i]. *)
Definition preflight_page (i : nat) (p : Page) : result PageDiag :=
  let blocks := blocks_of p in
  let has_text := existsb (is_type 0) blocks in
  let text_plain := PyStr.strip (get_text p) in
  let non_ws := PyStr.count_non_ws text_plain in
  let img_area := img_area_loop blocks 0%Q in
  do coverage <- PyFloat.truediv img_area (page_area p) in
  Ok {| page := i;
        has_text_block := has_text;
        non_ws_chars := non_ws;
        image_block_coverage := PyFloat.round4 coverage |}.

(** [for i, page in enumerate(doc, start=1): info["pages"].append(...)],
    entered with the next page number [i] and the list built so far. *)
Fixpoint preflight_loop (doc : list Page) (i : nat) (pages : list PageDiag)
  : result (list PageDiag) :=
  match doc with
  | [] => Ok pages
  | p :: rest =>
      do d <- preflight_page i p in
      preflight_loop rest (S i) (pages ++ [d])
  end.

(** [preflight(doc)["pages"]]. *)
Definition preflight (doc : list Page) : result (list PageDiag) :=
  preflight_loop doc 1 [].

End Preflight.

(** ** The OCR trigger *)

(** The lines that set [need_ocr] in [convert_pdf]. [page_diag] is [None]
    for the empty dict used when the report has no entry for the page. *)
Definition need_ocr (ocr_mode : string) (th_nonws : Z) (th_coverage : Q)
    (page_diag : option PageDiag) (non_ws : Z) : bool :=
  if String.eqb ocr_mode "force" then true
  else if String.eqb ocr_mode "auto" then
    let has_text := default false (has_text_block <$> page_diag) in
    let coverage := default 0%Q (image_block_coverage <$> page_diag) in
    negb has_text || (non_ws <? th_nonws)%Z || Qle_bool th_coverage coverage
  else false.

(** ** The host: imports, operating system, process state *)

(** What the module finds at import time and what the operating system
    answers. [pytesseract_imported] is [pytesseract is not None], and
    [Image_imported] is [Image is not None]. *)
Record Host : Type := {
  pytesseract_imported : bool;
  Image_imported : bool;
  os_path_exists : string → bool;
  os_path_isdir : string → bool;
  os_path_isabs : string → bool;
  os_path_dirname : string → string;
  os_path_join : string → string → string;
  shutil_which : string → option string;
}.

(** Process-wide state: [pytesseract.pytesseract.tesseract_cmd] and
    [os.environ]. *)
Record Globals : Type := {
  tesseract_cmd : string;
  environ : gmap string string;
}.

(** The state before the converter is built: pytesseract's own default
    command, looked up on PATH. *)
Definition initial_globals (env : gmap string string) : Globals :=
  {| tesseract_cmd := "tesseract"; environ := env |}.

(** Files written so far, oldest first. *)
Inductive content : Type :=
| Text (s : string)
| Bytes (b : string)
| CsvRows (rows : list (list string))
| JsonReport (pages : list PageDiag).

Definition FS : Type := list (string * content).

Definition write_file (path : string) (c : content) (fs : FS) : FS :=
  fs ++ [(path, c)].

(** ** Tesseract path detection *)

Module Detect.

Definition windows_paths : list string :=
  ["C:\Program Files\Tesseract-OCR\tesseract.exe";
   "C:\Program Files (x86)\Tesseract-OCR\tesseract.exe"].

Definition unix_paths : list string :=
  ["/opt/homebrew/bin/tesseract";
   "/usr/local/bin/tesseract";
   "/usr/bin/tesseract"].

(** [os.environ.get("TESSERACT_CMD") or os.environ.get("TESSERACT_EXE")]. *)
Definition env_cmd (g : Globals) : option string :=
  PyStr.or_else (environ g !! "TESSERACT_CMD") (environ g !! "TESSERACT_EXE").

(** [[x] if x else []]. *)
Definition if_truthy (o : option string) : list string :=
  match o with
  | Some s => if PyStr.truthy s then [s] else []
  | None => []
  end.

(** The list [candidates] as the method builds it. *)
Definition candidates (g : Globals) (tesseract_cmd_arg : option string)
  : list string :=
  if_truthy (env_cmd g) ++ if_truthy tesseract_cmd_arg
    ++ windows_paths ++ unix_paths.

Definition usable (H : Host) (c : string) : bool :=
  PyStr.truthy c && os_path_exists H c.

(** The body run for the first usable candidate, before [break]. *)
Definition select (H : Host) (c : string) (g : Globals) : Globals :=
  let tdir := os_path_dirname H c in
  let tessdata := os_path_join H tdir "tessdata" in
  {| tesseract_cmd := c;
     environ :=
       if os_path_isdir H tessdata
          && negb (PyStr.truthy_opt (environ g !! "TESSDATA_PREFIX"))
       then <["TESSDATA_PREFIX" := tdir]> (environ g)
       else environ g |}.

(** [for c in candidates: if c and os.path.exists(c): ...; break]. *)
Fixpoint candidates_loop (H : Host) (cs : list string) (g : Globals)
  : Globals :=
  match cs with
  | [] => g
  | c :: rest =>
      if usable H c then select H c g else candidates_loop H rest g
  end.

Definition _configure_tesseract (H : Host) (tesseract_cmd_arg : option string)
    (g : Globals) : Globals :=
  if negb (pytesseract_imported H) then g
  else candidates_loop H (candidates g tesseract_cmd_arg) g.

(** The order the specification words: the explicit path, then the
    environment override, then the default install paths. *)
Definition spec_candidates (g : Globals) (tesseract_cmd_arg : option string)
  : list string :=
  if_truthy tesseract_cmd_arg ++ if_truthy (env_cmd g)
    ++ windows_paths ++ unix_paths.

End Detect.

(** ** The converter object *)

Record Converter : Type := {
  output_dir : string;
  image_dir : string;
  table_dir : string;
  ocr_dir : string;
  ocr_mode : string;
  ocr_lang : string;
  ocr_dpi : Z;
  ocr_rotate : string;
  ocr_psm : Z;
  ocr_oem : Z;
  th_nonws : Z;
  th_coverage : Q;
  csv_encoding : string;
  preflight_report : option string;
  password : option string;
}.

(** The keyword arguments of [__init__], after [int(...)] and [float(...)]. *)
Record Options : Type := {
  o_ocr_mode : string;
  o_ocr_lang : string;
  o_ocr_dpi : Z;
  o_ocr_rotate : string;
  o_ocr_psm : Z;
  o_ocr_oem : Z;
  o_th_nonws : Z;
  o_th_coverage : Q;
  o_csv_encoding : string;
  o_tesseract_cmd : option string;
  o_preflight_report : option string;
  o_password : option string;
}.

(** The defaults of the module. *)
Definition default_options : Options :=
  {| o_ocr_mode := "auto";
     o_ocr_lang := "jpn+eng";
     o_ocr_dpi := 300;
     o_ocr_rotate := "auto";
     o_ocr_psm := 6;
     o_ocr_oem := 1;
     o_th_nonws := 20;
     o_th_coverage := 7 # 10;
     o_csv_encoding := "utf-8-sig";
     o_tesseract_cmd := None;
     o_preflight_report := None;
     o_password := None |}.

(** [__init__]: the object and the process state it leaves. *)
Definition init (H : Host) (out : string) (o : Options) (g : Globals)
  : Converter * Globals :=
  ({| output_dir := out;
      image_dir := os_path_join H out "images";
      table_dir := os_path_join H out "tables";
      ocr_dir := os_path_join H out "ocr";
      ocr_mode := o_ocr_mode o;
      ocr_lang := o_ocr_lang o;
      ocr_dpi := Z.max 72 (o_ocr_dpi o);
      ocr_rotate := o_ocr_rotate o;
      ocr_psm := o_ocr_psm o;
      ocr_oem := o_ocr_oem o;
      th_nonws := o_th_nonws o;
      th_coverage := o_th_coverage o;
      csv_encoding := o_csv_encoding o;
      preflight_report := o_preflight_report o;
      password := o_password o |},
   Detect._configure_tesseract H (o_tesseract_cmd o) g).

(** ** The OCR engine *)

(** PyMuPDF's renderer, Pillow and pytesseract. [render p zoom] is
    [page.get_pixmap(matrix=Matrix(zoom, zoom), alpha=False)] read back as
    an RGB image; the three recognition calls take the image, the language
    and the configuration string. *)
Record Engine : Type := {
  image : Type;
  render : Page → Q → result image;
  image_to_osd : image → result string;
  img_rotate : image → Z → image;
  image_to_string : image → string → string → result string;
  image_to_data : image → string → string → result string;
  image_to_pdf_or_hocr : image → string → string → result string;
}.

(** The dict [meta] of [ocr_page]; a key that is absent reads as [None]. *)
Record Meta : Type := {
  m_used : bool;
  m_lang : option string;
  m_dpi : option Z;
  m_txt : option string;
  m_tsv : option string;
  m_hocr : option string;
  m_error : option string;
}.

Module Ocr.

Definition is_digit (ch : ascii) : bool :=
  let n := Ascii.N_of_ascii ch in ((48 <=? n) && (n <=? 57))%N.

(** The longest run of digits at the head of [s]. *)
Fixpoint take_digits (s : string) : string :=
  match s with
  | EmptyString => EmptyString
  | String ch rest =>
      if is_digit ch then String ch (take_digits rest) else EmptyString
  end.

(** [Some tail] when [s = p + tail]. *)
Fixpoint strip_prefix (p s : string) : option string :=
  match p, s with
  | EmptyString, _ => Some s
  | String a p', String b s' =>
      if Ascii.eqb a b then strip_prefix p' s' else None
  | String _ _, EmptyString => None
  end.

(** [re.search(r"Rotate: (\d+)", osd)]: group 1 of the leftmost match. *)
Fixpoint search_rotate (osd : string) : option string :=
  match osd with
  | EmptyString => None
  | String _ rest =>
      match strip_prefix "Rotate: " osd with
      | Some tail =>
          let ds := take_digits tail in
          if PyStr.truthy ds then Some ds else search_rotate rest
      | None => search_rotate rest
      end
  end.

(** [int(ds)] for a string of digits, entered with the value read so far. *)
Fixpoint int_of_digits (ds : string) (acc : Z) : Z :=
  match ds with
  | EmptyString => acc
  | String ch rest =>
      int_of_digits rest (10 * acc + (Z.of_N (Ascii.N_of_ascii ch) - 48))
  end.

Definition _page_to_image (H : Host) (E : Engine) (pg : Page) (dpi : Z)
  : result (option (image E)) :=
  if negb (Image_imported H) then Ok None
  else
    let zoom := (inject_Z dpi / 72)%Q in
    do img <- render E pg zoom in Ok (Some img).

Definition _auto_rotate (H : Host) (E : Engine) (img : image E) : image E :=
  if negb (pytesseract_imported H) then img
  else
    try_except
      (do osd <- image_to_osd E img in
       let angle :=
         match search_rotate osd with
         | Some ds => int_of_digits ds 0
         | None => 0%Z
         end in
       Ok (if (angle =? 0)%Z then img else img_rotate E img (- angle)))
      img.

Definition empty_meta : Meta :=
  {| m_used := false; m_lang := None; m_dpi := None; m_txt := None;
     m_tsv := None; m_hocr := None; m_error := None |}.

Definition with_error (msg : string) : Meta :=
  {| m_used := false; m_lang := None; m_dpi := None; m_txt := None;
     m_tsv := None; m_hocr := None; m_error := Some msg |}.

Definition config_of (self : Converter) : string :=
  "--oem " +:+ pretty (ocr_oem self) +:+ " --psm " +:+ pretty (ocr_psm self).

Definition artifact_path (H : Host) (self : Converter) (page_num : nat)
    (ext : string) : string :=
  os_path_join H (ocr_dir self) ("page" +:+ pretty page_num +:+ ext).

(** The calls of the [try] block up to the three recognitions: [Ok None]
    when no image could be made, [Raise] when a call raised. *)
Definition recognize (H : Host) (E : Engine) (self : Converter) (pg : Page)
  : result (option (string * string * string)) :=
  do img <- _page_to_image H E pg (ocr_dpi self) in
  match img with
  | None => Ok None
  | Some img =>
      let img :=
        if String.eqb (ocr_rotate self) "auto" then _auto_rotate H E img
        else img in
      let config := config_of self in
      do text <- image_to_string E img (ocr_lang self) config in
      do tsv_str <- image_to_data E img (ocr_lang self) config in
      do hocr_bytes <- image_to_pdf_or_hocr E img (ocr_lang self) config in
      Ok (Some (text, tsv_str, hocr_bytes))
  end.

(** [ocr_page]: the text, the metadata and the files written, on a disk
    where the three writes succeed; [IO.ocr_page] is the same function on
    a disk where they may fail. *)
Definition ocr_page (H : Host) (E : Engine) (g : Globals) (self : Converter)
    (pg : Page) (page_num : nat) (fs : FS) : string * Meta * FS :=
  if negb (pytesseract_imported H) || negb (Image_imported H) then
    (EmptyString, with_error "pytesseract_or_pillow_not_available", fs)
  else
    let cmd := tesseract_cmd g in
    if negb (PyStr.truthy_opt (shutil_which H cmd))
       && negb (os_path_exists H cmd) then
      (EmptyString, with_error "tesseract_not_found", fs)
    else
      match recognize H E self pg with
      | Ok None =>
          (EmptyString, with_error "failed_to_render_page_image", fs)
      | Ok (Some (text, tsv_str, hocr_bytes)) =>
          let txt_path := artifact_path H self page_num ".txt" in
          let tsv_path := artifact_path H self page_num ".tsv" in
          let hocr_path := artifact_path H self page_num ".hocr" in
          let fs := write_file txt_path (Text text) fs in
          let fs := write_file tsv_path (Text tsv_str) fs in
          let fs := write_file hocr_path (Bytes hocr_bytes) fs in
          (PyStr.strip text,
           {| m_used := true;
              m_lang := Some (ocr_lang self);
              m_dpi := Some (ocr_dpi self);
              m_txt := Some txt_path;
              m_tsv := Some tsv_path;
              m_hocr := Some hocr_path;
              m_error := None |},
           fs)
      | Raise msg => (EmptyString, with_error msg, fs)
      end.

End Ocr.

(** ** Tables *)

(** The two settings dicts, in the order of the tuple the method loops on. *)
Inductive table_settings : Type :=
| lattice_settings
| stream_settings.

(** A candidate table of pdfplumber: rows of cells, a cell being a string
    or [None]. *)
Definition Table : Type := list (list (option string)).

(** A pdfplumber page: [page.extract_tables(table_settings=settings)]. *)
Record PlumberPage : Type := {
  extract_tables : table_settings → result (list Table);
}.

Module Tables.

(** [[(cell if cell is not None else "") for cell in row]]. *)
Definition clean_row (row : list (option string)) : list string :=
  (λ cell, match cell with Some s => s | None => EmptyString end) <$> row.

(** [any(c.strip() for c in cleaned)]: every cleaned cell is a string. *)
Definition any_nonblank (cleaned : list string) : bool :=
  existsb (λ c, PyStr.truthy (PyStr.strip c)) cleaned.

(** [for row in table: ...], entered with [cleaned_rows] so far. *)
Fixpoint rows_loop (table : Table) (cleaned_rows : list (list string))
  : list (list string) :=
  match table with
  | [] => cleaned_rows
  | row :: rest =>
      let cleaned := clean_row row in
      if any_nonblank cleaned then rows_loop rest (cleaned_rows ++ [cleaned])
      else rows_loop rest cleaned_rows
  end.

Definition table_file (H : Host) (self : Converter) (i k : nat) : string :=
  os_path_join H (table_dir self)
    ("page" +:+ pretty i +:+ "_table" +:+ pretty k +:+ ".csv").

(** [for table in page_tables: ...], on the state [(saved_paths, fs)],
    every write succeeding whatever [csv_encoding] is; [IO.tables_loop]
    opens the file with that encoding and lets the write fail. *)
Fixpoint tables_loop (H : Host) (self : Converter) (i : nat)
    (page_tables : list Table) (st : list string * FS) : list string * FS :=
  match page_tables with
  | [] => st
  | table :: rest =>
      let '(saved_paths, fs) := st in
      match rows_loop table [] with
      | [] => tables_loop H self i rest st
      | cleaned_rows =>
          let path := table_file H self i (length saved_paths + 1) in
          tables_loop H self i rest
            (saved_paths ++ [path], write_file path (CsvRows cleaned_rows) fs)
      end
  end.

(** [for settings in (lattice_settings, stream_settings): ...]. *)
Fixpoint settings_loop (H : Host) (self : Converter) (i : nat)
    (pg : PlumberPage) (ss : list table_settings) (st : list string * FS)
  : list string * FS :=
  match ss with
  | [] => st
  | settings :: rest =>
      let page_tables := try_except (extract_tables pg settings) [] in
      settings_loop H self i pg rest (tables_loop H self i page_tables st)
  end.

(** [for i, page in enumerate(pdf.pages, start=1): ...], entered with the
    next page number, the dict [tables] and the files written so far. *)
Fixpoint pages_loop (H : Host) (self : Converter) (pages : list PlumberPage)
    (i : nat) (tables : gmap nat (list string)) (fs : FS)
  : gmap nat (list string) * FS :=
  match pages with
  | [] => (tables, fs)
  | pg :: rest =>
      let '(saved_paths, fs) :=
        settings_loop H self i pg [lattice_settings; stream_settings]
          ([], fs) in
      pages_loop H self rest (S i) (<[i := saved_paths]> tables) fs
  end.

Definition extract_and_save_tables (H : Host) (self : Converter)
    (pdf : list PlumberPage) (fs : FS) : gmap nat (list string) * FS :=
  pages_loop H self pdf 1 ∅ fs.

End Tables.

(** ** Records *)

Record OcrArtifacts : Type := {
  txt : option string;
  tsv : option string;
  hocr : option string;
  error : option string;
}.

Record OcrSection : Type := {
  used : bool;
  mode : option string;
  lang : option string;
  dpi : option Z;
  psm : option Z;
  oem : option Z;
  rotate : option string;
  artifacts : OcrArtifacts;
}.

(** One line of the JSONL stream. [rec_diagnostics] is [None] for [{}]. *)
Record ExtractionRecord : Type := {
  rec_page : nat;
  rec_text : string;
  rec_images : list string;
  rec_tables : list string;
  rec_diagnostics : option PageDiag;
  rec_ocr : OcrSection;
}.

Module Convert.

Section Run.

Variables (H : Host) (E : Engine) (g : Globals) (self : Converter).
Variables (diag : list PageDiag).
Variables (images tables : gmap nat (list string)).

(** [value if ocr_used else None]. *)
Definition if_used {A : Type} (ocr_used : bool) (value : A) : option A :=
  if ocr_used then Some value else None.

(** The decision taken for page [i]: the diagnostic looked up and the
    count made from the page's own text. *)
Definition page_need_ocr (i : nat) (pg : Page) : bool :=
  need_ocr (ocr_mode self) (th_nonws self) (th_coverage self)
    (diag !! (i - 1)) (PyStr.count_non_ws (PyStr.strip (get_text pg))).

(** The body of the loop of [convert_pdf] for page number [i]. *)
Definition convert_page (i : nat) (pg : Page) (fs : FS)
  : ExtractionRecord * FS :=
  let text_pymupdf := PyStr.strip (get_text pg) in
  let page_diag := diag !! (i - 1) in
  let '(ocr_used, ocr_meta, text_final, fs) :=
    if page_need_ocr i pg then
      let '(ocr_text, meta, fs) := Ocr.ocr_page H E g self pg i fs in
      if m_used meta && PyStr.truthy ocr_text
      then (true, meta, ocr_text, fs)
      else (false, meta, text_pymupdf, fs)
    else (false, Ocr.empty_meta, text_pymupdf, fs) in
  ({| rec_page := i;
      rec_text := text_final;
      rec_images := default [] (images !! i);
      rec_tables := default [] (tables !! i);
      rec_diagnostics := page_diag;
      rec_ocr :=
        {| used := ocr_used;
           mode := Some (ocr_mode self);
           lang := if_used ocr_used (ocr_lang self);
           dpi := if_used ocr_used (ocr_dpi self);
           psm := if_used ocr_used (ocr_psm self);
           oem := if_used ocr_used (ocr_oem self);
           rotate := if_used ocr_used (ocr_rotate self);
           artifacts :=
             {| txt := m_txt ocr_meta;
                tsv := m_tsv ocr_meta;
                hocr := m_hocr ocr_meta;
                error := m_error ocr_meta |} |} |},
   fs).

(** [for i, page in enumerate(doc, start=1): ...; records.append(record)],
    entered with the next page number and the records so far. *)
Fixpoint records_loop (doc : list Page) (i : nat)
    (records : list ExtractionRecord) (fs : FS)
  : list ExtractionRecord * FS :=
  match doc with
  | [] => (records, fs)
  | pg :: rest =>
      let '(record, fs) := convert_page i pg fs in
      records_loop rest (S i) (records ++ [record]) fs
  end.

End Run.

(** Where the preflight report goes. *)
Definition report_path (H : Host) (self : Converter) (name : string)
  : string :=
  if os_path_isabs H name then name else os_path_join H (output_dir self) name.

(** [convert_pdf], from the opened document [doc], the pdfplumber view
    [pdf] of the same file and the image paths per page, up to the list
    [records]. *)
Definition convert_pdf (H : Host) (E : Engine) (g : Globals)
    (self : Converter) (doc : list Page) (pdf : list PlumberPage)
    (images : gmap nat (list string)) (fs : FS)
  : result (list ExtractionRecord * FS) :=
  do diag <- Preflight.preflight doc in
  let fs :=
    match preflight_report self with
    | Some name =>
        if PyStr.truthy name
        then write_file (report_path H self name) (JsonReport diag) fs
        else fs
    | None => fs
    end in
  let '(tables, fs) := Tables.extract_and_save_tables H self pdf fs in
  Ok (records_loop H E g self diag images tables doc 1 [] fs).

End Convert.

(** ** The specification's wording, to compare the code with *)

Module Spec.

(** The summed bounding-box areas of the image-kind blocks. *)
Definition image_area (blocks : list Block) : Q :=
  foldr (λ b s, (Preflight.bbox_area b + s)%Q) 0%Q
    (List.filter (Preflight.is_type 1) blocks).


(** A cell with something in it: present, and not only whitespace. *)
Definition nonblank (cell : option string) : bool :=
  match cell with
  | Some s => PyStr.truthy (PyStr.strip s)
  | None => false
  end.

(** A candidate with a non-blank cell in at least one row. *)
Definition has_nonblank (t : Table) : bool :=
  existsb (existsb nonblank) t.

(** The rows of a candidate that are written: those with a non-blank
    cell, every absent cell turned into the empty string. *)
Definition cleaned (t : Table) : list (list string) :=
  Tables.clean_row <$> List.filter (existsb nonblank) t.

(** The candidates of a page: the lattice ones, then the stream ones; a
    strategy that raises has none. *)
Definition candidates_of (pg : PlumberPage) : list Table :=
  try_except (extract_tables pg lattice_settings) []
    ++ try_except (extract_tables pg stream_settings) [].

(** The candidates of a page that are kept, in order. *)
Definition kept (pg : PlumberPage) : list Table :=
  List.filter has_nonblank (candidates_of pg).

(** The files of page [i]: the k-th kept candidate goes to table k. *)
Definition persisted (H : Host) (self : Converter) (i : nat)
    (pg : PlumberPage) : list (string * content) :=
  imap (λ k t, (Tables.table_file H self i (S k), CsvRows (cleaned t)))
    (kept pg).

(** The support library is unavailable: pytesseract or Pillow failed to
    import. *)
Definition libs_missing (H : Host) : bool :=
  negb (pytesseract_imported H) || negb (Image_imported H).

(** The engine binary cannot be located: the configured command is not
    on the PATH and is not an existing file. *)
Definition binary_missing (H : Host) (g : Globals) : bool :=
  negb (PyStr.truthy_opt (shutil_which H (tesseract_cmd g)))
  && negb (os_path_exists H (tesseract_cmd g)).

(** The configured command when the candidates are tried in the order
    of the specification. *)
Definition configured_in_spec_order (H : Host)
    (tesseract_cmd_arg : option string) (g : Globals) : string :=
  tesseract_cmd
    (Detect.candidates_loop H (Detect.spec_candidates g tesseract_cmd_arg) g).

End Spec.

(** ** Concrete hosts, engines and documents *)

Module Sample.

Definition member (s : string) (l : list string) : bool :=
  existsb (String.eqb s) l.

(** A POSIX-like host on which exactly the paths [present] exist. *)
Definition host (libs : bool) (present : list string) : Host :=
  {| pytesseract_imported := libs;
     Image_imported := libs;
     os_path_exists := λ p, member p present;
     os_path_isdir := λ _, false;
     os_path_isabs := λ p, match p with String "/" _ => true | _ => false end;
     os_path_dirname := λ _, "/opt";
     os_path_join := λ a b, a +:+ "/" +:+ b;
     shutil_which := λ c, if member c present then Some c else None |}.

(** An engine whose images are strings: a page renders to its own text
    and is recognised as [answer]. *)
Definition engine (answer : string) : Engine :=
  {| image := string;
     render := λ pg _, Ok (get_text pg);
     image_to_osd := λ _, Raise "no osd";
     img_rotate := λ img _, img;
     image_to_string := λ _ _ _, Ok answer;
     image_to_data := λ _ _ _, Ok "tsv";
     image_to_pdf_or_hocr := λ _ _ _, Ok "hocr" |}.

Definition converter (m : string) : Converter :=
  fst (init (host true []) "out"
         {| o_ocr_mode := m;
            o_ocr_lang := o_ocr_lang default_options;
            o_ocr_dpi := o_ocr_dpi default_options;
            o_ocr_rotate := o_ocr_rotate default_options;
            o_ocr_psm := o_ocr_psm default_options;
            o_ocr_oem := o_ocr_oem default_options;
            o_th_nonws := o_th_nonws default_options;
            o_th_coverage := o_th_coverage default_options;
            o_csv_encoding := o_csv_encoding default_options;
            o_tesseract_cmd := None;
            o_preflight_report := None;
            o_password := None |}
         (initial_globals ∅)).

Definition text_block : Block := {| b_type := Some 0%Z; b_bbox := None |}.

(** An image block that covers a 10 by 10 page. *)
Definition full_image : Block :=
  {| b_type := Some 1%Z; b_bbox := Some (0, 0, 10, 10)%Q |}.

(** A 10 by 10 page with a line of text and no image. *)
Definition text_page : Page :=
  {| get_text := "native text of the page, long enough";
     rawdict_blocks := Some [text_block];
     rect_width := 10; rect_height := 10 |}.

(** A 10 by 10 page on which the same full-page image is placed twice. *)
Definition stacked_page : Page :=
  {| get_text := EmptyString;
     rawdict_blocks := Some [full_image; full_image];
     rect_width := 10; rect_height := 10 |}.

(** A page that reports no area. *)
Definition flat_page : Page :=
  {| get_text := "x";
     rawdict_blocks := Some [full_image];
     rect_width := 0; rect_height := 10 |}.

Definition diag_of (doc : list Page) : list PageDiag :=
  try_except (Preflight.preflight doc) [].

(** The environment override and the explicit path both exist. *)
Definition both_present : Host :=
  host true ["/opt/env/tesseract"; "/opt/cli/tesseract"].

Definition env_override : Globals :=
  initial_globals {["TESSERACT_CMD" := "/opt/env/tesseract"]}.

Definition blank_table : Table := [[None; Some " "]; [Some EmptyString]].

Definition real_table : Table := [[None; Some "a"]; [None; Some " "]].

(** Lattice finds a blank and a real table, stream the real one again. *)
Definition plumber_page : PlumberPage :=
  {| extract_tables := λ s,
       match s with
       | lattice_settings => Ok [blank_table; real_table]
       | stream_settings => Ok [real_table]
       end |}.

End Sample.

(** ** Helpers to state further properties *)

Module Props.

(** The preflight report as a file, when the converter is asked for one. *)
Definition report_files (H : Host) (self : Converter) (diag : list PageDiag)
  : FS :=
  match preflight_report self with
  | Some name =>
      if PyStr.truthy name
      then [(Convert.report_path H self name, JsonReport diag)]
      else []
  | None => []
  end.

(** The three artifacts of a page, in the order they are written. *)
Definition ocr_files (H : Host) (self : Converter) (page_num : nat)
    (text tsv_str hocr_bytes : string) : FS :=
  [(Ocr.artifact_path H self page_num ".txt", Text text);
   (Ocr.artifact_path H self page_num ".tsv", Text tsv_str);
   (Ocr.artifact_path H self page_num ".hocr", Bytes hocr_bytes)].

(** The engine [E] with another orientation detector. *)
Definition with_osd (E : Engine) (osd : image E → result string) : Engine :=
  {| image := image E;
     render := render E;
     image_to_osd := osd;
     img_rotate := img_rotate E;
     image_to_string := image_to_string E;
     image_to_data := image_to_data E;
     image_to_pdf_or_hocr := image_to_pdf_or_hocr E |}.

(** A string of decimal digits only. *)
Definition all_digits (s : string) : bool :=
  forallb Ocr.is_digit (String.list_ascii_of_string s).

(** The first character of [s], if any, is not a digit. *)
Definition no_leading_digit (s : string) : bool :=
  match s with
  | EmptyString => true
  | String ch _ => negb (Ocr.is_digit ch)
  end.

(** The character [c] does not occur in [s]. *)
Definition no_char (c : ascii) (s : string) : bool :=
  forallb (λ ch, negb (Ascii.eqb ch c)) (String.list_ascii_of_string s).

(** The three recognition calls on one image, with the language and the
    configuration string of the converter. *)
Definition recognize_image (E : Engine) (self : Converter) (img : image E)
  : result (option (string * string * string)) :=
  bind (image_to_string E img (ocr_lang self) (Ocr.config_of self)) (λ text,
  bind (image_to_data E img (ocr_lang self) (Ocr.config_of self)) (λ tsv_str,
  bind (image_to_pdf_or_hocr E img (ocr_lang self) (Ocr.config_of self))
    (λ hocr_bytes, Ok (Some (text, tsv_str, hocr_bytes))))).

(** An engine whose orientation detector answers [osd] and whose rotation
    records the angle in the image. *)
Definition osd_engine (osd : string) : Engine :=
  {| image := string;
     render := λ pg _, Ok (get_text pg);
     image_to_osd := λ _, Ok osd;
     img_rotate := λ img angle, img +:+ " rotated by " +:+ pretty angle;
     image_to_string := λ img _ _, Ok img;
     image_to_data := λ _ _ _, Ok "tsv";
     image_to_pdf_or_hocr := λ _ _ _, Ok "hocr" |}.

End Props.

(** ** The unused text extractor *)

Module Text.



End Text.

(** ** More helpers and samples *)

Module Trace.

(** The OCR artifacts written for page [i] by the record loop: the three
    files when OCR is triggered, the engine is there and the recognition
    returns; none otherwise. *)
Definition page_ocr_files (H : Host) (E : Engine) (g : Globals)
    (self : Converter) (diag : list PageDiag) (i : nat) (pg : Page) : FS :=
  if Convert.page_need_ocr self diag i pg
     && negb (Spec.libs_missing H) && negb (Spec.binary_missing H g)
  then
    match Ocr.recognize H E self pg with
    | Ok (Some (text, tsv_str, hocr_bytes)) =>
        Props.ocr_files H self i text tsv_str hocr_bytes
    | _ => []
    end
  else [].

(** An engine whose renderer raises. *)
Definition broken_engine : Engine :=
  {| image := string;
     render := λ _ _, Raise "cannot render";
     image_to_osd := λ _, Raise "no osd";
     img_rotate := λ img _, img;
     image_to_string := λ _ _ _, Ok "never reached";
     image_to_data := λ _ _ _, Ok "tsv";
     image_to_pdf_or_hocr := λ _ _ _, Ok "hocr" |}.

(** A page whose text layer is only whitespace, with a text block. *)
Definition blank_page : Page :=
  {| get_text := "     ";
     rawdict_blocks := Some [Sample.text_block];
     rect_width := 10; rect_height := 10 |}.

(** A 10 by 10 page filled by one image. *)
Definition photo_page : Page :=
  {| get_text := EmptyString;
     rawdict_blocks := Some [Sample.full_image];
     rect_width := 10; rect_height := 10 |}.

End Trace.

(** ** Images *)

(** The dict of [doc.extract_image(xref)], as far as it is read: its keys
    "ext" and "image". *)
Record ImageData : Type := {
  data_ext : option string;
  data_image : option string;
}.

(** PyMuPDF, for the image extractor. [get_images] lists the xref of each
    entry of [page.get_images(full=True)], [get_drawings] the rectangle of
    each drawing, and [clip_png p zoom r] is the PNG saved from
    [page.get_pixmap(matrix=Matrix(zoom, zoom), clip=r, alpha=False)]. *)
Record Fitz : Type := {
  get_images : Page → list Z;
  extract_image : Z → result ImageData;
  get_drawings : Page → list (Q * Q * Q * Q);
  clip_png : Page → Q → Q * Q * Q * Q → result string;
  include_rect : Q * Q * Q * Q → Q * Q * Q * Q → Q * Q * Q * Q;
  get_area : Q * Q * Q * Q → Q;
}.

Module Images.

Definition IMAGE_ZOOM : Q := 4.

Definition image_file (H : Host) (self : Converter) (name : string) : string :=
  os_path_join H (image_dir self) name.

(** [for img in page.get_images(full=True): ...], on the set [seen_xrefs],
    the list [saved] and the files written. A dict without the key
    "image" raises [KeyError]. *)
Fixpoint xobject_loop (F : Fitz) (H : Host) (self : Converter) (i : nat)
    (xrefs : list Z) (seen_xrefs : gset Z) (saved : list string) (fs : FS)
  : result (list string * FS) :=
  match xrefs with
  | [] => Ok (saved, fs)
  | xref :: rest =>
      if bool_decide (xref ∈ seen_xrefs)
      then xobject_loop F H self i rest seen_xrefs saved fs
      else
        let seen_xrefs := {[xref]} ∪ seen_xrefs in
        do data <- extract_image F xref in
        let ext := default "png" (data_ext data) in
        let name :=
          "page" +:+ pretty i +:+ "_img" +:+ pretty (length saved + 1)
            +:+ "." +:+ ext in
        let path := image_file H self name in
        match data_image data with
        | None => Raise "'image'"
        | Some bytes =>
            xobject_loop F H self i rest seen_xrefs (saved ++ [path])
              (write_file path (Bytes bytes) fs)
        end
  end.

(** [for block in raw.get("blocks", []): if block.get("type") == 1: ...],
    on [fig_count], [saved] and the files written. A block without the
    key "bbox" raises [KeyError]. *)
Fixpoint figures_loop (F : Fitz) (H : Host) (self : Converter) (i : nat)
    (pg : Page) (blocks : list Block) (fig_count : nat)
    (saved : list string) (fs : FS) : result (list string * FS) :=
  match blocks with
  | [] => Ok (saved, fs)
  | block :: rest =>
      if Preflight.is_type 1 block then
        let fig_count := S fig_count in
        match b_bbox block with
        | None => Raise "'bbox'"
        | Some rect =>
            do png <- clip_png F pg IMAGE_ZOOM rect in
            let name := "page" +:+ pretty i +:+ "_fig" +:+ pretty fig_count
                          +:+ ".png" in
            let path := image_file H self name in
            figures_loop F H self i pg rest fig_count (saved ++ [path])
              (write_file path (Bytes png) fs)
        end
      else figures_loop F H self i pg rest fig_count saved fs
  end.

(** [for d in drawings: bbox = r if bbox is None else bbox.include_rect(r)]. *)
Fixpoint union_loop (F : Fitz) (drawings : list (Q * Q * Q * Q))
    (bbox : option (Q * Q * Q * Q)) : option (Q * Q * Q * Q) :=
  match drawings with
  | [] => bbox
  | r :: rest =>
      union_loop F rest
        (Some match bbox with
              | None => r
              | Some b => include_rect F b r
              end)
  end.

(** The vector drawings of a page: one render of their common box. *)
Definition vector_step (F : Fitz) (H : Host) (self : Converter) (i : nat)
    (pg : Page) (saved : list string) (fs : FS) : result (list string * FS) :=
  match get_drawings F pg with
  | [] => Ok (saved, fs)
  | drawings =>
      match union_loop F drawings None with
      | Some bbox =>
          if negb (Qle_bool (get_area F bbox) 0) then
            do png <- clip_png F pg IMAGE_ZOOM bbox in
            let path := image_file H self
                          ("page" +:+ pretty i +:+ "_vector.png") in
            Ok (saved ++ [path], write_file path (Bytes png) fs)
          else Ok (saved, fs)
      | None => Ok (saved, fs)
      end
  end.

(** The body of the loop over the pages: the three passes of page [i]. *)
Definition images_of_page (F : Fitz) (H : Host) (self : Converter) (i : nat)
    (pg : Page) (fs : FS) : result (list string * FS) :=
  do st <- xobject_loop F H self i (get_images F pg) ∅ [] fs in
  do st <- figures_loop F H self i pg (Preflight.blocks_of pg) 0 st.1 st.2 in
  vector_step F H self i pg st.1 st.2.

(** [for i, page in enumerate(doc, start=1): ...; images[i] = saved]. *)
Fixpoint pages_loop (F : Fitz) (H : Host) (self : Converter)
    (doc : list Page) (i : nat) (images : gmap nat (list string)) (fs : FS)
  : result (gmap nat (list string) * FS) :=
  match doc with
  | [] => Ok (images, fs)
  | pg :: rest =>
      do st <- images_of_page F H self i pg fs in
      pages_loop F H self rest (S i) (<[i := st.1]> images) st.2
  end.

Definition extract_images_by_page (F : Fitz) (H : Host) (self : Converter)
    (doc : list Page) (fs : FS) : result (gmap nat (list string) * FS) :=
  pages_loop F H self doc 1 ∅ fs.

(** [convert_pdf] with its image pass: the diagnostics and the report,
    the images, the tables, then the records. *)
Definition convert_pdf (F : Fitz) (H : Host) (E : Engine) (g : Globals)
    (self : Converter) (doc : list Page) (pdf : list PlumberPage) (fs : FS)
  : result (list ExtractionRecord * FS) :=
  do diag <- Preflight.preflight doc in
  let fs :=
    match preflight_report self with
    | Some name =>
        if PyStr.truthy name
        then write_file (Convert.report_path H self name) (JsonReport diag) fs
        else fs
    | None => fs
    end in
  do im <- extract_images_by_page F H self doc fs in
  let '(tables, fs) := Tables.extract_and_save_tables H self pdf im.2 in
  Ok (Convert.records_loop H E g self diag im.1 tables doc 1 [] fs).



(** The bytes of the image [xref], when it has some. *)
Definition bytes_of (F : Fitz) (xref : Z) : option string :=
  match extract_image F xref with
  | Ok data => data_image data
  | Raise _ => None
  end.





(** Some call the extractor makes for the page fails: an image without
    bytes, or an image block without a box. *)
Definition page_broken (F : Fitz) (pg : Page) : Prop :=
  (∃ xref, xref ∈ get_images F pg ∧ bytes_of F xref = None)
  ∨ (∃ b, b ∈ Preflight.blocks_of pg ∧ Preflight.is_type 1 b = true
          ∧ b_bbox b = None).


(** A PyMuPDF on which every call of the extractor succeeds. *)
Definition sample_fitz : Fitz :=
  {| get_images := λ _, [7; 9; 7]%Z;
     extract_image := λ x,
       Ok {| data_ext := if (x =? 7)%Z then Some "jpeg" else None;
             data_image := Some "bytes" |};
     get_drawings := λ _, [(0, 0, 1, 1)%Q];
     clip_png := λ _ _ _, Ok "png";
     include_rect := λ b _, b;
     get_area := λ _, 1%Q |}.

(** A page with an image block that has no bounding box. *)
Definition boxless_page : Page :=
  {| get_text := "x";
     rawdict_blocks := Some [{| b_type := Some 1%Z; b_bbox := None |}];
     rect_width := 10; rect_height := 10 |}.

End Images.

(** ** Writes that may fail *)

(** What [with open(path, ...) as f: f.write(...)] does: it succeeds, or
    it raises, leaving at the path what had been written by then if the
    file was created at all. *)
Inductive write_outcome : Type :=
| Written
| WriteFailed (msg : string) (left : option content).

(** The disk and the codecs: the outcome of writing a content at a path,
    with the encoding the file is opened with ([None] for a binary file). *)
Record Disk : Type := {
  write_to : string → option string → content → write_outcome;
}.

Module IO.

Definition is_written (o : write_outcome) : bool :=
  match o with
  | Written => true
  | WriteFailed _ _ => false
  end.

(** A write: its result and the files afterwards. *)
Definition write_file (D : Disk) (path : string) (encoding : option string)
    (c : content) (fs : FS) : result unit * FS :=
  match write_to D path encoding c with
  | Written => (Ok tt, fs ++ [(path, c)])
  | WriteFailed msg None => (Raise msg, fs)
  | WriteFailed msg (Some partial) => (Raise msg, fs ++ [(path, partial)])
  end.

(** The files of a list of writes made in order until one fails, and the
    message of that one. *)
Fixpoint write_all (D : Disk) (ws : list (string * option string * content))
    (fs : FS) : result unit * FS :=
  match ws with
  | [] => (Ok tt, fs)
  | (path, encoding, c) :: rest =>
      match write_file D path encoding c fs with
      | (Ok _, fs) => write_all D rest fs
      | (Raise msg, fs) => (Raise msg, fs)
      end
  end.

(** The three writes of [ocr_page], in the order of the source: the text
    and the token table as UTF-8 text, the markup as bytes. *)
Definition artifact_writes (H : Host) (self : Converter) (page_num : nat)
    (text tsv_str hocr_bytes : string)
  : list (string * option string * content) :=
  [(Ocr.artifact_path H self page_num ".txt", Some "utf-8", Text text);
   (Ocr.artifact_path H self page_num ".tsv", Some "utf-8", Text tsv_str);
   (Ocr.artifact_path H self page_num ".hocr", None, Bytes hocr_bytes)].

(** [ocr_page] with writes that may fail: the writes are inside the [try],
    so a failing one ends the page with its message as the error, after
    the files written before it. *)
Definition ocr_page (D : Disk) (H : Host) (E : Engine) (g : Globals)
    (self : Converter) (pg : Page) (page_num : nat) (fs : FS)
  : string * Meta * FS :=
  if negb (pytesseract_imported H) || negb (Image_imported H) then
    (EmptyString, Ocr.with_error "pytesseract_or_pillow_not_available", fs)
  else
    let cmd := tesseract_cmd g in
    if negb (PyStr.truthy_opt (shutil_which H cmd))
       && negb (os_path_exists H cmd) then
      (EmptyString, Ocr.with_error "tesseract_not_found", fs)
    else
      match Ocr.recognize H E self pg with
      | Ok None =>
          (EmptyString, Ocr.with_error "failed_to_render_page_image", fs)
      | Ok (Some (text, tsv_str, hocr_bytes)) =>
          let txt_path := Ocr.artifact_path H self page_num ".txt" in
          let tsv_path := Ocr.artifact_path H self page_num ".tsv" in
          let hocr_path := Ocr.artifact_path H self page_num ".hocr" in
          match write_file D txt_path (Some "utf-8") (Text text) fs with
          | (Raise msg, fs) => (EmptyString, Ocr.with_error msg, fs)
          | (Ok _, fs) =>
          match write_file D tsv_path (Some "utf-8") (Text tsv_str) fs with
          | (Raise msg, fs) => (EmptyString, Ocr.with_error msg, fs)
          | (Ok _, fs) =>
          match write_file D hocr_path None (Bytes hocr_bytes) fs with
          | (Raise msg, fs) => (EmptyString, Ocr.with_error msg, fs)
          | (Ok _, fs) =>
              (PyStr.strip text,
               {| m_used := true;
                  m_lang := Some (ocr_lang self);
                  m_dpi := Some (ocr_dpi self);
                  m_txt := Some txt_path;
                  m_tsv := Some tsv_path;
                  m_hocr := Some hocr_path;
                  m_error := None |},
               fs)
          end end end
      | Raise msg => (EmptyString, Ocr.with_error msg, fs)
      end.

Section Run.

Variables (D : Disk) (H : Host) (E : Engine) (g : Globals) (self : Converter).
Variables (diag : list PageDiag).
Variables (images tables : gmap nat (list string)).

(** The body of the loop of [convert_pdf] for page number [i], on top of
    the [ocr_page] above. *)
Definition convert_page (i : nat) (pg : Page) (fs : FS)
  : ExtractionRecord * FS :=
  let text_pymupdf := PyStr.strip (get_text pg) in
  let page_diag := diag !! (i - 1) in
  let '(ocr_used, ocr_meta, text_final, fs) :=
    if Convert.page_need_ocr self diag i pg then
      let '(ocr_text, meta, fs) := ocr_page D H E g self pg i fs in
      if m_used meta && PyStr.truthy ocr_text
      then (true, meta, ocr_text, fs)
      else (false, meta, text_pymupdf, fs)
    else (false, Ocr.empty_meta, text_pymupdf, fs) in
  ({| rec_page := i;
      rec_text := text_final;
      rec_images := default [] (images !! i);
      rec_tables := default [] (tables !! i);
      rec_diagnostics := page_diag;
      rec_ocr :=
        {| used := ocr_used;
           mode := Some (ocr_mode self);
           lang := Convert.if_used ocr_used (ocr_lang self);
           dpi := Convert.if_used ocr_used (ocr_dpi self);
           psm := Convert.if_used ocr_used (ocr_psm self);
           oem := Convert.if_used ocr_used (ocr_oem self);
           rotate := Convert.if_used ocr_used (ocr_rotate self);
           artifacts :=
             {| txt := m_txt ocr_meta;
                tsv := m_tsv ocr_meta;
                hocr := m_hocr ocr_meta;
                error := m_error ocr_meta |} |} |},
   fs).

Fixpoint records_loop (doc : list Page) (i : nat)
    (records : list ExtractionRecord) (fs : FS)
  : list ExtractionRecord * FS :=
  match doc with
  | [] => (records, fs)
  | pg :: rest =>
      let '(record, fs) := convert_page i pg fs in
      records_loop rest (S i) (records ++ [record]) fs
  end.

End Run.

(** The table loops with a write that may fail. The file is opened with
    [encoding=self.csv_encoding] outside any [try]: a failing write leaves
    [extract_and_save_tables] as an exception, with the files as they are
    at that point. *)
Fixpoint tables_loop (D : Disk) (H : Host) (self : Converter) (i : nat)
    (page_tables : list Table) (st : list string * FS)
  : result (list string) * FS :=
  match page_tables with
  | [] => (Ok st.1, st.2)
  | table :: rest =>
      let '(saved_paths, fs) := st in
      match Tables.rows_loop table [] with
      | [] => tables_loop D H self i rest st
      | cleaned_rows =>
          let path := Tables.table_file H self i (length saved_paths + 1) in
          match write_file D path (Some (csv_encoding self))
                  (CsvRows cleaned_rows) fs with
          | (Ok _, fs) =>
              tables_loop D H self i rest (saved_paths ++ [path], fs)
          | (Raise msg, fs) => (Raise msg, fs)
          end
      end
  end.

Fixpoint settings_loop (D : Disk) (H : Host) (self : Converter) (i : nat)
    (pg : PlumberPage) (ss : list table_settings) (st : list string * FS)
  : result (list string) * FS :=
  match ss with
  | [] => (Ok st.1, st.2)
  | settings :: rest =>
      let page_tables := try_except (extract_tables pg settings) [] in
      match tables_loop D H self i page_tables st with
      | (Ok saved_paths, fs) =>
          settings_loop D H self i pg rest (saved_paths, fs)
      | (Raise msg, fs) => (Raise msg, fs)
      end
  end.

Fixpoint pages_loop (D : Disk) (H : Host) (self : Converter)
    (pages : list PlumberPage) (i : nat) (tables : gmap nat (list string))
    (fs : FS) : result (gmap nat (list string)) * FS :=
  match pages with
  | [] => (Ok tables, fs)
  | pg :: rest =>
      match settings_loop D H self i pg [lattice_settings; stream_settings]
              ([], fs) with
      | (Ok saved_paths, fs) =>
          pages_loop D H self rest (S i) (<[i := saved_paths]> tables) fs
      | (Raise msg, fs) => (Raise msg, fs)
      end
  end.

Definition extract_and_save_tables (D : Disk) (H : Host) (self : Converter)
    (pdf : list PlumberPage) (fs : FS)
  : result (gmap nat (list string)) * FS :=
  pages_loop D H self pdf 1 ∅ fs.

(** The writes of table files, each opened with [self.csv_encoding]. *)
Definition csv_writes (self : Converter) (files : FS)
  : list (string * option string * content) :=
  (λ w, (w.1, Some (csv_encoding self), w.2)) <$> files.

(** Every write of the list succeeds, each file being opened with the
    encoding [enc]. *)
Definition all_written (D : Disk) (enc : option string) (ws : FS) : bool :=
  forallb (λ w, is_written (write_to D w.1 enc w.2)) ws.

(** The artifacts left by page [i] in the record loop: the files of the
    three writes up to the first that fails, when OCR is triggered, the
    engine is there and the recognition returns; none otherwise. *)
Definition page_files (D : Disk) (H : Host) (E : Engine) (g : Globals)
    (self : Converter) (diag : list PageDiag) (i : nat) (pg : Page) : FS :=
  if Convert.page_need_ocr self diag i pg
     && negb (Spec.libs_missing H) && negb (Spec.binary_missing H g)
  then
    match Ocr.recognize H E self pg with
    | Ok (Some (text, tsv_str, hocr_bytes)) =>
        (write_all D (artifact_writes H self i text tsv_str hocr_bytes) []).2
    | _ => []
    end
  else [].

(** A disk on which every write succeeds. *)
Definition reliable : Disk := {| write_to := λ _ _ _, Written |}.

(** A disk on which the write at [bad] fails before the file is created. *)
Definition full_at (bad : string) : Disk :=
  {| write_to := λ path _ _,
       if String.eqb path bad
       then WriteFailed "No space left on device" None
       else Written |}.

Definition is_ascii (ch : ascii) : bool :=
  (Ascii.N_of_ascii ch <? 128)%N.

Definition ascii_only (s : string) : bool :=
  forallb is_ascii (String.list_ascii_of_string s).

(** A disk whose ascii codec refuses every character above 127 and leaves
    the file it opened empty. *)
Definition strict_ascii : Disk :=
  {| write_to := λ _ encoding c,
       match encoding, c with
       | Some enc, CsvRows rows =>
           if String.eqb enc "ascii" && negb (forallb (forallb ascii_only) rows)
           then WriteFailed "'ascii' codec can't encode character"
                  (Some (CsvRows []))
           else Written
       | _, _ => Written
       end |}.

(** The sample converter asked to write its tables in ascii. *)
Definition ascii_converter : Converter :=
  {| output_dir := output_dir (Sample.converter "auto");
     image_dir := image_dir (Sample.converter "auto");
     table_dir := table_dir (Sample.converter "auto");
     ocr_dir := ocr_dir (Sample.converter "auto");
     ocr_mode := "auto";
     ocr_lang := ocr_lang (Sample.converter "auto");
     ocr_dpi := ocr_dpi (Sample.converter "auto");
     ocr_rotate := ocr_rotate (Sample.converter "auto");
     ocr_psm := ocr_psm (Sample.converter "auto");
     ocr_oem := ocr_oem (Sample.converter "auto");
     th_nonws := th_nonws (Sample.converter "auto");
     th_coverage := th_coverage (Sample.converter "auto");
     csv_encoding := "ascii";
     preflight_report := None;
     password := None |}.

(** A page on which lattice finds one table with an accented cell. *)
Definition accented_page : PlumberPage :=
  {| extract_tables := λ s,
       match s with
       | lattice_settings =>
           Ok [[[Some ("caf" +:+ String "233"%char EmptyString); Some "1"]]]
       | stream_settings => Ok []
       end |}.

End IO.

(** * Properties *)

(** ** Strings *)

Lemma truthy_true (s : string) : PyStr.truthy s = true ↔ s ≠ EmptyString.
Proof. destruct s; simpl; split; congruence. Qed.

Example strip_both_ends : PyStr.strip "  two words  " = "two words".
Proof. reflexivity. Qed.

Example strip_blank : PyStr.strip "   " = EmptyString.
Proof. reflexivity. Qed.

Example count_non_ws_skips_spaces : PyStr.count_non_ws "a b  c" = 3%Z.
Proof. reflexivity. Qed.

Example search_rotate_finds_angle :
  Ocr.search_rotate "Orientation in degrees: 270 Rotate: 90 Script: Latin"
  = Some "90"
  ∧ Ocr.int_of_digits "90" 0 = 90%Z.
Proof. split; reflexivity. Qed.

Example round4_off_ties :
  (PyFloat.round4 (12346 # 100000) == 1235 # 10000)%Q
  ∧ (PyFloat.round4 (1 # 3) == 3333 # 10000)%Q
  ∧ (PyFloat.round4 2 == 2)%Q.
Proof. repeat split; reflexivity. Qed.

(** ** The OCR trigger *)

(** C1. The trigger is false in mode off and true in mode force, whatever
    the diagnostic; in mode auto it is true exactly when the page has no
    text block, or the count of non-whitespace characters is below the
    threshold (strictly: a count equal to the threshold does not trigger, a
    count one below does), or the coverage reaches the threshold (a
    coverage equal to it triggers). The count the loop compares is the
    count the diagnostic of the page records. *)
Theorem need_ocr_policy :
  (∀ tn tc d nw, need_ocr "off" tn tc d nw = false) ∧
  (∀ tn tc d nw, need_ocr "force" tn tc d nw = true) ∧
  (∀ tn tc d nw,
     need_ocr "auto" tn tc (Some d) nw = true ↔
     has_text_block d = false ∨ (nw < tn)%Z
     ∨ (tc <= image_block_coverage d)%Q) ∧
  (∀ tn tc d,
     has_text_block d = true → (image_block_coverage d < tc)%Q →
     need_ocr "auto" tn tc (Some d) tn = false
     ∧ need_ocr "auto" tn tc (Some d) (tn - 1) = true) ∧
  (∀ tn d nw,
     need_ocr "auto" tn (image_block_coverage d) (Some d) nw = true) ∧
  (∀ i pg d,
     Preflight.preflight_page i pg = Ok d →
     non_ws_chars d = PyStr.count_non_ws (PyStr.strip (get_text pg))).
Proof.
  assert (Hauto : ∀ tn tc d nw,
     need_ocr "auto" tn tc (Some d) nw = true ↔
     has_text_block d = false ∨ (nw < tn)%Z
     ∨ (tc <= image_block_coverage d)%Q).
  { intros tn tc d nw. unfold need_ocr. simpl.
    rewrite !orb_true_iff, negb_true_iff, Z.ltb_lt, Qle_bool_iff. tauto. }
  split; [done|]. split; [done|]. split; [exact Hauto|].
  split; [|split].
  - intros tn tc d Htext Hcov. split.
    + destruct (need_ocr "auto" tn tc (Some d) tn) eqn:Hn; [|done].
      apply Hauto in Hn as [Hn | [Hn | Hn]].
      * congruence.
      * lia.
      * exfalso. apply (Qlt_not_le _ _ Hcov). exact Hn.
    + apply Hauto. right. left. lia.
  - intros tn d nw. apply Hauto. right. right. apply Qle_refl.
  - intros i pg d. unfold Preflight.preflight_page.
    destruct (PyFloat.truediv _ _); simpl; [|discriminate].
    intros [= <-]. reflexivity.
Qed.

(** C10. A mode that is neither force nor auto never triggers OCR: it
    behaves as off does, for every diagnostic, present or missing. *)
Theorem other_mode_never_triggers (m : string) (tn : Z) (tc : Q)
    (d : option PageDiag) (nw : Z) :
  m ≠ "force" → m ≠ "auto" →
  need_ocr m tn tc d nw = false
  ∧ need_ocr m tn tc d nw = need_ocr "off" tn tc d nw.
Proof.
  intros Hf Ha. unfold need_ocr.
  apply String.eqb_neq in Hf, Ha. rewrite Hf, Ha. simpl. done.
Qed.

Lemma other_mode_never_triggers_witness :
  need_ocr "of" 20 (7 # 10) None 0 = false
  ∧ need_ocr "of" 20 (7 # 10) None 0 = need_ocr "off" 20 (7 # 10) None 0.
Proof. apply (other_mode_never_triggers "of"); compute_done. Defined.

Lemma need_ocr_policy_witness :
  let d := {| page := 1; has_text_block := true; non_ws_chars := 500;
              image_block_coverage := 1 # 10 |} in
  need_ocr "auto" 20 (7 # 10) (Some d) 20 = false
  ∧ need_ocr "auto" 20 (7 # 10) (Some d) (20 - 1) = true.
Proof.
  intros d.
  apply (proj1 (proj2 (proj2 (proj2 need_ocr_policy))) 20%Z (7 # 10)%Q d);
    reflexivity.
Defined.

(** ** Diagnostics *)

Section Rounding.

Local Open Scope Q_scope.

Lemma max0_nonneg (x : Q) : 0 <= PyFloat.max0 x.
Proof.
  unfold PyFloat.max0. destruct (Qle_bool x 0) eqn:Hx; [apply Qle_refl|].
  destruct (Qlt_le_dec 0 x) as [Hlt | Hle]; [apply Qlt_le_weak, Hlt|].
  apply Qle_bool_iff in Hle. congruence.
Qed.

Lemma or_one_nonzero (x : Q) : ¬ PyFloat.or_one x == 0.
Proof.
  unfold PyFloat.or_one. destruct (Qeq_bool x 0) eqn:Hx.
  - discriminate.
  - apply Qeq_bool_neq, Hx.
Qed.

Lemma or_one_pos (x : Q) : 0 <= x → 0 < PyFloat.or_one x.
Proof.
  intros Hx. pose proof (or_one_nonzero x) as Hnz.
  unfold PyFloat.or_one in *. destruct (Qeq_bool x 0); [reflexivity|].
  apply Qle_lteq in Hx as [Hx | Hx]; [exact Hx|].
  exfalso. apply Hnz. symmetry. exact Hx.
Qed.

Lemma truediv_ok (a b : Q) : ¬ b == 0 → PyFloat.truediv a b = Ok (a / b).
Proof.
  intros Hb. unfold PyFloat.truediv.
  destruct (Qeq_bool b 0) eqn:Hq; [|reflexivity].
  apply Qeq_bool_iff in Hq. contradiction.
Qed.


Lemma round_half_even_nonneg (x : Q) :
  0 <= x → (0 ≤ PyFloat.round_half_even x)%Z.
Proof.
  intros Hx. apply Qfloor_resp_le in Hx. change (Qfloor 0) with 0%Z in Hx.
  unfold PyFloat.round_half_even.
  destruct (_ ?= _); [destruct (Z.even _)|..]; lia.
Qed.


Lemma round4_nonneg (x : Q) : 0 <= x → 0 <= PyFloat.round4 x.
Proof.
  intros Hx.
  assert (H0 : 0 <= x * 10000) by lra.
  apply round_half_even_nonneg in H0.
  unfold PyFloat.round4, Qdiv. change (/ 10000) with (1 # 10000).
  assert (H1 : 0 <= inject_Z (PyFloat.round_half_even (x * 10000))).
  { change 0 with (inject_Z 0). rewrite <- Zle_Qle. exact H0. }
  lra.
Qed.

Lemma bbox_area_nonneg (b : Block) : 0 <= Preflight.bbox_area b.
Proof.
  unfold Preflight.bbox_area.
  destruct (default _ _) as [[[x0 y0] x1] y1].
  apply Qmult_le_0_compat; apply max0_nonneg.
Qed.

Lemma image_area_nonneg (blocks : list Block) : 0 <= Spec.image_area blocks.
Proof.
  unfold Spec.image_area.
  induction (List.filter _ blocks) as [|b l IH]; simpl; [apply Qle_refl|].
  pose proof (bbox_area_nonneg b). lra.
Qed.

(** The accumulating loop adds up the areas of the image blocks. *)
Lemma img_area_loop_sum (blocks : list Block) (acc : Q) :
  Preflight.img_area_loop blocks acc == acc + Spec.image_area blocks.
Proof.
  revert acc. unfold Spec.image_area.
  induction blocks as [|b l IH]; intros acc; simpl.
  - lra.
  - destruct (Preflight.is_type 1 b); simpl; rewrite IH; lra.
Qed.

Lemma page_area_pos (pg : Page) :
  0 <= rect_width pg → 0 <= rect_height pg → 0 < Preflight.page_area pg.
Proof.
  intros Hw Hh. apply or_one_pos. apply Qmult_le_0_compat; assumption.
Qed.

End Rounding.

Lemma preflight_page_ok (i : nat) (pg : Page) :
  Preflight.preflight_page i pg =
  Ok {| page := i;
        has_text_block :=
          existsb (Preflight.is_type 0) (Preflight.blocks_of pg);
        non_ws_chars := PyStr.count_non_ws (PyStr.strip (get_text pg));
        image_block_coverage :=
          PyFloat.round4
            (Preflight.img_area_loop (Preflight.blocks_of pg) 0
             / Preflight.page_area pg) |}.
Proof.
  unfold Preflight.preflight_page.
  rewrite truediv_ok by apply or_one_nonzero. reflexivity.
Qed.

Lemma preflight_loop_ok (doc : list Page) (i : nat) (acc : list PageDiag) :
  ∃ ds, Preflight.preflight_loop doc i acc = Ok (acc ++ ds)
        ∧ length ds = length doc
        ∧ ∀ k pg, doc !! k = Some pg →
            ∃ d, ds !! k = Some d
                 ∧ Preflight.preflight_page (i + k) pg = Ok d.
Proof.
  revert i acc. induction doc as [|pg doc IH]; intros i acc; simpl.
  - exists []. rewrite app_nil_r. repeat split; intros; done.
  - pose proof (preflight_page_ok i pg) as Hpg. rewrite Hpg. simpl.
    match type of Hpg with _ = Ok ?d0 => set (d := d0) in * end.
    destruct (IH (S i) (acc ++ [d])) as (ds & Hds & Hlen & Hnth).
    exists (d :: ds). rewrite Hds, <- app_assoc. simpl.
    split; [reflexivity|]. split; [by rewrite Hlen|].
    intros [|k] pg' Hk; simpl in *.
    + injection Hk as <-. rewrite Nat.add_0_r. eauto.
    + replace (i + S k) with (S i + k) by lia. by apply Hnth.
Qed.

(** C9. The diagnostics pass never raises: a page of zero area is divided
    by 1, the divisor is never zero, every page gets its diagnostic and a
    document gets one diagnostic per page. *)
Theorem preflight_total :
  (∀ pg, (rect_width pg * rect_height pg == 0)%Q →
         Preflight.page_area pg = 1%Q) ∧
  (∀ pg, ¬ (Preflight.page_area pg == 0)%Q) ∧
  (∀ i pg, ∃ d, Preflight.preflight_page i pg = Ok d) ∧
  (∀ doc, ∃ pages, Preflight.preflight doc = Ok pages
                   ∧ length pages = length doc).
Proof.
  split; [|split; [|split]].
  - intros pg Hz. unfold Preflight.page_area, PyFloat.or_one.
    apply Qeq_bool_iff in Hz. by rewrite Hz.
  - intros pg. apply or_one_nonzero.
  - intros i pg. eexists. apply preflight_page_ok.
  - intros doc. destruct (preflight_loop_ok doc 1 []) as (ds & Hds & Hlen & _).
    exists ds. split; [exact Hds | exact Hlen].
Qed.

Lemma preflight_total_witness :
  Preflight.page_area Sample.flat_page = 1%Q.
Proof. apply (proj1 preflight_total Sample.flat_page). reflexivity. Defined.




(** ** Tesseract path detection *)

Lemma candidates_loop_cmd (H : Host) (cs : list string) (g : Globals) :
  tesseract_cmd (Detect.candidates_loop H cs g) =
  default (tesseract_cmd g) (List.find (Detect.usable H) cs).
Proof.
  induction cs as [|c cs IH]; simpl; [reflexivity|].
  destruct (Detect.usable H c); [reflexivity | exact IH].
Qed.

Lemma find_app {A : Type} (f : A → bool) (l1 l2 : list A) :
  List.find f (l1 ++ l2) =
  match List.find f l1 with Some x => Some x | None => List.find f l2 end.
Proof.
  induction l1 as [|x l1 IH]; simpl; [reflexivity|].
  destruct (f x); [reflexivity | exact IH].
Qed.

Lemma find_if_truthy (H : Host) (o : option string) :
  List.find (Detect.usable H) (Detect.if_truthy o) =
  match o with
  | Some s => if Detect.usable H s then Some s else None
  | None => None
  end.
Proof.
  destruct o as [s|]; [|reflexivity]. unfold Detect.if_truthy, Detect.usable.
  destruct (PyStr.truthy s) eqn:Hs; simpl; [|reflexivity].
  rewrite Hs. simpl. by destruct (os_path_exists H s).
Qed.

(** C3, as the code has it. With pytesseract imported, the command
    configured for the run is the first candidate that is non-empty and
    exists, the candidates being: the environment override, then the
    explicit path, then the Windows install paths, then the macOS and
    Linux ones. An existing override wins over the explicit path; the
    explicit path wins when the override is unset or does not exist; when
    no candidate exists the command is left as it was, for the PATH. *)
Theorem configure_first_usable (H : Host) (arg : option string) (g : Globals) :
  pytesseract_imported H = true →
  let cmd := tesseract_cmd (Detect._configure_tesseract H arg g) in
  cmd = default (tesseract_cmd g)
          (List.find (Detect.usable H)
             (Detect.if_truthy (Detect.env_cmd g) ++ Detect.if_truthy arg
              ++ Detect.windows_paths ++ Detect.unix_paths))
  ∧ (∀ e, Detect.env_cmd g = Some e → Detect.usable H e = true → cmd = e)
  ∧ (∀ a, arg = Some a → Detect.usable H a = true →
          (∀ e, Detect.env_cmd g = Some e → Detect.usable H e = false) →
          cmd = a)
  ∧ (List.find (Detect.usable H) (Detect.candidates g arg) = None →
     cmd = tesseract_cmd g).
Proof.
  intros Hlib cmd. subst cmd. unfold Detect._configure_tesseract.
  rewrite Hlib. simpl. rewrite candidates_loop_cmd. unfold Detect.candidates.
  split; [reflexivity|]. rewrite !find_app, !find_if_truthy.
  split; [|split].
  - intros e -> ->. reflexivity.
  - intros a -> Ha He. rewrite Ha.
    destruct (Detect.env_cmd g) as [e|]; [|reflexivity].
    by rewrite (He e eq_refl).
  - intros Hnone. by rewrite Hnone.
Qed.

Lemma configure_first_usable_witness :
  tesseract_cmd
    (Detect._configure_tesseract Sample.both_present
       (Some "/opt/cli/tesseract") Sample.env_override)
  = "/opt/env/tesseract".
Proof.
  apply (proj1 (proj2 (configure_first_usable Sample.both_present
           (Some "/opt/cli/tesseract") Sample.env_override eq_refl)));
    reflexivity.
Defined.

(** C3 fails as stated: with an override and an explicit path that both
    exist, the override is configured, where the order of the
    specification would configure the explicit path. *)
Lemma explicit_path_not_first :
  Detect.usable Sample.both_present "/opt/cli/tesseract" = true
  ∧ tesseract_cmd
      (Detect._configure_tesseract Sample.both_present
         (Some "/opt/cli/tesseract") Sample.env_override)
    = "/opt/env/tesseract"
  ∧ Spec.configured_in_spec_order Sample.both_present
      (Some "/opt/cli/tesseract") Sample.env_override
    = "/opt/cli/tesseract".
Proof. repeat split; vm_compute; reflexivity. Qed.

(** ** One page of [ocr_page] and of the record loop *)

Section OnePage.

Variables (H : Host) (E : Engine) (g : Globals) (self : Converter).
Variables (pg : Page) (page_num : nat) (fs : FS).

Lemma ocr_page_libs_missing :
  Spec.libs_missing H = true →
  Ocr.ocr_page H E g self pg page_num fs =
  (EmptyString, Ocr.with_error "pytesseract_or_pillow_not_available", fs).
Proof. unfold Spec.libs_missing, Ocr.ocr_page. by intros ->. Qed.

Lemma ocr_page_binary_missing :
  Spec.libs_missing H = false → Spec.binary_missing H g = true →
  Ocr.ocr_page H E g self pg page_num fs =
  (EmptyString, Ocr.with_error "tesseract_not_found", fs).
Proof.
  unfold Spec.libs_missing, Spec.binary_missing, Ocr.ocr_page.
  by intros -> ->.
Qed.

(** The metadata says [used] only after the three recognitions returned;
    the text handed back is then the recognised text, stripped. *)
Lemma ocr_page_used :
  m_used (Ocr.ocr_page H E g self pg page_num fs).1.2 = true →
  ∃ text tsv_str hocr_bytes,
    Ocr.recognize H E self pg = Ok (Some (text, tsv_str, hocr_bytes))
    ∧ (Ocr.ocr_page H E g self pg page_num fs).1.1 = PyStr.strip text.
Proof.
  unfold Ocr.ocr_page.
  destruct (negb _ || negb _); [discriminate|].
  destruct (negb _ && negb _); [discriminate|].
  destruct (Ocr.recognize H E self pg) as [[[[text tsv_str] hocr_bytes]|]|msg];
    simpl; try discriminate.
  intros _. by exists text, tsv_str, hocr_bytes.
Qed.

Lemma ocr_page_unused :
  m_used (Ocr.ocr_page H E g self pg page_num fs).1.2 = false →
  let meta := (Ocr.ocr_page H E g self pg page_num fs).1.2 in
  m_txt meta = None ∧ m_tsv meta = None ∧ m_hocr meta = None
  ∧ (Ocr.ocr_page H E g self pg page_num fs).1.1 = EmptyString
  ∧ (Ocr.ocr_page H E g self pg page_num fs).2 = fs.
Proof.
  unfold Ocr.ocr_page.
  destruct (negb _ || negb _); [done|].
  destruct (negb _ && negb _); [done|].
  by destruct (Ocr.recognize H E self pg)
    as [[[[text tsv_str] hocr_bytes]|]|msg].
Qed.

Lemma ocr_page_recognized (text tsv_str hocr_bytes : string) :
  Spec.libs_missing H = false → Spec.binary_missing H g = false →
  Ocr.recognize H E self pg = Ok (Some (text, tsv_str, hocr_bytes)) →
  (Ocr.ocr_page H E g self pg page_num fs).1.1 = PyStr.strip text
  ∧ m_used (Ocr.ocr_page H E g self pg page_num fs).1.2 = true.
Proof.
  unfold Spec.libs_missing, Spec.binary_missing, Ocr.ocr_page.
  by intros -> -> ->.
Qed.

End OnePage.

Section OneRecord.

Variables (H : Host) (E : Engine) (g : Globals) (self : Converter).
Variables (diag : list PageDiag) (images tables : gmap nat (list string)).
Variables (i : nat) (pg : Page) (fs : FS).

(** The record of a page, read off the decision and the answer of
    [ocr_page]. *)
Lemma convert_page_record :
  let need := Convert.page_need_ocr self diag i pg in
  let o := Ocr.ocr_page H E g self pg i fs in
  let ocr_used := need && (m_used o.1.2 && PyStr.truthy o.1.1) in
  let meta := if need then o.1.2 else Ocr.empty_meta in
  Convert.convert_page H E g self diag images tables i pg fs =
  ({| rec_page := i;
      rec_text := if ocr_used then o.1.1 else PyStr.strip (get_text pg);
      rec_images := default [] (images !! i);
      rec_tables := default [] (tables !! i);
      rec_diagnostics := diag !! (i - 1);
      rec_ocr :=
        {| used := ocr_used;
           mode := Some (ocr_mode self);
           lang := Convert.if_used ocr_used (ocr_lang self);
           dpi := Convert.if_used ocr_used (ocr_dpi self);
           psm := Convert.if_used ocr_used (ocr_psm self);
           oem := Convert.if_used ocr_used (ocr_oem self);
           rotate := Convert.if_used ocr_used (ocr_rotate self);
           artifacts :=
             {| txt := m_txt meta; tsv := m_tsv meta;
                hocr := m_hocr meta; error := m_error meta |} |} |},
   if need then o.2 else fs).
Proof.
  unfold Convert.convert_page.
  destruct (Convert.page_need_ocr self diag i pg); simpl; [|reflexivity].
  destruct (Ocr.ocr_page H E g self pg i fs) as [[ocr_text meta] fs'].
  simpl. by destruct (m_used meta && PyStr.truthy ocr_text).
Qed.

Lemma convert_page_number :
  rec_page (Convert.convert_page H E g self diag images tables i pg fs).1 = i.
Proof. by rewrite convert_page_record. Qed.

End OneRecord.

(** C2, as the code has it. On a page where OCR is triggered while the
    support library is missing or the engine binary cannot be found,
    [ocr_page] returns without raising and without writing a file; the
    record keeps the native text, [used] is false and the error field is
    "pytesseract_or_pillow_not_available" when the library is missing and
    "tesseract_not_found" otherwise. *)
Theorem engine_unavailable_falls_back (H : Host) (E : Engine) (g : Globals)
    (self : Converter) (diag : list PageDiag)
    (images tables : gmap nat (list string)) (i : nat) (pg : Page) (fs : FS) :
  Convert.page_need_ocr self diag i pg = true →
  Spec.libs_missing H || Spec.binary_missing H g = true →
  let out := Convert.convert_page H E g self diag images tables i pg fs in
  rec_text out.1 = PyStr.strip (get_text pg)
  ∧ used (rec_ocr out.1) = false
  ∧ error (artifacts (rec_ocr out.1)) =
    Some (if Spec.libs_missing H then "pytesseract_or_pillow_not_available"
          else "tesseract_not_found")
  ∧ out.2 = fs.
Proof.
  intros Hneed Hmiss out. subst out. rewrite convert_page_record, Hneed.
  destruct (Spec.libs_missing H) eqn:Hlib; simpl in Hmiss.
  - by rewrite ocr_page_libs_missing.
  - by rewrite ocr_page_binary_missing.
Qed.

Lemma engine_unavailable_falls_back_witness :
  let out :=
    Convert.convert_page (Sample.host false []) (Sample.engine "ocr text")
      (initial_globals ∅) (Sample.converter "force")
      (Sample.diag_of [Sample.text_page]) ∅ ∅ 1 Sample.text_page [] in
  rec_text out.1 = PyStr.strip (get_text Sample.text_page)
  ∧ used (rec_ocr out.1) = false
  ∧ error (artifacts (rec_ocr out.1)) =
    Some "pytesseract_or_pillow_not_available"
  ∧ out.2 = [].
Proof.
  apply (engine_unavailable_falls_back (Sample.host false [])
           (Sample.engine "ocr text") (initial_globals ∅)
           (Sample.converter "force")); reflexivity.
Defined.

(** C2 fails as stated: the error field never holds "engine_unavailable".
    In mode force without the library it holds
    "pytesseract_or_pillow_not_available", and with the library but no
    binary "tesseract_not_found". *)
Lemma engine_unavailable_not_reported :
  let out lib :=
    Convert.convert_page (Sample.host lib []) (Sample.engine "ocr text")
      (initial_globals ∅) (Sample.converter "force")
      (Sample.diag_of [Sample.text_page]) ∅ ∅ 1 Sample.text_page [] in
  Convert.page_need_ocr (Sample.converter "force")
    (Sample.diag_of [Sample.text_page]) 1 Sample.text_page = true
  ∧ Spec.libs_missing (Sample.host false []) = true
  ∧ Spec.binary_missing (Sample.host true []) (initial_globals ∅) = true
  ∧ error (artifacts (rec_ocr (out false).1)) =
    Some "pytesseract_or_pillow_not_available"
  ∧ error (artifacts (rec_ocr (out true).1)) = Some "tesseract_not_found"
  ∧ error (artifacts (rec_ocr (out false).1)) ≠ Some "engine_unavailable"
  ∧ error (artifacts (rec_ocr (out true).1)) ≠ Some "engine_unavailable".
Proof. repeat split; vm_compute; congruence. Qed.

(** C4. When OCR is triggered and the text handed back by [ocr_page] is
    empty, as it is when the recognised text strips to nothing, the record
    keeps the native text and [used] is false. [used] is true only when
    OCR was triggered, the recognition returned a text whose stripped form
    is not empty, and that stripped text is the text of the record. *)
Theorem empty_ocr_keeps_native (H : Host) (E : Engine) (g : Globals)
    (self : Converter) (diag : list PageDiag)
    (images tables : gmap nat (list string)) (i : nat) (pg : Page) (fs : FS) :
  let r := (Convert.convert_page H E g self diag images tables i pg fs).1 in
  (Convert.page_need_ocr self diag i pg = true →
   (Ocr.ocr_page H E g self pg i fs).1.1 = EmptyString →
   rec_text r = PyStr.strip (get_text pg) ∧ used (rec_ocr r) = false)
  ∧ (∀ text tsv_str hocr_bytes,
       Ocr.recognize H E self pg = Ok (Some (text, tsv_str, hocr_bytes)) →
       PyStr.strip text = EmptyString →
       rec_text r = PyStr.strip (get_text pg) ∧ used (rec_ocr r) = false)
  ∧ (used (rec_ocr r) = true →
     Convert.page_need_ocr self diag i pg = true
     ∧ ∃ text tsv_str hocr_bytes,
         Ocr.recognize H E self pg = Ok (Some (text, tsv_str, hocr_bytes))
         ∧ PyStr.strip text ≠ EmptyString
         ∧ rec_text r = PyStr.strip text).
Proof.
  intros r. subst r. rewrite convert_page_record. simpl.
  split; [|split].
  - intros -> ->. simpl. by rewrite andb_false_r.
  - intros text tsv_str hocr_bytes Hrec Hstrip.
    destruct (Convert.page_need_ocr self diag i pg); [|done]. simpl.
    destruct (m_used _) eqn:Hused; [|done].
    apply ocr_page_used in Hused as (text' & tsv' & hocr' & Hrec' & ->).
    rewrite Hrec in Hrec'. injection Hrec' as <- <- <-.
    by rewrite Hstrip.
  - intros Hused. apply andb_true_iff in Hused as [Hneed Hused].
    apply andb_true_iff in Hused as [Hmeta Htext].
    split; [exact Hneed|].
    destruct (ocr_page_used _ _ _ _ _ _ _ Hmeta)
      as (text & tsv_str & hocr_bytes & Hrec & Heq).
    exists text, tsv_str, hocr_bytes. rewrite Hneed, Hmeta, Htext. simpl.
    split; [exact Hrec|]. split; [|exact Heq].
    rewrite <- Heq. by apply truthy_true.
Qed.

Lemma empty_ocr_keeps_native_witness :
  let r :=
    (Convert.convert_page (Sample.host true ["tesseract"])
       (Sample.engine "  ") (initial_globals ∅) (Sample.converter "force")
       (Sample.diag_of [Sample.text_page]) ∅ ∅ 1 Sample.text_page []).1 in
  rec_text r = PyStr.strip (get_text Sample.text_page)
  ∧ used (rec_ocr r) = false.
Proof.
  apply (proj1 (empty_ocr_keeps_native (Sample.host true ["tesseract"])
           (Sample.engine "  ") (initial_globals ∅)
           (Sample.converter "force") (Sample.diag_of [Sample.text_page])
           ∅ ∅ 1 Sample.text_page [])); reflexivity.
Defined.

(** C5, as the code has it. In a record whose [used] is false the fields
    lang, dpi, psm, oem and rotate are null. The field mode is never null:
    it is the configured mode, in every record. The paths txt, tsv and
    hocr are null when OCR was not triggered for the page and when
    [ocr_page] gave up before the recognition was done. *)
Theorem unused_ocr_fields (H : Host) (E : Engine) (g : Globals)
    (self : Converter) (diag : list PageDiag)
    (images tables : gmap nat (list string)) (i : nat) (pg : Page) (fs : FS) :
  let s :=
    rec_ocr (Convert.convert_page H E g self diag images tables i pg fs).1 in
  mode s = Some (ocr_mode self)
  ∧ (used s = false →
     lang s = None ∧ dpi s = None ∧ psm s = None ∧ oem s = None
     ∧ rotate s = None)
  ∧ (Convert.page_need_ocr self diag i pg = false
     ∨ m_used (Ocr.ocr_page H E g self pg i fs).1.2 = false →
     used s = false
     ∧ txt (artifacts s) = None ∧ tsv (artifacts s) = None
     ∧ hocr (artifacts s) = None).
Proof.
  intros s. subst s. rewrite convert_page_record. simpl.
  split; [reflexivity|]. split.
  - by intros ->.
  - intros [-> | Hm]; [done|].
    rewrite Hm. simpl. rewrite andb_false_r.
    destruct (Convert.page_need_ocr self diag i pg); [|done].
    by destruct (ocr_page_unused H E g self pg i fs Hm) as (-> & -> & -> & _).
Qed.

Lemma unused_ocr_fields_witness :
  let s :=
    rec_ocr
      (Convert.convert_page (Sample.host true ["tesseract"])
         (Sample.engine "ocr text") (initial_globals ∅)
         (Sample.converter "auto") (Sample.diag_of [Sample.text_page])
         ∅ ∅ 1 Sample.text_page []).1 in
  lang s = None ∧ dpi s = None ∧ psm s = None ∧ oem s = None
  ∧ rotate s = None.
Proof.
  apply (proj1 (proj2 (unused_ocr_fields (Sample.host true ["tesseract"])
           (Sample.engine "ocr text") (initial_globals ∅)
           (Sample.converter "auto") (Sample.diag_of [Sample.text_page])
           ∅ ∅ 1 Sample.text_page []))); reflexivity.
Defined.

(** C5 fails as stated: in mode off the record has [used] false and its
    mode field is "off", not null; and a page whose recognised text is
    blank has [used] false with the three artifact paths set. *)
Lemma unused_ocr_fields_not_all_null :
  let s m answer :=
    rec_ocr
      (Convert.convert_page (Sample.host true ["tesseract"])
         (Sample.engine answer) (initial_globals ∅) (Sample.converter m)
         (Sample.diag_of [Sample.text_page]) ∅ ∅ 1 Sample.text_page []).1 in
  used (s "off" "ocr text") = false
  ∧ mode (s "off" "ocr text") = Some "off"
  ∧ mode (s "off" "ocr text") ≠ None
  ∧ used (s "force" "  ") = false
  ∧ txt (artifacts (s "force" "  ")) = Some "out/ocr/page1.txt"
  ∧ tsv (artifacts (s "force" "  ")) = Some "out/ocr/page1.tsv"
  ∧ hocr (artifacts (s "force" "  ")) = Some "out/ocr/page1.hocr".
Proof. repeat split; vm_compute; congruence. Qed.

(** ** The record loop *)

Section Records.

Variables (H : Host) (E : Engine) (g : Globals) (self : Converter).
Variables (diag : list PageDiag) (images tables : gmap nat (list string)).

Lemma records_loop_pages (doc : list Page) (i : nat)
    (records : list ExtractionRecord) (fs : FS) :
  ∃ rs,
    (Convert.records_loop H E g self diag images tables doc i records fs).1
    = records ++ rs
    ∧ rec_page <$> rs = seq i (length doc)
    ∧ ∀ k r, rs !! k = Some r →
        ∃ pg fs0, doc !! k = Some pg
          ∧ r = (Convert.convert_page H E g self diag images tables
                   (i + k) pg fs0).1.
Proof.
  revert i records fs.
  induction doc as [|pg doc IH]; intros i records fs; simpl.
  - exists []. by rewrite app_nil_r.
  - destruct (Convert.convert_page H E g self diag images tables i pg fs)
      as [record fs'] eqn:Hrec.
    destruct (IH (S i) (records ++ [record]) fs') as (rs & Hrs & Hpages & Hnth).
    exists (record :: rs). rewrite Hrs, <- app_assoc.
    split; [reflexivity|]. split.
    + rewrite fmap_cons, Hpages. simpl. f_equal.
      change record with (record, fs').1. rewrite <- Hrec.
      apply convert_page_number.
    + intros [|k] r Hk; simpl in *.
      * injection Hk as <-. exists pg, fs.
        rewrite Nat.add_0_r, Hrec. done.
      * destruct (Hnth k r Hk) as (pg' & fs0 & Hpg' & ->).
        exists pg', fs0. by replace (i + S k) with (S i + k) by lia.
Qed.

End Records.

(** C6. [convert_pdf] runs to its end on every document, with as many
    records as the document has pages; the page numbers of the records are
    1, 2, 3, ... in this order, so strictly increasing from 1, and the k-th
    record is the one assembled from the k-th page. *)
Theorem one_record_per_page (H : Host) (E : Engine) (g : Globals)
    (self : Converter) (doc : list Page) (pdf : list PlumberPage)
    (images : gmap nat (list string)) (fs : FS) :
  ∃ records fs',
    Convert.convert_pdf H E g self doc pdf images fs = Ok (records, fs')
    ∧ length records = length doc
    ∧ rec_page <$> records = seq 1 (length doc)
    ∧ (∀ k r, records !! k = Some r → rec_page r = S k ∧ is_Some (doc !! k))
    ∧ (∀ j k rj rk, records !! j = Some rj → records !! k = Some rk →
         j < k → rec_page rj < rec_page rk).
Proof.
  unfold Convert.convert_pdf.
  destruct (preflight_loop_ok doc 1 []) as (diag & Hdiag & _ & _).
  unfold Preflight.preflight. rewrite Hdiag. simpl.
  match goal with |- context [Tables.extract_and_save_tables H self pdf ?f] =>
    destruct (Tables.extract_and_save_tables H self pdf f) as [tables fs1]
  end.
  destruct (records_loop_pages H E g self diag images tables doc 1 [] fs1)
    as (rs & Hrs & Hpages & Hnth). simpl in Hrs.
  destruct (Convert.records_loop H E g self diag images tables doc 1 [] fs1)
    as [records fs'] eqn:Hloop. simpl in Hrs. subst rs.
  exists records, fs'. split; [reflexivity|].
  assert (Hk : ∀ k r, records !! k = Some r → rec_page r = S k).
  { intros k r Hr.
    assert (Hl : (rec_page <$> records) !! k = Some (rec_page r))
      by by rewrite list_lookup_fmap, Hr.
    rewrite Hpages in Hl. apply lookup_seq in Hl as [-> _]. done. }
  split; [|split; [exact Hpages|split]].
  - by rewrite <- (length_fmap rec_page), Hpages, length_seq.
  - intros k r Hr. split; [by apply Hk|].
    destruct (Hnth k r Hr) as (pg & _ & -> & _). done.
  - intros j k rj rk Hj Hk' Hlt.
    rewrite (Hk j rj Hj), (Hk k rk Hk'). lia.
Qed.

Lemma one_record_per_page_witness :
  ∃ records fs',
    Convert.convert_pdf (Sample.host true ["tesseract"])
      (Sample.engine "ocr text") (initial_globals ∅)
      (Sample.converter "auto") [Sample.text_page; Sample.stacked_page]
      [Sample.plumber_page; Sample.plumber_page] ∅ [] = Ok (records, fs')
    ∧ length records = 2
    ∧ rec_page <$> records = [1; 2]
    ∧ (∀ k r, records !! k = Some r →
         rec_page r = S k
         ∧ is_Some ([Sample.text_page; Sample.stacked_page] !! k))
    ∧ (∀ j k rj rk, records !! j = Some rj → records !! k = Some rk →
         j < k → rec_page rj < rec_page rk).
Proof.
  apply (one_record_per_page (Sample.host true ["tesseract"])
           (Sample.engine "ocr text") (initial_globals ∅)
           (Sample.converter "auto") [Sample.text_page; Sample.stacked_page]
           [Sample.plumber_page; Sample.plumber_page] ∅ []).
Defined.

(** ** Tables *)

Lemma any_nonblank_clean_row (row : list (option string)) :
  Tables.any_nonblank (Tables.clean_row row) = existsb Spec.nonblank row.
Proof.
  unfold Tables.any_nonblank, Tables.clean_row.
  induction row as [|cell row IH]; [reflexivity|].
  rewrite fmap_cons. simpl. rewrite IH. by destruct cell.
Qed.

(** The row loop keeps the rows with a non-blank cell, cleaned. *)
Lemma rows_loop_cleaned (t : Table) (acc : list (list string)) :
  Tables.rows_loop t acc = acc ++ Spec.cleaned t.
Proof.
  revert acc. unfold Spec.cleaned.
  induction t as [|row t IH]; intros acc; simpl.
  - by rewrite app_nil_r.
  - rewrite any_nonblank_clean_row.
    destruct (existsb Spec.nonblank row); [|apply IH].
    rewrite IH, fmap_cons, <- app_assoc. reflexivity.
Qed.

Lemma cleaned_nil (t : Table) :
  Spec.cleaned t = [] ↔ Spec.has_nonblank t = false.
Proof.
  unfold Spec.cleaned, Spec.has_nonblank.
  induction t as [|row t IH]; simpl; [done|].
  destruct (existsb Spec.nonblank row); simpl; [|exact IH].
  split; discriminate.
Qed.

Lemma has_nonblank_spec (t : Table) :
  Spec.has_nonblank t = true ↔
  ∃ row s, row ∈ t ∧ Some s ∈ row ∧ PyStr.strip s ≠ EmptyString.
Proof.
  unfold Spec.has_nonblank. rewrite existsb_exists. split.
  - intros (row & Hrow & Hex).
    apply existsb_exists in Hex as (cell & Hcell & Hnb).
    destruct cell as [s|]; [|discriminate]. exists row, s.
    rewrite !list_elem_of_In. by rewrite <- truthy_true.
  - intros (row & s & Hrow & Hs & Hne). exists row.
    rewrite <- list_elem_of_In. split; [exact Hrow|].
    apply existsb_exists. exists (Some s).
    rewrite <- list_elem_of_In. split; [exact Hs|]. by apply truthy_true.
Qed.

Section TablesOfPage.

Variables (H : Host) (self : Converter) (i : nat).

Lemma tables_loop_kept (ts : list Table) (saved : list string) (fs : FS) :
  Tables.tables_loop H self i ts (saved, fs) =
  (saved ++ imap (λ k _, Tables.table_file H self i (length saved + S k))
              (List.filter Spec.has_nonblank ts),
   fs ++ imap (λ k t, (Tables.table_file H self i (length saved + S k),
                       CsvRows (Spec.cleaned t)))
           (List.filter Spec.has_nonblank ts)).
Proof.
  revert saved fs. induction ts as [|t ts IH]; intros saved fs.
  - simpl. by rewrite !app_nil_r.
  - cbn [Tables.tables_loop List.filter].
    rewrite rows_loop_cleaned, app_nil_l.
    destruct (Spec.has_nonblank t) eqn:Ht.
    + destruct (Spec.cleaned t) as [|r rs] eqn:Hc.
      { apply cleaned_nil in Hc. congruence. }
      rewrite IH, !imap_cons, Hc. unfold write_file.
      rewrite length_app, <- !app_assoc. simpl.
      rewrite Nat.add_1_r. f_equal.
      * do 2 f_equal. apply imap_ext. intros k t' _. simpl. f_equal. lia.
      * do 2 f_equal. apply imap_ext. intros k t' _. simpl.
        do 2 f_equal. lia.
    + apply cleaned_nil in Ht. rewrite Ht. apply IH.
Qed.

Lemma settings_loop_kept (pg : PlumberPage) (fs : FS) :
  Tables.settings_loop H self i pg [lattice_settings; stream_settings]
    ([], fs) =
  ((Spec.persisted H self i pg).*1, fs ++ Spec.persisted H self i pg).
Proof.
  unfold Spec.persisted, Spec.kept, Spec.candidates_of. simpl.
  rewrite !tables_loop_kept. simpl.
  rewrite List.filter_app, !imap_app, length_imap, fmap_app, !fmap_imap,
    <- app_assoc.
  repeat first
    [ reflexivity
    | apply imap_ext; intros k t _; simpl; repeat f_equal; lia
    | f_equal ].
Qed.

End TablesOfPage.

Lemma pages_loop_persisted (H : Host) (self : Converter)
    (pages : list PlumberPage) (i : nat) (tables : gmap nat (list string))
    (fs : FS) :
  let out := Tables.pages_loop H self pages i tables fs in
  out.2 = fs ++ concat (imap (λ n pg, Spec.persisted H self (i + n) pg) pages)
  ∧ (∀ n pg, pages !! n = Some pg →
       out.1 !! (i + n) = Some (Spec.persisted H self (i + n) pg).*1)
  ∧ (∀ j, j < i → out.1 !! j = tables !! j).
Proof.
  revert i tables fs.
  induction pages as [|pg pages IH]; intros i tables fs.
  - simpl. rewrite app_nil_r. repeat split; intros; done.
  - cbn [Tables.pages_loop]. rewrite settings_loop_kept.
    destruct (IH (S i) (<[i := (Spec.persisted H self i pg).*1]> tables)
                (fs ++ Spec.persisted H self i pg)) as (Hfs & Hget & Hold).
    split; [|split].
    + rewrite Hfs, imap_cons, concat_cons, Nat.add_0_r, <- app_assoc.
      do 3 f_equal. apply imap_ext. intros n pg' _. simpl. f_equal. lia.
    + intros [|n] pg' Hn; simpl in Hn.
      * injection Hn as <-. rewrite Nat.add_0_r, Hold by lia.
        apply lookup_insert_eq.
      * replace (i + S n) with (S i + n) by lia. by apply Hget.
    + intros j Hj. rewrite Hold by lia. apply lookup_insert_ne. lia.
Qed.

Lemma imap_index_seq {A B : Type} (f : nat → B) (l : list A) (j : nat) :
  imap (λ k _, f (j + k)) l = f <$> seq j (length l).
Proof.
  revert j. induction l as [|x l IH]; intros j; [reflexivity|].
  rewrite imap_cons. simpl. rewrite Nat.add_0_r. f_equal.
  rewrite <- IH. apply imap_ext. intros k y _. simpl. f_equal. lia.
Qed.

Lemma persisted_paths (H : Host) (self : Converter) (i : nat)
    (pg : PlumberPage) :
  (Spec.persisted H self i pg).*1 =
  Tables.table_file H self i <$> seq 1 (length (Spec.kept pg)).
Proof.
  unfold Spec.persisted.
  rewrite fmap_imap, <- (imap_index_seq (Tables.table_file H self i) _ 1).
  apply imap_ext. intros k t _. reflexivity.
Qed.

Lemma kept_elem (pg : PlumberPage) (t : Table) :
  t ∈ Spec.kept pg ↔ t ∈ Spec.candidates_of pg ∧ Spec.has_nonblank t = true.
Proof. unfold Spec.kept. rewrite !list_elem_of_In. apply filter_In. Qed.

Lemma persisted_elem (H : Host) (self : Converter)
    (pdf : list PlumberPage) (fs : FS) (n k : nat) (pg : PlumberPage)
    (t : Table) :
  pdf !! n = Some pg → Spec.kept pg !! k = Some t →
  (Tables.table_file H self (S n) (S k), CsvRows (Spec.cleaned t))
  ∈ fs ++ concat (imap (λ n pg, Spec.persisted H self (S n) pg) pdf).
Proof.
  intros Hpg Ht. apply elem_of_app. right.
  apply list_elem_of_In, in_concat.
  exists (Spec.persisted H self (S n) pg). split; apply list_elem_of_In.
  - apply list_elem_of_lookup. exists n. by rewrite list_lookup_imap, Hpg.
  - apply list_elem_of_lookup. exists k. unfold Spec.persisted.
    by rewrite list_lookup_imap, Ht.
Qed.


(** * Further properties of the code *)

(** ** Stripping and counting *)

Lemma count_non_ws_nonneg (s : string) : (0 ≤ PyStr.count_non_ws s)%Z.
Proof.
  induction s as [|ch s IH]; simpl; [lia|].
  destruct (PyStr.isspace ch); lia.
Qed.

Lemma count_non_ws_lstrip (s : string) :
  PyStr.count_non_ws (PyStr.lstrip s) = PyStr.count_non_ws s.
Proof.
  induction s as [|ch s IH]; simpl; [reflexivity|].
  destruct (PyStr.isspace ch) eqn:Hch; [exact IH|].
  simpl. by rewrite Hch.
Qed.

Lemma rstrip_empty (s : string) :
  PyStr.rstrip s = EmptyString ↔ PyStr.count_non_ws s = 0%Z.
Proof.
  induction s as [|ch s IH]; simpl; [done|].
  pose proof (count_non_ws_nonneg s) as Hs.
  destruct (PyStr.isspace ch); simpl.
  - destruct (PyStr.rstrip s) eqn:Hr; simpl.
    + split; [intros _; by apply IH | done].
    + split; [discriminate|]. intros Hc. apply IH in Hc. discriminate.
  - split; [discriminate | lia].
Qed.

Lemma count_non_ws_rstrip (s : string) :
  PyStr.count_non_ws (PyStr.rstrip s) = PyStr.count_non_ws s.
Proof.
  induction s as [|ch s IH]; simpl; [reflexivity|].
  destruct (PyStr.isspace ch) eqn:Hch; simpl.
  - destruct (PyStr.rstrip s) eqn:Hr; simpl.
    + symmetry. by apply rstrip_empty.
    + by rewrite Hch.
  - rewrite Hch. by rewrite IH.
Qed.

Lemma rstrip_rstrip (s : string) :
  PyStr.rstrip (PyStr.rstrip s) = PyStr.rstrip s.
Proof.
  induction s as [|ch s IH]; simpl; [reflexivity|].
  destruct (PyStr.isspace ch && negb (PyStr.truthy (PyStr.rstrip s))) eqn:Hc;
    simpl; [reflexivity|].
  by rewrite IH, Hc.
Qed.

(** A string that is empty or starts with a character that is not a space. *)
Lemma lstrip_head (s : string) :
  match PyStr.lstrip s with
  | EmptyString => True
  | String ch _ => PyStr.isspace ch = false
  end.
Proof.
  induction s as [|ch s IH]; simpl; [done|].
  destruct (PyStr.isspace ch) eqn:Hch; [exact IH | exact Hch].
Qed.

Lemma lstrip_rstrip_lstrip (s : string) :
  PyStr.lstrip (PyStr.rstrip (PyStr.lstrip s)) = PyStr.rstrip (PyStr.lstrip s).
Proof.
  pose proof (lstrip_head s) as Hh.
  destruct (PyStr.lstrip s) as [|ch t]; [reflexivity|].
  simpl. rewrite Hh. simpl. by rewrite Hh.
Qed.

Lemma strip_strip (s : string) : PyStr.strip (PyStr.strip s) = PyStr.strip s.
Proof.
  unfold PyStr.strip. by rewrite lstrip_rstrip_lstrip, rstrip_rstrip.
Qed.

Lemma count_non_ws_strip (s : string) :
  PyStr.count_non_ws (PyStr.strip s) = PyStr.count_non_ws s.
Proof.
  unfold PyStr.strip. by rewrite count_non_ws_rstrip, count_non_ws_lstrip.
Qed.

Lemma strip_empty_iff (s : string) :
  PyStr.strip s = EmptyString ↔ PyStr.count_non_ws s = 0%Z.
Proof.
  unfold PyStr.strip. by rewrite rstrip_empty, count_non_ws_lstrip.
Qed.

(** X1. The count of a diagnostic is the number of non-whitespace
    characters of the whole page text: stripping first changes nothing.
    It is never negative, and it is 0 exactly when the stripped text is
    empty. *)
Theorem non_ws_counts_raw_text (i : nat) (pg : Page) :
  ∃ d, Preflight.preflight_page i pg = Ok d
       ∧ non_ws_chars d = PyStr.count_non_ws (get_text pg)
       ∧ (0 ≤ non_ws_chars d)%Z
       ∧ (non_ws_chars d = 0%Z ↔ PyStr.strip (get_text pg) = EmptyString).
Proof.
  eexists. split; [apply preflight_page_ok|]. simpl.
  rewrite count_non_ws_strip, strip_empty_iff.
  split; [reflexivity|]. split; [apply count_non_ws_nonneg | done].
Qed.

(** ** Files and records of the loop *)

Section LoopShape.

Variables (H : Host) (E : Engine) (g : Globals) (self : Converter).
Variables (diag : list PageDiag) (images tables : gmap nat (list string)).

(** [ocr_page] only appends to the files written, and its answer does not
    depend on them. *)
Lemma ocr_page_appends (pg : Page) (n : nat) (fs : FS) :
  Ocr.ocr_page H E g self pg n fs =
  ((Ocr.ocr_page H E g self pg n []).1, fs ++ (Ocr.ocr_page H E g self pg n []).2).
Proof.
  unfold Ocr.ocr_page.
  destruct (negb _ || negb _); [by rewrite app_nil_r|].
  destruct (negb _ && negb _); [by rewrite app_nil_r|].
  destruct (Ocr.recognize H E self pg) as [[[[text tsv_str] hocr_bytes]|]|msg];
    simpl; try by rewrite app_nil_r.
  unfold write_file. by rewrite <- !app_assoc.
Qed.

Lemma convert_page_appends (i : nat) (pg : Page) (fs : FS) :
  Convert.convert_page H E g self diag images tables i pg fs =
  ((Convert.convert_page H E g self diag images tables i pg []).1,
   fs ++ (Convert.convert_page H E g self diag images tables i pg []).2).
Proof.
  rewrite !convert_page_record. simpl.
  rewrite (ocr_page_appends pg i fs). simpl.
  destruct (Convert.page_need_ocr self diag i pg); [done|].
  by rewrite app_nil_r.
Qed.

(** The loop maps the pages to their records, in order, and appends the
    files of each page. *)
Lemma records_loop_imap (doc : list Page) (i : nat)
    (records : list ExtractionRecord) (fs : FS) :
  Convert.records_loop H E g self diag images tables doc i records fs =
  (records
     ++ imap (λ k pg, (Convert.convert_page H E g self diag images tables
                         (i + k) pg []).1) doc,
   fs ++ concat
           (imap (λ k pg, (Convert.convert_page H E g self diag images tables
                             (i + k) pg []).2) doc)).
Proof.
  revert i records fs. induction doc as [|pg doc IH]; intros i records fs.
  - simpl. by rewrite !app_nil_r.
  - cbn [Convert.records_loop]. rewrite convert_page_appends, IH.
    rewrite !imap_cons, concat_cons, Nat.add_0_r, <- !app_assoc. simpl.
    repeat first
      [ reflexivity
      | apply imap_ext; intros k pg' _; simpl; repeat f_equal; lia
      | f_equal ].
Qed.

End LoopShape.

(** X2. The text of a record has no whitespace at either end, whether it
    is the native text or the OCR text: stripping it again changes
    nothing. *)
Theorem record_text_is_stripped (H : Host) (E : Engine) (g : Globals)
    (self : Converter) (diag : list PageDiag)
    (images tables : gmap nat (list string)) (i : nat) (pg : Page) (fs : FS) :
  let r := (Convert.convert_page H E g self diag images tables i pg fs).1 in
  PyStr.strip (rec_text r) = rec_text r.
Proof.
  intros r. subst r. rewrite convert_page_record. simpl.
  destruct (Convert.page_need_ocr self diag i pg); simpl; [|apply strip_strip].
  destruct (m_used _) eqn:Hused; simpl; [|apply strip_strip].
  destruct (PyStr.truthy _); [|apply strip_strip].
  apply ocr_page_used in Hused as (text & _ & _ & _ & ->). apply strip_strip.
Qed.

(** X3. In mode auto with a positive character threshold, a page whose
    text is empty or only whitespace triggers OCR, whatever its blocks and
    its coverage, and whether or not the report has an entry for it. *)
Theorem blank_page_triggers_auto (self : Converter) (diag : list PageDiag)
    (i : nat) (pg : Page) :
  ocr_mode self = "auto" → (0 < th_nonws self)%Z →
  PyStr.strip (get_text pg) = EmptyString →
  Convert.page_need_ocr self diag i pg = true.
Proof.
  intros Hmode Hth Hblank. unfold Convert.page_need_ocr, need_ocr.
  rewrite Hmode, Hblank. simpl.
  apply orb_true_iff. left. apply orb_true_iff. right. by apply Z.ltb_lt.
Qed.

Lemma blank_page_triggers_auto_witness :
  Convert.page_need_ocr (Sample.converter "auto")
    (Sample.diag_of [Trace.blank_page]) 1 Trace.blank_page = true.
Proof.
  apply (blank_page_triggers_auto (Sample.converter "auto")); reflexivity.
Defined.

Lemma preflight_page_number (i : nat) (pg : Page) (d : PageDiag) :
  Preflight.preflight_page i pg = Ok d → page d = i.
Proof. rewrite preflight_page_ok. by intros [= <-]. Qed.

(** X4. The report lists the pages in order: its k-th entry is the
    diagnostic of the k-th page and carries the page number k, counted
    from 1. *)
Theorem preflight_in_page_order (doc : list Page) :
  ∃ pages,
    Preflight.preflight doc = Ok pages
    ∧ page <$> pages = seq 1 (length doc)
    ∧ ∀ k pg, doc !! k = Some pg →
        ∃ d, pages !! k = Some d
             ∧ Preflight.preflight_page (S k) pg = Ok d.
Proof.
  destruct (preflight_loop_ok doc 1 []) as (ds & Hds & Hlen & Hnth).
  exists ds. split; [exact Hds|]. split; [|exact Hnth].
  apply list_eq. intros k. rewrite list_lookup_fmap.
  destruct (doc !! k) as [pg|] eqn:Hk.
  - destruct (Hnth k pg Hk) as (d & -> & Hd). simpl.
    apply preflight_page_number in Hd. rewrite Hd.
    symmetry. apply lookup_seq. split; [done|]. by eapply lookup_lt_Some.
  - apply lookup_ge_None in Hk.
    rewrite (proj2 (lookup_ge_None ds k)) by lia. simpl.
    symmetry. apply lookup_ge_None. rewrite length_seq. lia.
Qed.

Lemma preflight_in_page_order_witness :
  ∃ pages,
    Preflight.preflight [Sample.text_page; Sample.stacked_page] = Ok pages
    ∧ page <$> pages = [1; 2]
    ∧ ∀ k pg, [Sample.text_page; Sample.stacked_page] !! k = Some pg →
        ∃ d, pages !! k = Some d
             ∧ Preflight.preflight_page (S k) pg = Ok d.
Proof.
  apply (preflight_in_page_order [Sample.text_page; Sample.stacked_page]).
Defined.

(** ** Coverage of a page whose images fit *)

Lemma round_half_even_le (x : Q) (n : Z) :
  (x <= inject_Z n)%Q → (PyFloat.round_half_even x ≤ n)%Z.
Proof.
  intros Hx. pose proof (Qfloor_resp_le _ _ Hx) as Hf.
  rewrite Qfloor_Z in Hf. unfold PyFloat.round_half_even.
  destruct (Z.eq_dec (Qfloor x) n) as [Heq | Hne].
  - pose proof (Qfloor_le x) as Hlo. rewrite Heq in *.
    destruct (Qcompare_spec (x - inject_Z n) (1 # 2)) as [He | Hl | Hg].
    + exfalso. lra.
    + lia.
    + exfalso. lra.
  - destruct (_ ?= _)%Q; [destruct (Z.even _)|..]; lia.
Qed.

Lemma round4_le_one (x : Q) : (x <= 1)%Q → (PyFloat.round4 x <= 1)%Q.
Proof.
  intros Hx.
  assert (H1 : (x * 10000 <= inject_Z 10000)%Q).
  { change (inject_Z 10000) with 10000%Q. lra. }
  apply round_half_even_le in H1.
  assert (H2 : (inject_Z (PyFloat.round_half_even (x * 10000))
                <= inject_Z 10000)%Q) by by rewrite <- Zle_Qle.
  change (inject_Z 10000) with 10000%Q in H2.
  unfold PyFloat.round4, Qdiv. change (/ 10000)%Q with (1 # 10000)%Q. lra.
Qed.

(** X5. When the summed areas of the image blocks do not exceed the area
    the page divides by, on a page whose width and height are not
    negative, the coverage lies between 0 and 1. *)
Theorem coverage_at_most_one (i : nat) (pg : Page) :
  (0 <= rect_width pg)%Q → (0 <= rect_height pg)%Q →
  (Spec.image_area (Preflight.blocks_of pg) <= Preflight.page_area pg)%Q →
  ∃ d, Preflight.preflight_page i pg = Ok d
       ∧ (0 <= image_block_coverage d)%Q
       ∧ (image_block_coverage d <= 1)%Q.
Proof.
  intros Hw Hh Hfit. eexists. split; [apply preflight_page_ok|]. simpl.
  pose proof (page_area_pos pg Hw Hh) as Hpos.
  pose proof (img_area_loop_sum (Preflight.blocks_of pg) 0) as Hsum.
  pose proof (image_area_nonneg (Preflight.blocks_of pg)) as Hnn.
  split.
  - apply round4_nonneg, Qle_shift_div_l; [exact Hpos | lra].
  - apply round4_le_one, Qle_shift_div_r; [exact Hpos | lra].
Qed.

Lemma coverage_at_most_one_witness :
  ∃ d, Preflight.preflight_page 1 Trace.photo_page = Ok d
       ∧ (0 <= image_block_coverage d)%Q
       ∧ (image_block_coverage d <= 1)%Q.
Proof.
  apply (coverage_at_most_one 1 Trace.photo_page);
    vm_compute; discriminate.
Defined.

(** ** The whole run *)

Lemma pages_loop_other (H : Host) (self : Converter)
    (pages : list PlumberPage) (i : nat) (tables : gmap nat (list string))
    (fs : FS) (j : nat) :
  j < i ∨ i + length pages ≤ j →
  (Tables.pages_loop H self pages i tables fs).1 !! j = tables !! j.
Proof.
  revert i tables fs.
  induction pages as [|pg pages IH]; intros i tables fs Hj; [done|].
  cbn [Tables.pages_loop]. rewrite settings_loop_kept.
  rewrite IH by (simpl in Hj; lia).
  apply lookup_insert_ne. simpl in Hj. lia.
Qed.

(** The paths recorded for page number [j] by the table extractor. *)
Lemma tables_lookup (H : Host) (self : Converter) (pdf : list PlumberPage)
    (fs : FS) (k : nat) :
  default [] ((Tables.extract_and_save_tables H self pdf fs).1 !! S k) =
  match pdf !! k with
  | Some pg => Tables.table_file H self (S k) <$> seq 1 (length (Spec.kept pg))
  | None => []
  end.
Proof.
  unfold Tables.extract_and_save_tables.
  destruct (pdf !! k) as [pg|] eqn:Hk.
  - destruct (pages_loop_persisted H self pdf 1 ∅ fs) as (_ & Hget & _).
    specialize (Hget k pg Hk). simpl in Hget.
    by rewrite Hget, persisted_paths.
  - apply lookup_ge_None in Hk.
    rewrite pages_loop_other by lia. by rewrite lookup_empty.
Qed.

(** [convert_pdf] as one expression: the report, the tables of every
    page, then the records of the pages with the files of each. *)
Lemma convert_pdf_shape (H : Host) (E : Engine) (g : Globals)
    (self : Converter) (doc : list Page) (pdf : list PlumberPage)
    (images : gmap nat (list string)) (fs : FS) :
  ∃ diag,
    Preflight.preflight doc = Ok diag
    ∧ (∀ k pg, doc !! k = Some pg →
         ∃ d, diag !! k = Some d ∧ Preflight.preflight_page (S k) pg = Ok d)
    ∧ let t := Tables.extract_and_save_tables H self pdf
                 (fs ++ Props.report_files H self diag) in
      Convert.convert_pdf H E g self doc pdf images fs =
      Ok (imap (λ k pg, (Convert.convert_page H E g self diag images t.1
                           (S k) pg []).1) doc,
          t.2 ++ concat
                   (imap (λ k pg, (Convert.convert_page H E g self diag images
                                     t.1 (S k) pg []).2) doc)).
Proof.
  destruct (preflight_loop_ok doc 1 []) as (diag & Hdiag & _ & Hnth).
  change (Preflight.preflight_loop doc 1 []) with (Preflight.preflight doc)
    in Hdiag. simpl in Hdiag.
  exists diag. split; [exact Hdiag|]. split; [exact Hnth|].
  unfold Convert.convert_pdf. rewrite Hdiag. simpl.
  assert (Hfs : match preflight_report self with
                | Some name =>
                    if PyStr.truthy name
                    then write_file (Convert.report_path H self name)
                           (JsonReport diag) fs
                    else fs
                | None => fs
                end = fs ++ Props.report_files H self diag).
  { unfold Props.report_files, write_file.
    destruct (preflight_report self) as [name|]; [|by rewrite app_nil_r].
    destruct (PyStr.truthy name); [done | by rewrite app_nil_r]. }
  rewrite Hfs.
  destruct (Tables.extract_and_save_tables H self pdf _) as [tables fs1].
  simpl. by rewrite records_loop_imap.
Qed.

(** X6. In the records of a run, the diagnostics attached to the record
    of a page are the ones computed for that very page: the entry of the
    report with the record's page number. No record is left without its
    diagnostics. *)
Theorem record_diagnostics_aligned (H : Host) (E : Engine) (g : Globals)
    (self : Converter) (doc : list Page) (pdf : list PlumberPage)
    (images : gmap nat (list string)) (fs : FS) :
  ∃ records fs',
    Convert.convert_pdf H E g self doc pdf images fs = Ok (records, fs')
    ∧ ∀ k pg, doc !! k = Some pg →
        ∃ r d, records !! k = Some r
               ∧ rec_diagnostics r = Some d
               ∧ Preflight.preflight_page (S k) pg = Ok d
               ∧ page d = rec_page r.
Proof.
  destruct (convert_pdf_shape H E g self doc pdf images fs)
    as (diag & _ & Hnth & Hrun).
  eexists _, _. split; [exact Hrun|].
  intros k pg Hk. destruct (Hnth k pg Hk) as (d & Hd & Hpre).
  eexists _, d. rewrite list_lookup_imap, Hk. simpl.
  split; [reflexivity|]. rewrite convert_page_record. simpl.
  rewrite Nat.sub_0_r. split; [exact Hd|]. split; [exact Hpre|].
  by eapply preflight_page_number.
Qed.

Lemma record_diagnostics_aligned_witness :
  ∃ records fs',
    Convert.convert_pdf (Sample.host true ["tesseract"])
      (Sample.engine "ocr text") (initial_globals ∅)
      (Sample.converter "auto") [Sample.text_page; Sample.stacked_page]
      [Sample.plumber_page] ∅ [] = Ok (records, fs')
    ∧ ∀ k pg, [Sample.text_page; Sample.stacked_page] !! k = Some pg →
        ∃ r d, records !! k = Some r
               ∧ rec_diagnostics r = Some d
               ∧ Preflight.preflight_page (S k) pg = Ok d
               ∧ page d = rec_page r.
Proof.
  apply (record_diagnostics_aligned (Sample.host true ["tesseract"])
           (Sample.engine "ocr text") (initial_globals ∅)
           (Sample.converter "auto") [Sample.text_page; Sample.stacked_page]
           [Sample.plumber_page] ∅ []).
Defined.

(** X7. The table paths of the record of page n are the files written for
    page n by the table extractor, in order, and the image paths are the
    entry of page n in the image dict; a page that pdfplumber does not
    have, or that is missing from the image dict, gets an empty list. *)
Theorem record_paths_of_own_page (H : Host) (E : Engine) (g : Globals)
    (self : Converter) (doc : list Page) (pdf : list PlumberPage)
    (images : gmap nat (list string)) (fs : FS) :
  ∃ records fs',
    Convert.convert_pdf H E g self doc pdf images fs = Ok (records, fs')
    ∧ ∀ k r, records !! k = Some r →
        rec_tables r =
          match pdf !! k with
          | Some pg =>
              Tables.table_file H self (S k) <$> seq 1 (length (Spec.kept pg))
          | None => []
          end
        ∧ rec_images r = default [] (images !! S k).
Proof.
  destruct (convert_pdf_shape H E g self doc pdf images fs)
    as (diag & _ & _ & Hrun).
  eexists _, _. split; [exact Hrun|].
  intros k r Hr. rewrite list_lookup_imap in Hr.
  destruct (doc !! k) as [pg|]; [|discriminate].
  simpl in Hr. injection Hr as <-. rewrite convert_page_record. simpl.
  split; [apply tables_lookup | reflexivity].
Qed.

Lemma record_paths_of_own_page_witness :
  ∃ records fs',
    Convert.convert_pdf (Sample.host true ["tesseract"])
      (Sample.engine "ocr text") (initial_globals ∅)
      (Sample.converter "auto") [Sample.text_page; Sample.stacked_page]
      [Sample.plumber_page] ∅ [] = Ok (records, fs')
    ∧ ∀ k r, records !! k = Some r →
        rec_tables r =
          match [Sample.plumber_page] !! k with
          | Some pg =>
              Tables.table_file (Sample.host true ["tesseract"])
                (Sample.converter "auto") (S k)
                <$> seq 1 (length (Spec.kept pg))
          | None => []
          end
        ∧ rec_images r = default [] ((∅ : gmap nat (list string)) !! S k).
Proof.
  apply (record_paths_of_own_page (Sample.host true ["tesseract"])
           (Sample.engine "ocr text") (initial_globals ∅)
           (Sample.converter "auto") [Sample.text_page; Sample.stacked_page]
           [Sample.plumber_page] ∅ []).
Defined.

(** ** What [ocr_page] leaves behind *)

Section Outcome.

Variables (H : Host) (E : Engine) (g : Globals) (self : Converter).

Lemma ocr_page_cases (pg : Page) (n : nat) (fs : FS) :
  Ocr.ocr_page H E g self pg n fs =
  if Spec.libs_missing H then
    (EmptyString, Ocr.with_error "pytesseract_or_pillow_not_available", fs)
  else if Spec.binary_missing H g then
    (EmptyString, Ocr.with_error "tesseract_not_found", fs)
  else
    match Ocr.recognize H E self pg with
    | Ok None => (EmptyString, Ocr.with_error "failed_to_render_page_image", fs)
    | Ok (Some (text, tsv_str, hocr_bytes)) =>
        (PyStr.strip text,
         {| m_used := true;
            m_lang := Some (ocr_lang self);
            m_dpi := Some (ocr_dpi self);
            m_txt := Some (Ocr.artifact_path H self n ".txt");
            m_tsv := Some (Ocr.artifact_path H self n ".tsv");
            m_hocr := Some (Ocr.artifact_path H self n ".hocr");
            m_error := None |},
         fs ++ Props.ocr_files H self n text tsv_str hocr_bytes)
    | Raise msg => (EmptyString, Ocr.with_error msg, fs)
    end.
Proof.
  unfold Ocr.ocr_page, Spec.libs_missing, Spec.binary_missing.
  destruct (negb _ || negb _); [done|].
  destruct (negb _ && negb _); [done|].
  destruct (Ocr.recognize H E self pg) as [[[[text tsv_str] hocr_bytes]|]|msg];
    try done.
  unfold write_file, Props.ocr_files. by rewrite <- !app_assoc.
Qed.

Lemma convert_page_files (diag : list PageDiag)
    (images tables : gmap nat (list string)) (i : nat) (pg : Page) :
  (Convert.convert_page H E g self diag images tables i pg []).2 =
  Trace.page_ocr_files H E g self diag i pg.
Proof.
  rewrite convert_page_record. unfold Trace.page_ocr_files.
  destruct (Convert.page_need_ocr self diag i pg); [|done].
  rewrite ocr_page_cases. simpl.
  destruct (Spec.libs_missing H); [done|].
  destruct (Spec.binary_missing H g); [done|]. simpl.
  by destruct (Ocr.recognize H E self pg)
    as [[[[text tsv_str] hocr_bytes]|]|msg].
Qed.

End Outcome.


(** X9. A record whose [used] is true carries the whole OCR setting: its
    lang, dpi, psm, oem and rotate are the configured values, its three
    artifact paths are the files of its own page number in the OCR
    directory, and its error is null. *)
Theorem used_record_fields (H : Host) (E : Engine) (g : Globals)
    (self : Converter) (diag : list PageDiag)
    (images tables : gmap nat (list string)) (i : nat) (pg : Page) (fs : FS) :
  let s :=
    rec_ocr (Convert.convert_page H E g self diag images tables i pg fs).1 in
  used s = true →
  lang s = Some (ocr_lang self) ∧ dpi s = Some (ocr_dpi self)
  ∧ psm s = Some (ocr_psm self) ∧ oem s = Some (ocr_oem self)
  ∧ rotate s = Some (ocr_rotate self)
  ∧ txt (artifacts s) = Some (Ocr.artifact_path H self i ".txt")
  ∧ tsv (artifacts s) = Some (Ocr.artifact_path H self i ".tsv")
  ∧ hocr (artifacts s) = Some (Ocr.artifact_path H self i ".hocr")
  ∧ error (artifacts s) = None.
Proof.
  intros s. subst s. rewrite convert_page_record. simpl. intros Hused.
  rewrite Hused. simpl.
  apply andb_true_iff in Hused as [-> Hused].
  apply andb_true_iff in Hused as [Hmeta _].
  revert Hmeta. rewrite ocr_page_cases.
  destruct (Spec.libs_missing H); [discriminate|].
  destruct (Spec.binary_missing H g); [discriminate|].
  by destruct (Ocr.recognize H E self pg)
    as [[[[text tsv_str] hocr_bytes]|]|msg].
Qed.

Lemma used_record_fields_witness :
  let s :=
    rec_ocr
      (Convert.convert_page (Sample.host true ["tesseract"])
         (Sample.engine "ocr text") (initial_globals ∅)
         (Sample.converter "force") (Sample.diag_of [Sample.text_page])
         ∅ ∅ 1 Sample.text_page []).1 in
  lang s = Some "jpn+eng" ∧ dpi s = Some 300%Z
  ∧ psm s = Some 6%Z ∧ oem s = Some 1%Z
  ∧ rotate s = Some "auto"
  ∧ txt (artifacts s) = Some "out/ocr/page1.txt"
  ∧ tsv (artifacts s) = Some "out/ocr/page1.tsv"
  ∧ hocr (artifacts s) = Some "out/ocr/page1.hocr"
  ∧ error (artifacts s) = None.
Proof.
  apply (used_record_fields (Sample.host true ["tesseract"])
           (Sample.engine "ocr text") (initial_globals ∅)
           (Sample.converter "force") (Sample.diag_of [Sample.text_page])
           ∅ ∅ 1 Sample.text_page []).
  reflexivity.
Defined.

Lemma recognize_render_raises (H : Host) (E : Engine) (self : Converter)
    (pg : Page) (msg : string) :
  Image_imported H = true →
  render E pg (inject_Z (ocr_dpi self) / 72)%Q = Raise msg →
  Ocr.recognize H E self pg = Raise msg.
Proof.
  intros Himg Hr. unfold Ocr.recognize, Ocr._page_to_image.
  by rewrite Himg, Hr.
Qed.

(** X10. An exception raised while the page is rendered or recognised
    does not leave [ocr_page]: with the engine present and OCR triggered,
    the record keeps the native text, [used] is false, the error field is
    the message of the exception and no file is written. A renderer that
    raises is one such case. *)
Theorem ocr_exception_reported (H : Host) (E : Engine) (g : Globals)
    (self : Converter) (diag : list PageDiag)
    (images tables : gmap nat (list string)) (i : nat) (pg : Page) (fs : FS)
    (msg : string) :
  Convert.page_need_ocr self diag i pg = true →
  Spec.libs_missing H = false → Spec.binary_missing H g = false →
  Ocr.recognize H E self pg = Raise msg
  ∨ render E pg (inject_Z (ocr_dpi self) / 72)%Q = Raise msg →
  let out := Convert.convert_page H E g self diag images tables i pg fs in
  rec_text out.1 = PyStr.strip (get_text pg)
  ∧ used (rec_ocr out.1) = false
  ∧ error (artifacts (rec_ocr out.1)) = Some msg
  ∧ out.2 = fs.
Proof.
  intros Hneed Hlib Hbin Hraise out. subst out.
  assert (Hrec : Ocr.recognize H E self pg = Raise msg).
  { destruct Hraise as [Hr | Hr]; [exact Hr|].
    apply recognize_render_raises; [|exact Hr].
    unfold Spec.libs_missing in Hlib.
    apply orb_false_iff in Hlib as [_ Hlib]. by apply negb_false_iff. }
  rewrite convert_page_record, Hneed, ocr_page_cases, Hlib, Hbin, Hrec.
  done.
Qed.

Lemma ocr_exception_reported_witness :
  let out :=
    Convert.convert_page (Sample.host true ["tesseract"]) Trace.broken_engine
      (initial_globals ∅) (Sample.converter "force")
      (Sample.diag_of [Sample.text_page]) ∅ ∅ 1 Sample.text_page [] in
  rec_text out.1 = PyStr.strip (get_text Sample.text_page)
  ∧ used (rec_ocr out.1) = false
  ∧ error (artifacts (rec_ocr out.1)) = Some "cannot render"
  ∧ out.2 = [].
Proof.
  apply (ocr_exception_reported (Sample.host true ["tesseract"])
           Trace.broken_engine (initial_globals ∅)
           (Sample.converter "force") (Sample.diag_of [Sample.text_page])
           ∅ ∅ 1 Sample.text_page [] "cannot render");
    [reflexivity | reflexivity | reflexivity | right; reflexivity].
Defined.

(** ** The files of a run *)

Lemma extract_tables_files (H : Host) (self : Converter)
    (pdf : list PlumberPage) (fs : FS) :
  (Tables.extract_and_save_tables H self pdf fs).2 =
  fs ++ concat (imap (λ n pg, Spec.persisted H self (S n) pg) pdf).
Proof.
  unfold Tables.extract_and_save_tables.
  by destruct (pages_loop_persisted H self pdf 1 ∅ fs) as (-> & _).
Qed.

Lemma convert_pdf_files (H : Host) (E : Engine) (g : Globals)
    (self : Converter) (doc : list Page) (pdf : list PlumberPage)
    (images : gmap nat (list string)) (fs : FS) :
  ∃ diag records,
    Preflight.preflight doc = Ok diag
    ∧ Convert.convert_pdf H E g self doc pdf images fs =
      Ok (records,
          fs ++ Props.report_files H self diag
             ++ concat (imap (λ n pg, Spec.persisted H self (S n) pg) pdf)
             ++ concat (imap (λ k pg, Trace.page_ocr_files H E g self diag
                                        (S k) pg) doc)).
Proof.
  destruct (convert_pdf_shape H E g self doc pdf images fs)
    as (diag & Hdiag & _ & Hrun).
  exists diag. eexists. split; [exact Hdiag|].
  rewrite Hrun, extract_tables_files, <- !app_assoc. do 6 f_equal.
  apply imap_ext. intros k pg _. simpl. apply convert_page_files.
Qed.





(** ** More on the path detection *)

Lemma candidates_loop_find (H : Host) (cs : list string) (g : Globals) :
  Detect.candidates_loop H cs g =
  match List.find (Detect.usable H) cs with
  | Some c => Detect.select H c g
  | None => g
  end.
Proof.
  induction cs as [|c cs IH]; simpl; [reflexivity|].
  destruct (Detect.usable H c); [reflexivity | exact IH].
Qed.

Lemma select_environ_other (H : Host) (c : string) (g : Globals) (k : string) :
  k ≠ "TESSDATA_PREFIX" →
  environ (Detect.select H c g) !! k = environ g !! k.
Proof.
  intros Hk. unfold Detect.select. simpl.
  destruct (_ && _); [|reflexivity]. by apply lookup_insert_ne.
Qed.

Lemma configure_environ_other (H : Host) (arg : option string) (g : Globals)
    (k : string) :
  k ≠ "TESSDATA_PREFIX" →
  environ (Detect._configure_tesseract H arg g) !! k = environ g !! k.
Proof.
  intros Hk. unfold Detect._configure_tesseract.
  destruct (negb _); [reflexivity|]. rewrite candidates_loop_find.
  destruct (List.find _ _); [by apply select_environ_other | reflexivity].
Qed.

(** X13. Building the converter changes at most one variable of the
    environment, TESSDATA_PREFIX, and never a TESSDATA_PREFIX that is
    already set to a non-empty value. When it does set it, a candidate was
    selected, a tessdata directory stands beside it, and the variable
    holds the directory of the selected command. *)
Theorem configure_keeps_environment (H : Host) (arg : option string)
    (g : Globals) :
  let g' := Detect._configure_tesseract H arg g in
  (∀ k, k ≠ "TESSDATA_PREFIX" → environ g' !! k = environ g !! k)
  ∧ (PyStr.truthy_opt (environ g !! "TESSDATA_PREFIX") = true →
     environ g' = environ g)
  ∧ (environ g' ≠ environ g →
     ∃ c, List.find (Detect.usable H) (Detect.candidates g arg) = Some c
          ∧ tesseract_cmd g' = c
          ∧ os_path_isdir H (os_path_join H (os_path_dirname H c) "tessdata")
            = true
          ∧ environ g' !! "TESSDATA_PREFIX" = Some (os_path_dirname H c)).
Proof.
  intros g'. subst g'. split; [|split].
  - intros k Hk. by apply configure_environ_other.
  - intros Hset. unfold Detect._configure_tesseract.
    destruct (negb _); [reflexivity|]. rewrite candidates_loop_find.
    destruct (List.find _ _); [|reflexivity].
    unfold Detect.select. simpl. rewrite Hset. simpl.
    by rewrite andb_false_r.
  - unfold Detect._configure_tesseract.
    destruct (negb _); [congruence|]. rewrite candidates_loop_find.
    destruct (List.find _ _) as [c|]; [|congruence].
    unfold Detect.select. simpl.
    destruct (os_path_isdir H _) eqn:Hdir; simpl; [|congruence].
    destruct (negb _); [|congruence].
    intros _. exists c. by rewrite lookup_insert_eq, Hdir.
Qed.

Lemma configure_keeps_environment_witness :
  environ (Detect._configure_tesseract Sample.both_present None
             (initial_globals {["TESSDATA_PREFIX" := "/usr/share"]}))
  = environ (initial_globals {["TESSDATA_PREFIX" := "/usr/share"]}).
Proof.
  apply (proj1 (proj2 (configure_keeps_environment Sample.both_present None
           (initial_globals {["TESSDATA_PREFIX" := "/usr/share"]})))).
  reflexivity.
Defined.

(** X14. The command left by the path detection is either the command
    that was there before or a non-empty path that exists. When some
    candidate exists and both libraries are imported, the command is an
    existing file, so the check of the binary at the head of [ocr_page]
    passes. *)
Theorem configured_command_exists (H : Host) (arg : option string)
    (g : Globals) :
  let g' := Detect._configure_tesseract H arg g in
  (tesseract_cmd g' = tesseract_cmd g
   ∨ Detect.usable H (tesseract_cmd g') = true)
  ∧ (Spec.libs_missing H = false →
     is_Some (List.find (Detect.usable H) (Detect.candidates g arg)) →
     Detect.usable H (tesseract_cmd g') = true
     ∧ os_path_exists H (tesseract_cmd g') = true
     ∧ Spec.binary_missing H g' = false).
Proof.
  intros g'. subst g'. unfold Detect._configure_tesseract. split.
  - destruct (negb _); [by left|]. rewrite candidates_loop_find.
    destruct (List.find _ _) as [c|] eqn:Hc; [|by left].
    right. simpl. by apply find_some in Hc as [_ Hc].
  - intros Hlib [c Hc]. pose proof Hlib as Hlib'.
    unfold Spec.libs_missing in Hlib'.
    apply orb_false_iff in Hlib' as [Hpy _]. rewrite Hpy.
    rewrite candidates_loop_find, Hc.
    apply find_some in Hc as [_ Hc]. split; [exact Hc|].
    unfold Detect.usable in Hc.
    apply andb_true_iff in Hc as [_ Hex].
    split; [exact Hex|].
    unfold Spec.binary_missing. simpl. by rewrite Hex, andb_false_r.
Qed.

Lemma configured_command_exists_witness :
  os_path_exists Sample.both_present
    (tesseract_cmd
       (Detect._configure_tesseract Sample.both_present
          (Some "/opt/cli/tesseract") (initial_globals ∅))) = true.
Proof.
  apply (proj2 (configured_command_exists Sample.both_present
           (Some "/opt/cli/tesseract") (initial_globals ∅)));
    [reflexivity | by eexists].
Defined.

Lemma select_select (H : Host) (c : string) (g : Globals) :
  Detect.select H c (Detect.select H c g) = Detect.select H c g.
Proof.
  unfold Detect.select. simpl. f_equal.
  destruct (os_path_isdir H _); simpl; [|reflexivity].
  destruct (PyStr.truthy_opt (environ g !! "TESSDATA_PREFIX")) eqn:Hset;
    simpl.
  - by rewrite Hset.
  - rewrite lookup_insert_eq. simpl.
    destruct (PyStr.truthy (os_path_dirname H c)); simpl; [reflexivity|].
    apply insert_insert_eq.
Qed.

Lemma candidates_configure (H : Host) (arg : option string) (g : Globals) :
  Detect.candidates (Detect._configure_tesseract H arg g) arg =
  Detect.candidates g arg.
Proof.
  unfold Detect.candidates, Detect.env_cmd.
  by rewrite !configure_environ_other.
Qed.

(** X15. The path detection is idempotent: building a second converter
    with the same explicit path in the same process leaves the command
    and the environment as the first one set them. *)
Theorem configure_idempotent (H : Host) (arg : option string) (g : Globals) :
  Detect._configure_tesseract H arg (Detect._configure_tesseract H arg g) =
  Detect._configure_tesseract H arg g.
Proof.
  pose proof (candidates_configure H arg g) as Hcs.
  unfold Detect._configure_tesseract in *.
  destruct (negb (pytesseract_imported H)); [reflexivity|].
  rewrite Hcs, !candidates_loop_find.
  destruct (List.find _ _) as [c|]; [apply select_select | reflexivity].
Qed.

(** X16. The resolution kept by the constructor is the one asked for, but
    never below 72: a page is rendered for OCR at a zoom of at least 1, and
    at the zoom asked for when that one is 72 dpi or more. *)
Theorem init_resolution_floor (H : Host) (E : Engine) (out : string)
    (o : Options) (g : Globals) (pg : Page) :
  let self := (init H out o g).1 in
  (72 ≤ ocr_dpi self)%Z
  ∧ ((72 ≤ o_ocr_dpi o)%Z → ocr_dpi self = o_ocr_dpi o)
  ∧ (Image_imported H = true →
     ∃ zoom, (1 <= zoom)%Q
             ∧ (zoom == inject_Z (ocr_dpi self) / 72)%Q
             ∧ Ocr._page_to_image H E pg (ocr_dpi self) =
               bind (render E pg zoom) (λ img, Ok (Some img))).
Proof.
  simpl. split; [lia|]. split; [lia|].
  intros Himg. eexists. split; [|split; [reflexivity|]].
  - apply Qle_shift_div_l; [reflexivity|].
    rewrite Qmult_1_l. change 72%Q with (inject_Z 72).
    rewrite <- Zle_Qle. lia.
  - unfold Ocr._page_to_image. by rewrite Himg.
Qed.

Lemma init_resolution_floor_witness :
  ocr_dpi (init (Sample.host true []) "out" default_options
             (initial_globals ∅)).1 = 300%Z.
Proof.
  apply (proj1 (proj2 (init_resolution_floor (Sample.host true [])
           (Sample.engine "ocr text") "out" default_options
           (initial_globals ∅) Sample.text_page))).
  simpl. lia.
Defined.

(** ** Orientation detection *)

Lemma append_cons (ch : ascii) (a b : string) :
  String ch a +:+ b = String ch (a +:+ b).
Proof. reflexivity. Qed.

Lemma append_assoc (a b c : string) : (a +:+ b) +:+ c = a +:+ b +:+ c.
Proof.
  induction a as [|ch a IH]; [reflexivity|].
  rewrite !append_cons. by f_equal.
Qed.

Lemma append_empty_r (a : string) : a +:+ EmptyString = a.
Proof.
  induction a as [|ch a IH]; [reflexivity|]. rewrite append_cons. by f_equal.
Qed.

Lemma int_of_digits_app (a b : string) (acc : Z) :
  Ocr.int_of_digits (a +:+ b) acc
  = Ocr.int_of_digits b (Ocr.int_of_digits a acc).
Proof.
  revert acc. induction a as [|ch a IH]; intros acc; [reflexivity|].
  rewrite append_cons. simpl. apply IH.
Qed.

Lemma all_digits_app (a b : string) :
  Props.all_digits (a +:+ b) = Props.all_digits a && Props.all_digits b.
Proof.
  unfold Props.all_digits.
  induction a as [|ch a IH]; [reflexivity|].
  rewrite append_cons. simpl. by rewrite IH, andb_assoc.
Qed.

Lemma pretty_N_char_digit (m : N) :
  (m < 10)%N →
  Ocr.is_digit (pretty_N_char m) = true
  ∧ (Z.of_N (Ascii.N_of_ascii (pretty_N_char m)) - 48 = Z.of_N m)%Z.
Proof.
  intros Hm.
  assert (m = 0 ∨ m = 1 ∨ m = 2 ∨ m = 3 ∨ m = 4 ∨ m = 5 ∨ m = 6 ∨ m = 7
          ∨ m = 8 ∨ m = 9)%N as Hc by lia.
  repeat destruct Hc as [-> | Hc]; try subst m; by vm_compute.
Qed.

(** The digits [pretty_N_go] puts in front of [s] read back as [x]. *)
Lemma pretty_N_go_digits (x : N) (s : string) :
  ∃ d, pretty_N_go x s = d +:+ s
       ∧ Props.all_digits d = true
       ∧ Ocr.int_of_digits d 0 = Z.of_N x
       ∧ ((0 < x)%N → d ≠ EmptyString).
Proof.
  revert s. induction (N.lt_wf_0 x) as [x _ IH]. intros s.
  destruct (N.eq_dec x 0%N) as [-> | Hx].
  - exists EmptyString. rewrite pretty_N_go_0. repeat split. lia.
  - rewrite pretty_N_go_step by lia.
    destruct (IH (x `div` 10)%N (N.div_lt x 10 ltac:(lia) eq_refl)
                (String (pretty_N_char (x `mod` 10)) s))
      as (d & Hd & Hall & Hval & _).
    pose proof (pretty_N_char_digit (x `mod` 10)%N
                  (N.mod_lt x 10 ltac:(lia))) as [Hdig Hnum].
    exists (d +:+ String (pretty_N_char (x `mod` 10)) EmptyString).
    rewrite Hd, append_assoc. simpl. split; [reflexivity|].
    split; [|split].
    + rewrite all_digits_app, Hall. unfold Props.all_digits. simpl.
      by rewrite Hdig.
    + rewrite int_of_digits_app, Hval. simpl. rewrite Hnum.
      pose proof (N.div_mod x 10 ltac:(lia)). lia.
    + intros _. by destruct d.
Qed.

Lemma pretty_N_digits (n : N) :
  Props.all_digits (pretty n) = true
  ∧ Ocr.int_of_digits (pretty n) 0 = Z.of_N n
  ∧ pretty n ≠ EmptyString.
Proof.
  unfold pretty, pretty_N. destruct (decide (n = 0%N)) as [-> | Hn].
  - by vm_compute.
  - destruct (pretty_N_go_digits n EmptyString) as (d & Hd & Hall & Hval & Hne).
    rewrite append_empty_r in Hd. rewrite Hd.
    split; [exact Hall|]. split; [exact Hval|]. apply Hne. lia.
Qed.

Lemma take_digits_app (d tail : string) :
  Props.all_digits d = true → Props.no_leading_digit tail = true →
  Ocr.take_digits (d +:+ tail) = d.
Proof.
  unfold Props.all_digits. intros Hd Htail.
  induction d as [|ch d IH].
  - change (EmptyString +:+ tail) with tail.
    destruct tail as [|ch tail]; [reflexivity|]. simpl in *.
    by destruct (Ocr.is_digit ch).
  - rewrite append_cons. simpl in *.
    apply andb_true_iff in Hd as [-> Hd]. by rewrite IH.
Qed.

Lemma search_rotate_found (pre d tail : string) :
  Props.no_char "R" pre = true → Props.all_digits d = true →
  d ≠ EmptyString → Props.no_leading_digit tail = true →
  Ocr.search_rotate (pre +:+ "Rotate: " +:+ d +:+ tail) = Some d.
Proof.
  unfold Props.no_char. intros Hpre Hd Hne Htail.
  induction pre as [|ch pre IH].
  - change (EmptyString +:+ "Rotate: " +:+ d +:+ tail)
      with ("Rotate: " +:+ d +:+ tail).
    rewrite !append_cons.
    change (EmptyString +:+ d +:+ tail) with (d +:+ tail). simpl.
    rewrite take_digits_app by done.
    apply truthy_true in Hne. by rewrite Hne.
  - simpl in Hpre. apply andb_true_iff in Hpre as [Hch Hpre].
    change (String ch pre +:+ "Rotate: " +:+ d +:+ tail)
      with (String ch (pre +:+ "Rotate: " +:+ d +:+ tail)).
    cbn [Ocr.search_rotate Ocr.strip_prefix].
    rewrite Ascii.eqb_sym. apply negb_true_iff in Hch. rewrite Hch.
    by apply IH.
Qed.

Lemma recognize_rendered (H : Host) (E : Engine) (self : Converter)
    (pg : Page) (img : image E) :
  Image_imported H = true →
  render E pg (inject_Z (ocr_dpi self) / 72)%Q = Ok img →
  Ocr.recognize H E self pg =
  Props.recognize_image E self
    (if String.eqb (ocr_rotate self) "auto" then Ocr._auto_rotate H E img
     else img).
Proof.
  intros Himg Hr. unfold Ocr.recognize, Ocr._page_to_image.
  by rewrite Himg, Hr.
Qed.

(** X17. With rotation on auto, when the orientation detector answers a
    text in which "Rotate: " is followed by the decimal digits of an angle
    n (nothing before it holding the letter R, no digit after it), the
    page is recognised on the image rotated by minus n, and on the
    rendered image itself when n is 0. *)
Theorem rotate_by_detected_angle (H : Host) (E : Engine) (self : Converter)
    (pg : Page) (img : image E) (pre tail : string) (n : N) :
  pytesseract_imported H = true → Image_imported H = true →
  ocr_rotate self = "auto" →
  render E pg (inject_Z (ocr_dpi self) / 72)%Q = Ok img →
  image_to_osd E img = Ok (pre +:+ "Rotate: " +:+ pretty n +:+ tail) →
  Props.no_char "R" pre = true → Props.no_leading_digit tail = true →
  Ocr.search_rotate (pre +:+ "Rotate: " +:+ pretty n +:+ tail)
  = Some (pretty n)
  ∧ Ocr.int_of_digits (pretty n) 0 = Z.of_N n
  ∧ Ocr.recognize H E self pg =
    Props.recognize_image E self
      (if (n =? 0)%N then img else img_rotate E img (- Z.of_N n)).
Proof.
  intros Hpy Himg Hrot Hr Hosd Hpre Htail.
  destruct (pretty_N_digits n) as (Hall & Hval & Hne).
  pose proof (search_rotate_found pre (pretty n) tail Hpre Hall Hne Htail)
    as Hfound.
  split; [exact Hfound|]. split; [exact Hval|].
  rewrite (recognize_rendered H E self pg img Himg Hr), Hrot. simpl.
  unfold Ocr._auto_rotate. rewrite Hpy, Hosd. simpl.
  rewrite Hfound, Hval. f_equal.
  destruct (N.eqb_spec n 0) as [-> | Hn]; [reflexivity|].
  destruct (Z.eqb_spec (Z.of_N n) 0) as [Hz | _]; [lia | reflexivity].
Qed.

Lemma rotate_by_detected_angle_witness :
  Ocr.search_rotate ("Orientation in degrees: 270 " +:+ "Rotate: "
                     +:+ pretty 90%N +:+ " Script: Latin")
  = Some (pretty 90%N)
  ∧ Ocr.int_of_digits (pretty 90%N) 0 = 90%Z
  ∧ Ocr.recognize (Sample.host true ["tesseract"])
      (Props.osd_engine "Orientation in degrees: 270 Rotate: 90 Script: Latin")
      (Sample.converter "force") Sample.text_page =
    Ok (Some ("native text of the page, long enough rotated by -90",
              "tsv", "hocr")).
Proof.
  apply (rotate_by_detected_angle (Sample.host true ["tesseract"])
           (Props.osd_engine
              "Orientation in degrees: 270 Rotate: 90 Script: Latin")
           (Sample.converter "force") Sample.text_page
           (get_text Sample.text_page) "Orientation in degrees: 270 "
           " Script: Latin" 90%N); reflexivity.
Defined.

(** X18. Rotation is best effort and only on request. When the rotation
    mode is not auto the orientation detector plays no part: the page is
    recognised on the rendered image. With rotation on auto, a detector
    that raises, or whose answer holds no angle, does not make OCR fail:
    the page is recognised on the rendered image as well. *)
Theorem rotation_is_best_effort (H : Host) (E : Engine) (self : Converter)
    (pg : Page) (img : image E) :
  Image_imported H = true →
  render E pg (inject_Z (ocr_dpi self) / 72)%Q = Ok img →
  ocr_rotate self ≠ "auto"
  ∨ (∃ msg, image_to_osd E img = Raise msg)
  ∨ (∃ osd, image_to_osd E img = Ok osd ∧ Ocr.search_rotate osd = None) →
  Ocr.recognize H E self pg = Props.recognize_image E self img.
Proof.
  intros Himg Hr Hcase.
  rewrite (recognize_rendered H E self pg img Himg Hr).
  destruct (String.eqb_spec (ocr_rotate self) "auto") as [Hauto | _];
    [|reflexivity].
  f_equal. unfold Ocr._auto_rotate.
  destruct (negb (pytesseract_imported H)); [reflexivity|].
  destruct Hcase as [Hno | [[msg Hosd] | (osd & Hosd & Hnone)]].
  - contradiction.
  - by rewrite Hosd.
  - by rewrite Hosd; simpl; rewrite Hnone.
Qed.

Lemma rotation_is_best_effort_witness :
  Ocr.recognize (Sample.host true ["tesseract"]) (Sample.engine "ocr text")
    (Sample.converter "force") Sample.text_page =
  Props.recognize_image (Sample.engine "ocr text") (Sample.converter "force")
    (get_text Sample.text_page).
Proof.
  apply (rotation_is_best_effort (Sample.host true ["tesseract"])
           (Sample.engine "ocr text") (Sample.converter "force")
           Sample.text_page (get_text Sample.text_page));
    [reflexivity | reflexivity | right; left; by eexists].
Defined.

(** ** File names never collide *)

Lemma digits_prefix_inj (d1 d2 r1 r2 : string) :
  Props.all_digits d1 = true → Props.all_digits d2 = true →
  Props.no_leading_digit r1 = true → Props.no_leading_digit r2 = true →
  d1 +:+ r1 = d2 +:+ r2 → d1 = d2 ∧ r1 = r2.
Proof.
  unfold Props.all_digits. revert d2.
  induction d1 as [|c d1 IH]; intros [|c' d2] H1 H2 Hr1 Hr2 Heq.
  - done.
  - exfalso. change (r1 = String c' (d2 +:+ r2)) in Heq. subst r1.
    simpl in *. apply andb_true_iff in H2 as [H2 _]. by rewrite H2 in Hr1.
  - exfalso. change (String c (d1 +:+ r1) = r2) in Heq. subst r2.
    simpl in *. apply andb_true_iff in H1 as [H1 _]. by rewrite H1 in Hr2.
  - rewrite !append_cons in Heq. injection Heq as -> Heq. simpl in *.
    apply andb_true_iff in H1 as [_ H1]. apply andb_true_iff in H2 as [_ H2].
    by destruct (IH d2 H1 H2 Hr1 Hr2 Heq) as [-> ->].
Qed.

Lemma pretty_nat_digits (n : nat) : Props.all_digits (pretty n) = true.
Proof. apply pretty_N_digits. Qed.

(** A page number followed by something that does not start with a digit
    can be read back. *)
Lemma numbered_name_inj (i j : nat) (r1 r2 : string) :
  Props.no_leading_digit r1 = true → Props.no_leading_digit r2 = true →
  pretty i +:+ r1 = pretty j +:+ r2 → i = j ∧ r1 = r2.
Proof.
  intros Hr1 Hr2 Heq.
  destruct (digits_prefix_inj _ _ _ _ (pretty_nat_digits i)
              (pretty_nat_digits j) Hr1 Hr2 Heq) as [Hp ->].
  split; [|reflexivity]. by apply (inj pretty).
Qed.

Lemma table_name_inj (i k i' k' : nat) :
  "page" +:+ pretty i +:+ "_table" +:+ pretty k +:+ ".csv"
  = "page" +:+ pretty i' +:+ "_table" +:+ pretty k' +:+ ".csv" →
  i = i' ∧ k = k'.
Proof.
  intros Heq. apply (inj (String.append "page")) in Heq.
  apply numbered_name_inj in Heq as [-> Heq]; [|done..].
  apply (inj (String.append "_table")) in Heq.
  by apply numbered_name_inj in Heq as [-> _].
Qed.

Lemma NoDup_concat_imap {A B : Type} (f : nat → A → list B) (l : list A) :
  (∀ n x, l !! n = Some x → NoDup (f n x)) →
  (∀ n m x y b, l !! n = Some x → l !! m = Some y →
                b ∈ f n x → b ∈ f m y → n = m) →
  NoDup (concat (imap f l)).
Proof.
  revert f. induction l as [|x l IH]; intros f Hnd Hsep; [constructor|].
  rewrite imap_cons, concat_cons. apply NoDup_app. split; [|split].
  - by apply (Hnd 0).
  - intros b Hb Hin. apply list_elem_of_In, in_concat in Hin as (bs & Hbs & Hin).
    apply list_elem_of_In, list_elem_of_lookup in Hbs as [m Hm].
    rewrite list_lookup_imap in Hm.
    destruct (l !! m) as [y|] eqn:Hy; [|discriminate].
    simpl in Hm. injection Hm as <-.
    apply list_elem_of_In in Hin.
    by specialize (Hsep 0 (S m) x y b eq_refl Hy Hb Hin).
  - apply IH.
    + intros n y Hy. by apply (Hnd (S n)).
    + intros n m y z b Hy Hz Hb Hb'.
      by specialize (Hsep (S n) (S m) y z b Hy Hz Hb Hb') as [= ->].
Qed.

(** X19. No table file is written twice in a run: provided that joining
    two different file names to the table directory gives two different
    paths, the paths written by the table extractor are pairwise distinct,
    across candidates, strategies and pages. *)
Theorem table_files_never_collide (H : Host) (self : Converter)
    (pdf : list PlumberPage) :
  (∀ a b, os_path_join H (table_dir self) a = os_path_join H (table_dir self) b
          → a = b) →
  NoDup (Tables.extract_and_save_tables H self pdf []).2.*1.
Proof.
  intros Hjoin. rewrite extract_tables_files, app_nil_l.
  assert (Hinj : ∀ i k i' k',
            Tables.table_file H self i k = Tables.table_file H self i' k' →
            i = i' ∧ k = k').
  { intros i k i' k' Heq. apply Hjoin in Heq. by apply table_name_inj. }
  assert (Hfst : ∀ (ls : list (list (string * content))),
            (concat ls).*1 = concat ((λ l, l.*1) <$> ls)).
  { induction ls as [|x ls IHls]; [reflexivity|].
    simpl. by rewrite fmap_app, IHls. }
  rewrite Hfst, fmap_imap.
  apply NoDup_concat_imap.
  - intros n pg _. simpl. rewrite persisted_paths.
    apply NoDup_fmap_2; [|apply NoDup_seq].
    intros k k' Heq. by apply Hinj in Heq as [_ ->].
  - intros n m pg pg' b _ _. simpl. rewrite !persisted_paths.
    intros Hb Hb'. apply list_elem_of_fmap in Hb as (k & -> & _).
    apply list_elem_of_fmap in Hb' as (k' & Heq & _).
    apply Hinj in Heq as [Heq _]. lia.
Qed.

Lemma table_files_never_collide_witness :
  NoDup (Tables.extract_and_save_tables (Sample.host true [])
           (Sample.converter "auto")
           [Sample.plumber_page; Sample.plumber_page] []).2.*1.
Proof.
  apply (table_files_never_collide (Sample.host true [])
           (Sample.converter "auto")
           [Sample.plumber_page; Sample.plumber_page]).
  intros a b Heq. simpl in Heq.
  by apply (inj (String.append "out/tables/")) in Heq.
Defined.

Lemma artifact_name_inj (i j : nat) (e1 e2 : string) :
  Props.no_leading_digit e1 = true → Props.no_leading_digit e2 = true →
  "page" +:+ pretty i +:+ e1 = "page" +:+ pretty j +:+ e2 →
  i = j ∧ e1 = e2.
Proof.
  intros He1 He2 Heq. apply (inj (String.append "page")) in Heq.
  by apply numbered_name_inj.
Qed.

Lemma page_ocr_files_paths (H : Host) (E : Engine) (g : Globals)
    (self : Converter) (diag : list PageDiag) (i : nat) (pg : Page) :
  (Trace.page_ocr_files H E g self diag i pg).*1 = []
  ∨ (Trace.page_ocr_files H E g self diag i pg).*1 =
    [Ocr.artifact_path H self i ".txt"; Ocr.artifact_path H self i ".tsv";
     Ocr.artifact_path H self i ".hocr"].
Proof.
  unfold Trace.page_ocr_files. destruct (_ && _); [|by left].
  destruct (Ocr.recognize H E self pg) as [[[[text tsv_str] hocr_bytes]|]|msg];
    [by right | by left | by left].
Qed.

(** X20. No OCR artifact is written twice by the record loop: provided
    that joining two different file names to the OCR directory gives two
    different paths, the paths of the artifacts written for a document are
    pairwise distinct, across the three kinds and across pages. *)
Theorem ocr_files_never_collide (H : Host) (E : Engine) (g : Globals)
    (self : Converter) (diag : list PageDiag)
    (images tables : gmap nat (list string)) (doc : list Page) :
  (∀ a b, os_path_join H (ocr_dir self) a = os_path_join H (ocr_dir self) b
          → a = b) →
  NoDup (Convert.records_loop H E g self diag images tables doc 1 [] []).2.*1.
Proof.
  intros Hjoin. rewrite records_loop_imap. simpl.
  assert (Hinj : ∀ i e i' e',
            Props.no_leading_digit e = true →
            Props.no_leading_digit e' = true →
            Ocr.artifact_path H self i e = Ocr.artifact_path H self i' e' →
            i = i' ∧ e = e').
  { intros i e i' e' He He' Heq. apply Hjoin in Heq.
    by apply artifact_name_inj. }
  assert (Hfst : ∀ (ls : list (list (string * content))),
            (concat ls).*1 = concat ((λ l, l.*1) <$> ls)).
  { induction ls as [|x ls IHls]; [reflexivity|].
    simpl. by rewrite fmap_app, IHls. }
  rewrite Hfst, fmap_imap. apply NoDup_concat_imap.
  - intros n pg _. simpl. rewrite convert_page_files.
    destruct (page_ocr_files_paths H E g self diag (S n) pg) as [-> | ->];
      [constructor|].
    repeat (apply NoDup_cons; split;
            [rewrite ?elem_of_cons, elem_of_nil;
             intros Hin; repeat destruct Hin as [Hin | Hin]; try done;
             by apply Hinj in Hin as [_ [=]]|]).
    constructor.
  - intros n m pg pg' b _ _. simpl. rewrite !convert_page_files.
    destruct (page_ocr_files_paths H E g self diag (S n) pg) as [-> | ->];
      [by intros ?%elem_of_nil|].
    destruct (page_ocr_files_paths H E g self diag (S m) pg') as [-> | ->];
      [by intros _ ?%elem_of_nil|].
    rewrite !elem_of_cons, !elem_of_nil.
    intros Hb Hb'.
    repeat destruct Hb as [Hb | Hb]; try done;
      repeat destruct Hb' as [Hb' | Hb']; try done;
      subst b; apply Hinj in Hb' as [Hb' _]; try done; lia.
Qed.

Lemma ocr_files_never_collide_witness :
  NoDup (Convert.records_loop (Sample.host true ["tesseract"])
           (Sample.engine "ocr text") (initial_globals ∅)
           (Sample.converter "force") [] ∅ ∅
           [Sample.text_page; Sample.stacked_page] 1 [] []).2.*1.
Proof.
  apply (ocr_files_never_collide (Sample.host true ["tesseract"])
           (Sample.engine "ocr text") (initial_globals ∅)
           (Sample.converter "force") [] ∅ ∅
           [Sample.text_page; Sample.stacked_page]).
  intros a b Heq. simpl in Heq.
  by apply (inj (String.append "out/ocr/")) in Heq.
Defined.

(** ** The image extractor *)





Section ImagesOfPage.

Variables (F : Fitz) (H : Host) (self : Converter) (i : nat).



End ImagesOfPage.

Section FiguresOfPage.

Variables (F : Fitz) (H : Host) (self : Converter) (i : nat) (pg : Page).
Hypothesis clip_ok : ∀ r, ∃ png, clip_png F pg Images.IMAGE_ZOOM r = Ok png.



End FiguresOfPage.







Example sample_image_paths :
  Images.images_of_page Images.sample_fitz (Sample.host true [])
    (Sample.converter "auto") 1 Trace.photo_page [] =
  Ok (["out/images/page1_img1.jpeg"; "out/images/page1_img2.png";
       "out/images/page1_fig1.png"; "out/images/page1_vector.png"],
      [("out/images/page1_img1.jpeg", Bytes "bytes");
       ("out/images/page1_img2.png", Bytes "bytes");
       ("out/images/page1_fig1.png", Bytes "png");
       ("out/images/page1_vector.png", Bytes "png")]).
Proof. reflexivity. Qed.

(** ** Failures of the image extractor *)

Section ImageFailures.

Variables (F : Fitz) (H : Host) (self : Converter).

Lemma xobject_loop_raises (i : nat) (xrefs : list Z) (seen : gset Z)
    (saved : list string) (fs : FS) (x : Z) :
  x ∈ xrefs → x ∉ seen → Images.bytes_of F x = None →
  ∃ msg, Images.xobject_loop F H self i xrefs seen saved fs = Raise msg.
Proof.
  revert seen saved fs.
  induction xrefs as [|y rest IH]; intros seen saved fs Hin Hseen Hnone.
  - by apply elem_of_nil in Hin.
  - cbn [Images.xobject_loop].
    destruct (bool_decide (y ∈ seen)) eqn:Hy.
    + apply bool_decide_eq_true in Hy. apply IH; [|done..].
      apply elem_of_cons in Hin as [-> | Hin]; [contradiction | exact Hin].
    + unfold Images.bytes_of in Hnone.
      destruct (Z.eq_dec x y) as [<- | Hne].
      * destruct (extract_image F x) as [data|msg]; [|by eexists].
        cbn [bind]. rewrite Hnone. by eexists.
      * destruct (extract_image F y) as [data|msg]; [|by eexists].
        cbn [bind]. destruct (data_image data); [|by eexists].
        apply IH; [|
          rewrite elem_of_union, elem_of_singleton; tauto | exact Hnone].
        apply elem_of_cons in Hin as [-> | Hin]; [contradiction | exact Hin].
Qed.

Lemma figures_loop_raises (i : nat) (pg : Page) (blocks : list Block)
    (fig_count : nat) (saved : list string) (fs : FS) (b : Block) :
  b ∈ blocks → Preflight.is_type 1 b = true → b_bbox b = None →
  ∃ msg, Images.figures_loop F H self i pg blocks fig_count saved fs
         = Raise msg.
Proof.
  revert fig_count saved fs.
  induction blocks as [|b' rest IH]; intros fig_count saved fs Hin Hty Hbox.
  - by apply elem_of_nil in Hin.
  - cbn [Images.figures_loop].
    apply elem_of_cons in Hin as [<- | Hin].
    + rewrite Hty, Hbox. by eexists.
    + destruct (Preflight.is_type 1 b'); [|by apply IH].
      destruct (b_bbox b') as [rect|]; [|by eexists].
      destruct (clip_png F pg Images.IMAGE_ZOOM rect) as [png|msg];
        [|by eexists].
      cbn [bind]. by apply IH.
Qed.

End ImageFailures.

Lemma images_of_page_raises (F : Fitz) (H : Host) (self : Converter)
    (i : nat) (pg : Page) (fs : FS) :
  Images.page_broken F pg →
  ∃ msg, Images.images_of_page F H self i pg fs = Raise msg.
Proof.
  unfold Images.images_of_page.
  intros [(x & Hx & Hnone) | (b & Hb & Hty & Hbox)].
  - destruct (xobject_loop_raises F H self i (get_images F pg) ∅ [] fs x
                Hx (not_elem_of_empty x) Hnone) as [msg ->].
    by exists msg.
  - destruct (Images.xobject_loop F H self i (get_images F pg) ∅ [] fs)
      as [st|msg]; [|by exists msg].
    cbn [bind].
    destruct (figures_loop_raises F H self i pg (Preflight.blocks_of pg) 0
                st.1 st.2 b Hb Hty Hbox) as [msg ->].
    by exists msg.
Qed.

Lemma images_pages_loop_raises (F : Fitz) (H : Host) (self : Converter)
    (doc : list Page) (i : nat) (images : gmap nat (list string)) (fs : FS)
    (pg : Page) :
  pg ∈ doc → Images.page_broken F pg →
  ∃ msg, Images.pages_loop F H self doc i images fs = Raise msg.
Proof.
  revert i images fs.
  induction doc as [|p doc IH]; intros i images fs Hin Hbad.
  - by apply elem_of_nil in Hin.
  - cbn [Images.pages_loop].
    apply elem_of_cons in Hin as [<- | Hin].
    + destruct (images_of_page_raises F H self i pg fs Hbad) as [msg ->].
      by exists msg.
    + destruct (Images.images_of_page F H self i p fs) as [st|msg];
        [|by exists msg].
      cbn [bind]. by apply IH.
Qed.



(** X23. The image pass has no handler: when one page of the document
    has an embedded image whose extraction raises or returns no bytes, or
    an image block without a bounding box, the whole run raises and
    returns no record, although the diagnostics pass accepts the same
    document. *)
Theorem image_failure_aborts_run (F : Fitz) (H : Host) (E : Engine)
    (g : Globals) (self : Converter) (doc : list Page)
    (pdf : list PlumberPage) (fs : FS) (pg : Page) :
  pg ∈ doc → Images.page_broken F pg →
  (∃ diag, Preflight.preflight doc = Ok diag)
  ∧ ∃ msg, Images.convert_pdf F H E g self doc pdf fs = Raise msg.
Proof.
  intros Hin Hbad. unfold Images.convert_pdf.
  destruct (preflight_loop_ok doc 1 []) as (diag & Hdiag & _ & _).
  unfold Preflight.preflight. rewrite Hdiag. split; [by exists diag|].
  cbn [bind]. simpl. unfold Images.extract_images_by_page.
  match goal with
  | |- context [Images.pages_loop F H self doc 1 ∅ ?f] =>
      destruct (images_pages_loop_raises F H self doc 1 ∅ f pg Hin Hbad)
        as [msg ->]
  end.
  by exists msg.
Qed.

Lemma image_failure_aborts_run_witness :
  (∃ diag, Preflight.preflight [Sample.text_page; Images.boxless_page]
           = Ok diag)
  ∧ ∃ msg,
      Images.convert_pdf Images.sample_fitz (Sample.host true ["tesseract"])
        (Sample.engine "ocr text") (initial_globals ∅)
        (Sample.converter "auto") [Sample.text_page; Images.boxless_page]
        [] [] = Raise msg.
Proof.
  apply (image_failure_aborts_run Images.sample_fitz
           (Sample.host true ["tesseract"]) (Sample.engine "ocr text")
           (initial_globals ∅) (Sample.converter "auto")
           [Sample.text_page; Images.boxless_page] [] []
           Images.boxless_page).
  - apply elem_of_cons. right. apply elem_of_cons. by left.
  - right. eexists. split; [by apply list_elem_of_singleton|]. by split.
Defined.

(** ** More on tables *)

(** X24. A table strategy that raises is skipped without a trace: when
    the lattice strategy raises on a page, the page gets the tables of the
    stream strategy alone, numbered from 1; when both raise, the page
    still has its entry in the dict, with no path. *)
Theorem table_strategy_failure_is_local (H : Host) (self : Converter)
    (pdf : list PlumberPage) (fs : FS) (n : nat) (pg : PlumberPage)
    (msg : string) :
  pdf !! n = Some pg →
  extract_tables pg lattice_settings = Raise msg →
  let out := Tables.extract_and_save_tables H self pdf fs in
  let stream := try_except (extract_tables pg stream_settings) [] in
  out.1 !! S n =
    Some (Tables.table_file H self (S n)
            <$> seq 1 (length (List.filter Spec.has_nonblank stream)))
  ∧ Spec.persisted H self (S n) pg =
    imap (λ k t, (Tables.table_file H self (S n) (S k),
                  CsvRows (Spec.cleaned t)))
      (List.filter Spec.has_nonblank stream)
  ∧ ((∃ msg', extract_tables pg stream_settings = Raise msg') →
     out.1 !! S n = Some []).
Proof.
  intros Hpg Hraise out stream. subst out stream.
  unfold Tables.extract_and_save_tables.
  destruct (pages_loop_persisted H self pdf 1 ∅ fs) as (_ & Hget & _).
  specialize (Hget n pg Hpg). simpl in Hget.
  rewrite Hget, persisted_paths.
  unfold Spec.persisted, Spec.kept, Spec.candidates_of.
  rewrite Hraise. simpl. split; [reflexivity|]. split; [reflexivity|].
  by intros [msg' ->].
Qed.

Lemma table_strategy_failure_is_local_witness :
  let pg := {| extract_tables := λ s,
                 match s with
                 | lattice_settings => Raise "no lines"
                 | stream_settings => Ok [Sample.real_table]
                 end |} in
  (Tables.extract_and_save_tables (Sample.host true [])
     (Sample.converter "auto") [pg] []).1 !! 1
  = Some ["out/tables/page1_table1.csv"].
Proof.
  intros pg.
  apply (proj1 (table_strategy_failure_is_local (Sample.host true [])
           (Sample.converter "auto") [pg] [] 0 pg "no lines"
           eq_refl eq_refl)).
Defined.

(** X25. The dict of the table extractor has one entry per page of the
    file, from page 1 on, and no other: a page without any kept table has
    an entry with an empty list. *)
Theorem tables_dict_domain (H : Host) (self : Converter)
    (pdf : list PlumberPage) (fs : FS) (j : nat) :
  is_Some ((Tables.extract_and_save_tables H self pdf fs).1 !! j)
  ↔ 1 ≤ j ≤ length pdf.
Proof.
  unfold Tables.extract_and_save_tables. split.
  - intros Hsome.
    destruct (decide (1 ≤ j ≤ length pdf)) as [Hj | Hj]; [exact Hj|].
    rewrite pages_loop_other in Hsome by lia.
    rewrite lookup_empty in Hsome. by destruct Hsome.
  - intros Hj. destruct j as [|n]; [lia|].
    destruct (lookup_lt_is_Some_2 pdf n ltac:(lia)) as [pg Hpg].
    destruct (pages_loop_persisted H self pdf 1 ∅ fs) as (_ & Hget & _).
    specialize (Hget n pg Hpg). simpl in Hget. by rewrite Hget.
Qed.

(** X26. A table file never holds an empty table or a blank row: every
    file written for a page has at least one row, each of its rows has a
    cell that is not blank, and each row is a row of the candidate with
    its absent cells turned into empty strings, so of the same width. *)
Theorem written_rows_are_nonblank (H : Host) (self : Converter) (i : nat)
    (pg : PlumberPage) (path : string) (c : content) :
  (path, c) ∈ Spec.persisted H self i pg →
  ∃ t rows, c = CsvRows rows
    ∧ t ∈ Spec.candidates_of pg
    ∧ rows = Tables.rows_loop t []
    ∧ rows ≠ []
    ∧ ∀ row, row ∈ rows →
        Tables.any_nonblank row = true
        ∧ ∃ raw, raw ∈ t ∧ row = Tables.clean_row raw
                 ∧ length row = length raw.
Proof.
  intros Hin. apply list_elem_of_lookup in Hin as [k Hk].
  unfold Spec.persisted in Hk. rewrite list_lookup_imap in Hk.
  destruct (Spec.kept pg !! k) as [t|] eqn:Ht; [|discriminate].
  simpl in Hk. injection Hk as _ <-.
  assert (Hkept : t ∈ Spec.kept pg) by (apply list_elem_of_lookup; eauto).
  apply kept_elem in Hkept as [Hcand Hnb].
  exists t, (Spec.cleaned t). rewrite rows_loop_cleaned.
  split; [reflexivity|]. split; [exact Hcand|]. split; [reflexivity|].
  split.
  - intros Hc. apply cleaned_nil in Hc. congruence.
  - intros row Hrow. unfold Spec.cleaned in Hrow.
    apply list_elem_of_fmap in Hrow as (raw & -> & Hraw).
    apply list_elem_of_In, filter_In in Hraw as [Hraw Hnbr].
    rewrite any_nonblank_clean_row. split; [exact Hnbr|].
    exists raw. rewrite <- list_elem_of_In in Hraw.
    split; [exact Hraw|]. split; [reflexivity|].
    unfold Tables.clean_row. by rewrite length_fmap.
Qed.

Lemma written_rows_are_nonblank_witness :
  ∃ t rows, CsvRows [[EmptyString; "a"]] = CsvRows rows
    ∧ t ∈ Spec.candidates_of Sample.plumber_page
    ∧ rows = Tables.rows_loop t []
    ∧ rows ≠ []
    ∧ ∀ row, row ∈ rows →
        Tables.any_nonblank row = true
        ∧ ∃ raw, raw ∈ t ∧ row = Tables.clean_row raw
                 ∧ length row = length raw.
Proof.
  apply (written_rows_are_nonblank (Sample.host true [])
           (Sample.converter "auto") 1 Sample.plumber_page
           "out/tables/page1_table1.csv").
  apply elem_of_cons. by left.
Defined.

Lemma tables_dict_domain_witness :
  is_Some ((Tables.extract_and_save_tables (Sample.host true [])
              (Sample.converter "auto") [Sample.plumber_page] []).1 !! 1).
Proof.
  apply (proj2 (tables_dict_domain (Sample.host true [])
           (Sample.converter "auto") [Sample.plumber_page] [] 1)).
  simpl. lia.
Defined.

(** ** More on the trigger and on [ocr_page] *)

(** X27. In mode auto the trigger is monotone in its thresholds: a page
    that triggers OCR still triggers it when the character threshold is
    raised or the coverage threshold lowered; and whatever triggers in
    mode auto triggers in mode force. *)
Theorem trigger_monotone (tn tn' : Z) (tc tc' : Q) (d : option PageDiag)
    (nw : Z) :
  (tn ≤ tn')%Z → (tc' <= tc)%Q →
  need_ocr "auto" tn tc d nw = true →
  need_ocr "auto" tn' tc' d nw = true
  ∧ need_ocr "force" tn tc d nw = true.
Proof.
  intros Htn Htc. unfold need_ocr. simpl.
  rewrite !orb_true_iff, !Z.ltb_lt, !Qle_bool_iff.
  intros [[Hb | Hn] | Hc]; (split; [|reflexivity]).
  - by left; left.
  - left. right. lia.
  - right. by apply (Qle_trans _ tc).
Qed.

Lemma trigger_monotone_witness :
  need_ocr "auto" 50 (1 # 2) None 30 = true
  ∧ need_ocr "force" 20 (7 # 10) None 30 = true.
Proof.
  apply (trigger_monotone 20 50 (7 # 10) (1 # 2) None 30);
    [lia | unfold Qle; simpl; lia | reflexivity].
Defined.

(** X28. The answer "no image" of the page renderer cannot occur inside
    [ocr_page]: once the check of the libraries has passed, the
    recognition either returns its three results or raises. The error
    "failed_to_render_page_image" is therefore only ever the message of
    an exception. *)
Theorem no_image_branch_is_dead (H : Host) (E : Engine) (g : Globals)
    (self : Converter) (pg : Page) (n : nat) (fs : FS) :
  (Spec.libs_missing H = false → Ocr.recognize H E self pg ≠ Ok None)
  ∧ (m_error (Ocr.ocr_page H E g self pg n fs).1.2
     = Some "failed_to_render_page_image" →
     Ocr.recognize H E self pg = Raise "failed_to_render_page_image").
Proof.
  assert (Hdead : Spec.libs_missing H = false →
                  Ocr.recognize H E self pg ≠ Ok None).
  { unfold Spec.libs_missing. intros Hlib.
    apply orb_false_iff in Hlib as [_ Himg]. apply negb_false_iff in Himg.
    unfold Ocr.recognize, Ocr._page_to_image. rewrite Himg. simpl.
    destruct (render E pg _) as [img|msg]; simpl; [|discriminate].
    destruct (image_to_string E _ _ _); simpl; [|discriminate].
    destruct (image_to_data E _ _ _); simpl; [|discriminate].
    destruct (image_to_pdf_or_hocr E _ _ _); simpl; discriminate. }
  split; [exact Hdead|].
  rewrite ocr_page_cases.
  destruct (Spec.libs_missing H) eqn:Hlib; [discriminate|].
  destruct (Spec.binary_missing H g); [discriminate|].
  specialize (Hdead eq_refl).
  destruct (Ocr.recognize H E self pg) as [[[[text tsv_str] hocr_bytes]|]|msg];
    simpl; [discriminate | contradiction | by intros [= ->]].
Qed.

Lemma no_image_branch_is_dead_witness :
  Ocr.recognize (Sample.host true ["tesseract"]) (Sample.engine "ocr text")
    (Sample.converter "force") Sample.text_page ≠ Ok None.
Proof.
  apply (proj1 (no_image_branch_is_dead (Sample.host true ["tesseract"])
           (Sample.engine "ocr text") (initial_globals ∅)
           (Sample.converter "force") Sample.text_page 1 [])).
  reflexivity.
Defined.

(** X29. A record that says [used] points at what was written: in a run,
    when the record of a page has [used] true, the txt artifact it names
    is among the files of the run, and the text of the record is the
    content of that file, stripped. *)
Theorem used_record_matches_artifact (H : Host) (E : Engine) (g : Globals)
    (self : Converter) (doc : list Page) (pdf : list PlumberPage)
    (images : gmap nat (list string)) (fs : FS) :
  ∃ records fs',
    Convert.convert_pdf H E g self doc pdf images fs = Ok (records, fs')
    ∧ ∀ r, r ∈ records → used (rec_ocr r) = true →
        ∃ text,
          txt (artifacts (rec_ocr r))
          = Some (Ocr.artifact_path H self (rec_page r) ".txt")
          ∧ (Ocr.artifact_path H self (rec_page r) ".txt", Text text) ∈ fs'
          ∧ rec_text r = PyStr.strip text.
Proof.
  destruct (convert_pdf_files H E g self doc pdf images fs)
    as (diag & records & Hdiag & Hrun).
  destruct (convert_pdf_shape H E g self doc pdf images fs)
    as (diag' & Hdiag' & _ & Hshape).
  rewrite Hdiag in Hdiag'. injection Hdiag' as <-.
  rewrite Hrun in Hshape. simpl in Hshape. injection Hshape as Hrecs _.
  exists records. eexists. split; [exact Hrun|].
  intros r Hr Hused. rewrite Hrecs in Hr.
  apply list_elem_of_lookup in Hr as [k Hk].
  rewrite list_lookup_imap in Hk.
  destruct (doc !! k) as [pg|] eqn:Hpg; [|discriminate].
  simpl in Hk. injection Hk as <-.
  revert Hused. rewrite convert_page_record. simpl. intros Hused.
  apply andb_true_iff in Hused as [Hneed Hused].
  apply andb_true_iff in Hused as [Hmeta Htext].
  rewrite Hneed, Hmeta, Htext. simpl.
  assert (Hfiles : ∃ text tsv_str hocr_bytes,
            Trace.page_ocr_files H E g self diag (S k) pg
            = Props.ocr_files H self (S k) text tsv_str hocr_bytes
            ∧ (Ocr.ocr_page H E g self pg (S k) []).1.1 = PyStr.strip text
            ∧ m_txt (Ocr.ocr_page H E g self pg (S k) []).1.2
              = Some (Ocr.artifact_path H self (S k) ".txt")).
  { unfold Trace.page_ocr_files. rewrite Hneed.
    revert Hmeta. rewrite ocr_page_cases.
    destruct (Spec.libs_missing H); [discriminate|].
    destruct (Spec.binary_missing H g); [discriminate|]. simpl.
    destruct (Ocr.recognize H E self pg)
      as [[[[text tsv_str] hocr_bytes]|]|msg]; try discriminate.
    intros _. by exists text, tsv_str, hocr_bytes. }
  destruct Hfiles as (text & tsv_str & hocr_bytes & Hfiles & Htxt & Hpath).
  exists text. split; [exact Hpath|]. split; [|exact Htxt].
  rewrite !elem_of_app. right. right. right.
  apply list_elem_of_In, in_concat.
  exists (Trace.page_ocr_files H E g self diag (S k) pg).
  split; apply list_elem_of_In.
  - apply list_elem_of_lookup. exists k. by rewrite list_lookup_imap, Hpg.
  - rewrite Hfiles. apply elem_of_cons. by left.
Qed.

Lemma used_record_matches_artifact_witness :
  ∃ records fs',
    Convert.convert_pdf (Sample.host true ["tesseract"])
      (Sample.engine "ocr text") (initial_globals ∅)
      (Sample.converter "force") [Sample.text_page] [] ∅ []
    = Ok (records, fs')
    ∧ ∀ r, r ∈ records → used (rec_ocr r) = true →
        ∃ text,
          txt (artifacts (rec_ocr r))
          = Some (Ocr.artifact_path (Sample.host true ["tesseract"])
                    (Sample.converter "force") (rec_page r) ".txt")
          ∧ (Ocr.artifact_path (Sample.host true ["tesseract"])
               (Sample.converter "force") (rec_page r) ".txt", Text text)
            ∈ fs'
          ∧ rec_text r = PyStr.strip text.
Proof.
  apply (used_record_matches_artifact (Sample.host true ["tesseract"])
           (Sample.engine "ocr text") (initial_globals ∅)
           (Sample.converter "force") [Sample.text_page] [] ∅ []).
Defined.

(** * Writes that may fail *)

(** ** The artifacts of [ocr_page] *)

Lemma io_write_file_appends (D : Disk) (path : string)
    (encoding : option string) (c : content) (fs : FS) :
  IO.write_file D path encoding c fs =
  ((IO.write_file D path encoding c []).1,
   fs ++ (IO.write_file D path encoding c []).2).
Proof.
  unfold IO.write_file.
  destruct (write_to D path encoding c) as [|msg [partial|]]; simpl;
    by rewrite ?app_nil_r.
Qed.

Lemma io_write_all_appends (D : Disk)
    (ws : list (string * option string * content)) (fs : FS) :
  IO.write_all D ws fs =
  ((IO.write_all D ws []).1, fs ++ (IO.write_all D ws []).2).
Proof.
  revert fs. induction ws as [|[[path encoding] c] ws IH]; intros fs.
  - simpl. by rewrite app_nil_r.
  - cbn [IO.write_all].
    rewrite (io_write_file_appends D path encoding c fs).
    destruct (IO.write_file D path encoding c []) as [[[]|msg] fs1]; simpl.
    + rewrite (IH (fs ++ fs1)), (IH fs1). simpl. by rewrite app_assoc.
    + reflexivity.
Qed.

(** The files of a list of writes: never more than the writes, and only
    at their paths. *)
Lemma io_write_all_files (D : Disk)
    (ws : list (string * option string * content)) :
  length (IO.write_all D ws []).2 ≤ length ws
  ∧ ∀ p c, (p, c) ∈ (IO.write_all D ws []).2 → p ∈ (λ w, w.1.1) <$> ws.
Proof.
  induction ws as [|[[path encoding] c] ws [IHlen IHin]].
  - split; [done|]. intros p c Hin. by apply elem_of_nil in Hin.
  - cbn [IO.write_all]. unfold IO.write_file.
    destruct (write_to D path encoding c) as [|msg [partial|]].
    + rewrite io_write_all_appends. simpl. split; [lia|].
      intros p c' Hin. apply (elem_of_cons _ p path).
      apply elem_of_cons in Hin as [[= -> _] | Hin]; [by left|].
      right. by apply (IHin p c').
    + simpl. split; [lia|]. intros p c' Hin. apply (elem_of_cons _ p path).
      apply list_elem_of_singleton in Hin as [= -> _]. by left.
    + simpl. split; [lia|]. intros p c' Hin. by apply elem_of_nil in Hin.
Qed.

(** All the writes succeed exactly when the list ends without an
    exception; the files are then those of the writes, in order. *)
Lemma io_write_all_ok (D : Disk)
    (ws : list (string * option string * content)) :
  (IO.write_all D ws []).1 = Ok tt
  ↔ forallb (λ w, IO.is_written (write_to D w.1.1 w.1.2 w.2)) ws = true.
Proof.
  induction ws as [|[[path encoding] c] ws IH]; [done|].
  cbn [IO.write_all forallb]. unfold IO.write_file. simpl.
  destruct (write_to D path encoding c) as [|msg [partial|]]; simpl.
  - rewrite io_write_all_appends. simpl. exact IH.
  - split; discriminate.
  - split; discriminate.
Qed.

Lemma io_write_all_written (D : Disk)
    (ws : list (string * option string * content)) :
  (IO.write_all D ws []).1 = Ok tt →
  (IO.write_all D ws []).2 = (λ w, (w.1.1, w.2)) <$> ws.
Proof.
  induction ws as [|[[path encoding] c] ws IH]; [done|].
  cbn [IO.write_all]. unfold IO.write_file.
  destruct (write_to D path encoding c) as [|msg [partial|]]; simpl;
    [|discriminate..].
  rewrite io_write_all_appends. simpl. intros Hok.
  change ((path, c) :: (IO.write_all D ws []).2
          = (path, c) :: ((λ w, (w.1.1, w.2)) <$> ws)).
  f_equal. by apply IH.
Qed.

Section IoOutcome.

Variables (D : Disk) (H : Host) (E : Engine) (g : Globals) (self : Converter).

Lemma io_ocr_page_cases (pg : Page) (n : nat) (fs : FS) :
  IO.ocr_page D H E g self pg n fs =
  if Spec.libs_missing H then
    (EmptyString, Ocr.with_error "pytesseract_or_pillow_not_available", fs)
  else if Spec.binary_missing H g then
    (EmptyString, Ocr.with_error "tesseract_not_found", fs)
  else
    match Ocr.recognize H E self pg with
    | Ok None => (EmptyString, Ocr.with_error "failed_to_render_page_image", fs)
    | Ok (Some (text, tsv_str, hocr_bytes)) =>
        let w := IO.write_all D
                   (IO.artifact_writes H self n text tsv_str hocr_bytes) [] in
        match w.1 with
        | Ok _ =>
            (PyStr.strip text,
             {| m_used := true;
                m_lang := Some (ocr_lang self);
                m_dpi := Some (ocr_dpi self);
                m_txt := Some (Ocr.artifact_path H self n ".txt");
                m_tsv := Some (Ocr.artifact_path H self n ".tsv");
                m_hocr := Some (Ocr.artifact_path H self n ".hocr");
                m_error := None |},
             fs ++ w.2)
        | Raise msg => (EmptyString, Ocr.with_error msg, fs ++ w.2)
        end
    | Raise msg => (EmptyString, Ocr.with_error msg, fs)
    end.
Proof.
  unfold IO.ocr_page, Spec.libs_missing, Spec.binary_missing.
  destruct (negb _ || negb _); [done|].
  destruct (negb _ && negb _); [done|].
  destruct (Ocr.recognize H E self pg) as [[[[text tsv_str] hocr_bytes]|]|msg];
    try done.
  unfold IO.artifact_writes. cbn [IO.write_all]. unfold IO.write_file.
  destruct (write_to D (Ocr.artifact_path H self n ".txt") _ _)
    as [|m1 [p1|]]; simpl; rewrite ?app_nil_r; try done.
  destruct (write_to D (Ocr.artifact_path H self n ".tsv") _ _)
    as [|m2 [p2|]]; simpl; rewrite ?app_nil_r; try done;
    try by rewrite <- app_assoc.
  destruct (write_to D (Ocr.artifact_path H self n ".hocr") _ _)
    as [|m3 [p3|]]; simpl; by rewrite <- ?app_assoc.
Qed.

(** On a disk where every write succeeds this is the [ocr_page] analysed
    before. *)
Lemma io_ocr_page_reliable (pg : Page) (n : nat) (fs : FS) :
  (∀ p enc c, write_to D p enc c = Written) →
  IO.ocr_page D H E g self pg n fs = Ocr.ocr_page H E g self pg n fs.
Proof.
  intros Hw. rewrite io_ocr_page_cases, ocr_page_cases.
  destruct (Spec.libs_missing H); [done|].
  destruct (Spec.binary_missing H g); [done|].
  destruct (Ocr.recognize H E self pg) as [[[[text tsv_str] hocr_bytes]|]|msg];
    try done.
  unfold IO.artifact_writes. cbn [IO.write_all]. unfold IO.write_file.
  by rewrite !Hw.
Qed.

End IoOutcome.

(** X8. [ocr_page] ends in one of two ways. Either [used] is true and
    there is no error: the recognition returned, the three artifacts of the
    page were written in the order txt, tsv, hocr, the metadata names them
    together with the language and the resolution, and the text handed
    back is the recognised text, stripped. Or [used] is false and an error
    is set: the text handed back is empty and the metadata names no file,
    language or resolution. In that case nothing was written unless the
    recognition returned and one of the three writes failed; then the
    files left are at most three, at the artifact paths of the page. *)
Theorem ocr_page_outcome (D : Disk) (H : Host) (E : Engine) (g : Globals)
    (self : Converter) (pg : Page) (n : nat) (fs : FS) :
  let out := IO.ocr_page D H E g self pg n fs in
  let meta := out.1.2 in
  (m_used meta = true ↔ m_error meta = None)
  ∧ (m_used meta = true →
     ∃ text tsv_str hocr_bytes,
       Ocr.recognize H E self pg = Ok (Some (text, tsv_str, hocr_bytes))
       ∧ out.1.1 = PyStr.strip text
       ∧ out.2 = fs ++ Props.ocr_files H self n text tsv_str hocr_bytes
       ∧ m_txt meta = Some (Ocr.artifact_path H self n ".txt")
       ∧ m_tsv meta = Some (Ocr.artifact_path H self n ".tsv")
       ∧ m_hocr meta = Some (Ocr.artifact_path H self n ".hocr")
       ∧ m_lang meta = Some (ocr_lang self)
       ∧ m_dpi meta = Some (ocr_dpi self))
  ∧ (m_used meta = false →
     out.1.1 = EmptyString
     ∧ m_txt meta = None ∧ m_tsv meta = None ∧ m_hocr meta = None
     ∧ m_lang meta = None ∧ m_dpi meta = None
     ∧ ∃ left,
         out.2 = fs ++ left
         ∧ length left ≤ 3
         ∧ (∀ p c, (p, c) ∈ left →
              p ∈ [Ocr.artifact_path H self n ".txt";
                   Ocr.artifact_path H self n ".tsv";
                   Ocr.artifact_path H self n ".hocr"])
         ∧ (left ≠ [] →
            ∃ text tsv_str hocr_bytes,
              Ocr.recognize H E self pg = Ok (Some (text, tsv_str, hocr_bytes))
              ∧ (IO.write_all D
                   (IO.artifact_writes H self n text tsv_str hocr_bytes) []).1
                ≠ Ok tt)).
Proof.
  intros out meta. subst out meta. rewrite io_ocr_page_cases.
  assert (Hnil : ∀ (x : string) (m : Meta),
    ∃ left : FS,
      (x, m, fs).2 = fs ++ left ∧ length left ≤ 3
      ∧ (∀ p c, (p, c) ∈ left →
           p ∈ [Ocr.artifact_path H self n ".txt";
                Ocr.artifact_path H self n ".tsv";
                Ocr.artifact_path H self n ".hocr"])
      ∧ (left ≠ [] →
         ∃ text tsv_str hocr_bytes,
           Ocr.recognize H E self pg = Ok (Some (text, tsv_str, hocr_bytes))
           ∧ (IO.write_all D
                (IO.artifact_writes H self n text tsv_str hocr_bytes) []).1
             ≠ Ok tt)).
  { intros x m. exists []. simpl. rewrite app_nil_r.
    split; [done|]. split; [lia|]. split; [|done].
    intros p c Hin. by apply elem_of_nil in Hin. }
  destruct (Spec.libs_missing H); [by repeat split; try apply Hnil|].
  destruct (Spec.binary_missing H g); [by repeat split; try apply Hnil|].
  destruct (Ocr.recognize H E self pg)
    as [[[[text tsv_str] hocr_bytes]|]|msg] eqn:Hrec;
    try (by repeat split; try apply Hnil).
  cbn zeta.
  pose proof (io_write_all_files D
                (IO.artifact_writes H self n text tsv_str hocr_bytes))
    as [Hlen Hpaths].
  destruct (IO.write_all D _ []) as [[[]|msg] left] eqn:Hw;
    cbn -[IO.write_all].
  - split; [done|]. split; [|done]. intros _.
    exists text, tsv_str, hocr_bytes. split; [reflexivity|].
    split; [reflexivity|]. split; [|done].
    pose proof (io_write_all_written D
                  (IO.artifact_writes H self n text tsv_str hocr_bytes))
      as Hall.
    rewrite Hw in Hall. simpl in Hall. by rewrite Hall.
  - split; [done|]. split; [done|]. intros _.
    repeat (split; [reflexivity|]).
    exists left. simpl in Hlen, Hpaths.
    split; [reflexivity|]. split; [exact Hlen|]. split; [exact Hpaths|].
    intros _. exists text, tsv_str, hocr_bytes. split; [reflexivity|].
    rewrite Hw. simpl. discriminate.
Qed.

Lemma ocr_page_outcome_witness :
  let D := IO.full_at "out/ocr/page1.tsv" in
  let out :=
    IO.ocr_page D (Sample.host true ["tesseract"]) (Sample.engine "ocr text")
      (initial_globals ∅) (Sample.converter "force") Sample.text_page 1 [] in
  out.1.1 = EmptyString
  ∧ m_txt out.1.2 = None ∧ m_tsv out.1.2 = None ∧ m_hocr out.1.2 = None
  ∧ m_lang out.1.2 = None ∧ m_dpi out.1.2 = None
  ∧ ∃ left,
      out.2 = [] ++ left
      ∧ length left ≤ 3
      ∧ (∀ p c, (p, c) ∈ left →
           p ∈ [Ocr.artifact_path (Sample.host true ["tesseract"])
                  (Sample.converter "force") 1 ".txt";
                Ocr.artifact_path (Sample.host true ["tesseract"])
                  (Sample.converter "force") 1 ".tsv";
                Ocr.artifact_path (Sample.host true ["tesseract"])
                  (Sample.converter "force") 1 ".hocr"])
      ∧ (left ≠ [] →
         ∃ text tsv_str hocr_bytes,
           Ocr.recognize (Sample.host true ["tesseract"])
             (Sample.engine "ocr text") (Sample.converter "force")
             Sample.text_page = Ok (Some (text, tsv_str, hocr_bytes))
           ∧ (IO.write_all D
                (IO.artifact_writes (Sample.host true ["tesseract"])
                   (Sample.converter "force") 1 text tsv_str hocr_bytes)
                []).1 ≠ Ok tt).
Proof.
  intros D out.
  apply (proj2 (proj2 (ocr_page_outcome D (Sample.host true ["tesseract"])
           (Sample.engine "ocr text") (initial_globals ∅)
           (Sample.converter "force") Sample.text_page 1 []))).
  reflexivity.
Defined.

(** The third outcome on a disk that fills up at the second write: the
    text artifact is on disk, and the page is reported as not used. *)
Example ocr_page_second_write_fails :
  IO.ocr_page (IO.full_at "out/ocr/page1.tsv")
    (Sample.host true ["tesseract"]) (Sample.engine "ocr text")
    (initial_globals ∅) (Sample.converter "force") Sample.text_page 1 [] =
  (EmptyString, Ocr.with_error "No space left on device",
   [("out/ocr/page1.txt", Text "ocr text")]).
Proof. reflexivity. Qed.

(** ** The files of the record loop *)

Section IoLoop.

Variables (D : Disk) (H : Host) (E : Engine) (g : Globals) (self : Converter).
Variables (diag : list PageDiag) (images tables : gmap nat (list string)).

Lemma io_page_files_cases (i : nat) (pg : Page) (fs : FS) :
  (IO.ocr_page D H E g self pg i fs).1 = (IO.ocr_page D H E g self pg i []).1
  ∧ (Convert.page_need_ocr self diag i pg = true →
     (IO.ocr_page D H E g self pg i fs).2
     = fs ++ IO.page_files D H E g self diag i pg).
Proof.
  rewrite !io_ocr_page_cases. unfold IO.page_files.
  destruct (Spec.libs_missing H);
    [split; [done | intros ->; by rewrite app_nil_r]|].
  destruct (Spec.binary_missing H g);
    [split; [done | intros ->; by rewrite app_nil_r]|].
  destruct (Ocr.recognize H E self pg) as [[[[text tsv_str] hocr_bytes]|]|msg];
    try (split; [done | intros ->; by rewrite app_nil_r]).
  cbn zeta.
  destruct (IO.write_all D _ []) as [[[]|msg] left]; cbn -[IO.write_all];
    (split; [done | by intros ->]).
Qed.

Lemma io_convert_page_appends (i : nat) (pg : Page) (fs : FS) :
  IO.convert_page D H E g self diag images tables i pg fs =
  ((IO.convert_page D H E g self diag images tables i pg []).1,
   fs ++ (if Convert.page_need_ocr self diag i pg
          then IO.page_files D H E g self diag i pg else [])).
Proof.
  unfold IO.convert_page.
  destruct (Convert.page_need_ocr self diag i pg) eqn:Hneed;
    [|by rewrite app_nil_r].
  destruct (io_page_files_cases i pg fs) as [H1 H2].
  specialize (H2 Hneed).
  destruct (IO.ocr_page D H E g self pg i fs) as [[t m] f].
  destruct (IO.ocr_page D H E g self pg i []) as [[t' m'] f'].
  simpl in H1, H2. injection H1 as -> ->. subst f.
  by destruct (m_used m' && PyStr.truthy t').
Qed.

Lemma io_page_files_untriggered (i : nat) (pg : Page) :
  Convert.page_need_ocr self diag i pg = false →
  IO.page_files D H E g self diag i pg = [].
Proof. unfold IO.page_files. by intros ->. Qed.

Lemma io_records_loop_imap (doc : list Page) (i : nat)
    (records : list ExtractionRecord) (fs : FS) :
  IO.records_loop D H E g self diag images tables doc i records fs =
  (records
     ++ imap (λ k pg, (IO.convert_page D H E g self diag images tables
                         (i + k) pg []).1) doc,
   fs ++ concat (imap (λ k pg, IO.page_files D H E g self diag (i + k) pg)
                   doc)).
Proof.
  revert i records fs. induction doc as [|pg doc IH]; intros i records fs.
  - simpl. by rewrite !app_nil_r.
  - cbn [IO.records_loop]. rewrite io_convert_page_appends, IH.
    rewrite !imap_cons, concat_cons, Nat.add_0_r, <- !app_assoc.
    rewrite (imap_ext
               (λ k pg', (IO.convert_page D H E g self diag images tables
                            (S i + k) pg' []).1)
               ((λ k pg', (IO.convert_page D H E g self diag images tables
                             (i + k) pg' []).1) ∘ S) doc)
      by (intros k pg' _; simpl; by rewrite Nat.add_succ_r).
    rewrite (imap_ext
               (λ k pg', IO.page_files D H E g self diag (S i + k) pg')
               ((λ k pg', IO.page_files D H E g self diag (i + k) pg') ∘ S)
               doc)
      by (intros k pg' _; simpl; by rewrite Nat.add_succ_r).
    pose proof (io_page_files_untriggered i pg) as Hnone.
    destruct (Convert.page_need_ocr self diag i pg);
      [reflexivity | by rewrite (Hnone eq_refl)].
Qed.

End IoLoop.

(** X11. Whatever diagnostics it is given, the record loop writes nothing
    but OCR artifacts, page after page in the order of the pages. A page
    leaves at most three files, at its own artifact paths: the three
    artifacts of a record whose [used] is true, in the order txt, tsv,
    hocr; no file when OCR is not triggered for it; and what the writes
    left, up to the first that failed, when one failed inside
    [ocr_page]. *)
Theorem files_of_the_record_loop (D : Disk) (H : Host) (E : Engine)
    (g : Globals) (self : Converter) (diag : list PageDiag)
    (images tables : gmap nat (list string)) (doc : list Page) (fs : FS) :
  let out := IO.records_loop D H E g self diag images tables doc 1 [] fs in
  out.2 = fs ++ concat (imap (λ k pg, IO.page_files D H E g self diag (S k) pg)
                          doc)
  ∧ length out.1 = length doc
  ∧ ∀ k pg, doc !! k = Some pg →
      let files := IO.page_files D H E g self diag (S k) pg in
      length files ≤ 3
      ∧ (∀ p c, (p, c) ∈ files →
           p ∈ [Ocr.artifact_path H self (S k) ".txt";
                Ocr.artifact_path H self (S k) ".tsv";
                Ocr.artifact_path H self (S k) ".hocr"])
      ∧ (Convert.page_need_ocr self diag (S k) pg = false → files = [])
      ∧ (∀ r, out.1 !! k = Some r → used (rec_ocr r) = true →
           ∃ text tsv_str hocr_bytes,
             files = Props.ocr_files H self (S k) text tsv_str hocr_bytes
             ∧ rec_text r = PyStr.strip text).
Proof.
  intros out. subst out. rewrite io_records_loop_imap. simpl.
  split; [reflexivity|]. split; [by rewrite length_imap|].
  intros k pg Hk. cbn zeta.
  split; [|split; [|split]].
  - unfold IO.page_files. destruct (_ && _); [|simpl; lia].
    destruct (Ocr.recognize H E self pg)
      as [[[[text tsv_str] hocr_bytes]|]|msg]; try (simpl; lia).
    apply (io_write_all_files D
             (IO.artifact_writes H self (S k) text tsv_str hocr_bytes)).
  - unfold IO.page_files. intros p c.
    destruct (_ && _); [|by intros ?%elem_of_nil].
    destruct (Ocr.recognize H E self pg)
      as [[[[text tsv_str] hocr_bytes]|]|msg];
      try by intros ?%elem_of_nil.
    apply (io_write_all_files D
             (IO.artifact_writes H self (S k) text tsv_str hocr_bytes)).
  - apply io_page_files_untriggered.
  - intros r Hr. rewrite list_lookup_imap, Hk in Hr. simpl in Hr.
    injection Hr as <-. unfold IO.convert_page, IO.page_files.
    destruct (Convert.page_need_ocr self diag (S k) pg); [|discriminate].
    rewrite io_ocr_page_cases. unfold negb, andb.
    destruct (Spec.libs_missing H); [discriminate|].
    destruct (Spec.binary_missing H g); [discriminate|].
    destruct (Ocr.recognize H E self pg)
      as [[[[text tsv_str] hocr_bytes]|]|msg]; try discriminate.
    cbn zeta.
    pose proof (io_write_all_written D
                  (IO.artifact_writes H self (S k) text tsv_str hocr_bytes))
      as Hall.
    destruct (IO.write_all D _ []) as [[[]|msg] left];
      cbn -[IO.write_all];
      [|unfold Ocr.with_error, Ocr.empty_meta; simpl; discriminate].
    destruct (PyStr.truthy (PyStr.strip text)); [|discriminate].
    intros _. exists text, tsv_str, hocr_bytes.
    split; [by apply Hall | reflexivity].
Qed.

Lemma files_of_the_record_loop_witness :
  let D := IO.full_at "out/ocr/page2.tsv" in
  let H := Sample.host true ["tesseract"] in
  let E := Sample.engine "ocr text" in
  let self := Sample.converter "force" in
  let doc := [Sample.text_page; Sample.text_page] in
  let out := IO.records_loop D H E (initial_globals ∅) self [] ∅ ∅ doc 1 [] [] in
  ∃ r, out.1 !! 0 = Some r ∧ used (rec_ocr r) = true
       ∧ ∃ text tsv_str hocr_bytes,
           IO.page_files D H E (initial_globals ∅) self [] 1 Sample.text_page
           = Props.ocr_files H self 1 text tsv_str hocr_bytes
           ∧ rec_text r = PyStr.strip text.
Proof.
  intros D H E self doc out. eexists.
  split; [reflexivity|]. split; [reflexivity|].
  exact (proj2 (proj2 (proj2 (proj2 (proj2
           (files_of_the_record_loop D H E (initial_globals ∅) self [] ∅ ∅
              doc [])) 0 Sample.text_page eq_refl))) _ eq_refl eq_refl).
Defined.

(** Two pages in mode force on a disk that fills up at the token table of
    page 2: page 1 leaves its three artifacts, page 2 its text only. *)
Example record_loop_with_a_failing_write :
  (IO.records_loop (IO.full_at "out/ocr/page2.tsv")
     (Sample.host true ["tesseract"]) (Sample.engine "ocr text")
     (initial_globals ∅) (Sample.converter "force") [] ∅ ∅
     [Sample.text_page; Sample.text_page] 1 [] []).2.*1
  = ["out/ocr/page1.txt"; "out/ocr/page1.tsv"; "out/ocr/page1.hocr";
     "out/ocr/page2.txt"].
Proof. reflexivity. Qed.

(** ** The table files *)

Lemma io_write_all_app (D : Disk)
    (a b : list (string * option string * content)) :
  IO.write_all D (a ++ b) [] =
  match (IO.write_all D a []).1 with
  | Ok _ => ((IO.write_all D b []).1,
             (IO.write_all D a []).2 ++ (IO.write_all D b []).2)
  | Raise msg => (Raise msg, (IO.write_all D a []).2)
  end.
Proof.
  induction a as [|[[path encoding] c] a IH].
  - simpl. by destruct (IO.write_all D b []).
  - rewrite <- app_comm_cons. cbn [IO.write_all].
    destruct (IO.write_file D path encoding c []) as [[[]|msg] f1];
      [|reflexivity].
    rewrite (io_write_all_appends D (a ++ b) f1),
      (io_write_all_appends D a f1), IH.
    destruct (IO.write_all D a []) as [[[]|msg] f2]; simpl;
      [by rewrite app_assoc | reflexivity].
Qed.

Lemma io_all_written_csv (D : Disk) (self : Converter) (files : FS) :
  (IO.write_all D (IO.csv_writes self files) []).1 = Ok tt
  ↔ IO.all_written D (Some (csv_encoding self)) files = true.
Proof.
  rewrite io_write_all_ok. unfold IO.all_written, IO.csv_writes.
  induction files as [|[path c] files IH]; [done|].
  rewrite fmap_cons. cbn [forallb]. simpl.
  destruct (IO.is_written _); [exact IH | done].
Qed.

Lemma io_csv_writes_files (self : Converter) (files : FS) :
  (λ w : string * option string * content, (w.1.1, w.2))
    <$> IO.csv_writes self files = files.
Proof.
  unfold IO.csv_writes. induction files as [|[path c] files IH]; [done|].
  rewrite !fmap_cons, IH. reflexivity.
Qed.

Lemma io_csv_writes_paths (self : Converter) (files : FS) :
  (λ w : string * option string * content, w.1.1)
    <$> IO.csv_writes self files = files.*1.
Proof.
  unfold IO.csv_writes. induction files as [|[path c] files IH]; [done|].
  rewrite !fmap_cons, IH. reflexivity.
Qed.

Lemma io_csv_writes_cons (self : Converter) (path : string) (c : content)
    (files : FS) :
  IO.csv_writes self ((path, c) :: files)
  = (path, Some (csv_encoding self), c) :: IO.csv_writes self files.
Proof. reflexivity. Qed.

Lemma io_csv_writes_app (self : Converter) (a b : FS) :
  IO.csv_writes self (a ++ b) = IO.csv_writes self a ++ IO.csv_writes self b.
Proof. apply fmap_app. Qed.

Section IoTablesOfPage.

Variables (D : Disk) (H : Host) (self : Converter) (i : nat).

Lemma io_tables_loop_writes (ts : list Table) (saved : list string)
    (fs : FS) :
  IO.tables_loop D H self i ts (saved, fs) =
  let files :=
    imap (λ k t, (Tables.table_file H self i (length saved + S k),
                  CsvRows (Spec.cleaned t)))
      (List.filter Spec.has_nonblank ts) in
  let w := IO.write_all D (IO.csv_writes self files) [] in
  (match w.1 with
   | Ok _ => Ok (saved ++ files.*1)
   | Raise msg => Raise msg
   end, fs ++ w.2).
Proof.
  revert saved fs. induction ts as [|t ts IH]; intros saved fs.
  - simpl. by rewrite !app_nil_r.
  - cbn [IO.tables_loop List.filter].
    rewrite rows_loop_cleaned, app_nil_l.
    destruct (Spec.has_nonblank t) eqn:Ht.
    + destruct (Spec.cleaned t) as [|r rs] eqn:Hc.
      { apply cleaned_nil in Hc. congruence. }
      rewrite imap_cons. cbn zeta. rewrite io_csv_writes_cons.
      cbn [IO.write_all]. rewrite Hc, Nat.add_1_r.
      rewrite (io_write_file_appends D _ _ _ fs).
      destruct (IO.write_file D _ _ _ []) as [[[]|msg] f1];
        [|reflexivity].
      rewrite IH. cbn zeta.
      rewrite (io_write_all_appends D _ f1).
      rewrite (imap_ext
                 (λ k t', (Tables.table_file H self i
                             (length (saved ++ [Tables.table_file H self i
                                                  (S (length saved))]) + S k),
                           CsvRows (Spec.cleaned t')))
                 ((λ k t', (Tables.table_file H self i (length saved + S k),
                            CsvRows (Spec.cleaned t'))) ∘ S)
                 (List.filter Spec.has_nonblank ts))
        by (intros k t' _; simpl; rewrite length_app; simpl;
            do 2 f_equal; lia).
      destruct (IO.write_all D _ []) as [[[]|msg] f2]; simpl;
        by rewrite <- ?app_assoc.
    + apply cleaned_nil in Ht. rewrite Ht. apply IH.
Qed.

Lemma io_settings_loop_writes (pg : PlumberPage) (fs : FS) :
  IO.settings_loop D H self i pg [lattice_settings; stream_settings]
    ([], fs) =
  let w := IO.write_all D (IO.csv_writes self (Spec.persisted H self i pg))
             [] in
  (match w.1 with
   | Ok _ => Ok (Spec.persisted H self i pg).*1
   | Raise msg => Raise msg
   end, fs ++ w.2).
Proof.
  unfold Spec.persisted, Spec.kept, Spec.candidates_of.
  cbn [IO.settings_loop]. cbn zeta.
  rewrite List.filter_app, imap_app, io_csv_writes_app.
  rewrite io_write_all_app, io_tables_loop_writes. cbn zeta.
  cbn [length Nat.add app].
  destruct (IO.write_all D _ []) as [[[]|msg] f1]; cbn [fst snd];
    [|reflexivity].
  rewrite io_tables_loop_writes. cbn zeta.
  rewrite fmap_imap, length_imap.
  rewrite (imap_ext
             (λ k t, (Tables.table_file H self i
                        (length (List.filter Spec.has_nonblank
                                   (try_except
                                      (extract_tables pg lattice_settings)
                                      [])) + S k),
                      CsvRows (Spec.cleaned t)))
             ((λ k t, (Tables.table_file H self i (S k),
                       CsvRows (Spec.cleaned t)))
                ∘ Nat.add (length (List.filter Spec.has_nonblank
                                     (try_except
                                        (extract_tables pg lattice_settings)
                                        []))))
             (List.filter Spec.has_nonblank
                (try_except (extract_tables pg stream_settings) [])))
    by (intros k t _; simpl; do 2 f_equal; lia).
  destruct (IO.write_all D _ []) as [[[]|msg] f2]; cbn [fst snd];
    rewrite <- ?app_assoc; [|reflexivity].
  by rewrite fmap_app, !fmap_imap.
Qed.

End IoTablesOfPage.

Lemma io_pages_loop_writes (D : Disk) (H : Host) (self : Converter)
    (pages : list PlumberPage) (i : nat) (tables : gmap nat (list string))
    (fs : FS) :
  IO.pages_loop D H self pages i tables fs =
  let w :=
    IO.write_all D
      (IO.csv_writes self
         (concat (imap (λ n pg, Spec.persisted H self (i + n) pg) pages)))
      [] in
  (match w.1 with
   | Ok _ => Ok (Tables.pages_loop H self pages i tables fs).1
   | Raise msg => Raise msg
   end, fs ++ w.2).
Proof.
  revert i tables fs.
  induction pages as [|pg pages IH]; intros i tables fs.
  - simpl. by rewrite app_nil_r.
  - cbn [IO.pages_loop Tables.pages_loop].
    rewrite io_settings_loop_writes, settings_loop_kept. cbn zeta.
    rewrite imap_cons, concat_cons, Nat.add_0_r.
    rewrite io_csv_writes_app, io_write_all_app.
    pose proof (io_write_all_written D
                  (IO.csv_writes self (Spec.persisted H self i pg))) as Hw.
    rewrite io_csv_writes_files in Hw.
    destruct (IO.write_all D (IO.csv_writes self _) []) as [[[]|msg] f1];
      cbn [fst snd] in *; [|reflexivity].
    rewrite (Hw eq_refl), IH. cbn zeta.
    rewrite (imap_ext
               (λ n pg', Spec.persisted H self (S i + n) pg')
               ((λ n pg', Spec.persisted H self (i + n) pg') ∘ S) pages)
      by (intros n pg' _; simpl; by rewrite Nat.add_succ_r).
    destruct (IO.write_all D _ []) as [[[]|msg] f2]; cbn [fst snd];
      by rewrite <- ?app_assoc.
Qed.

(** C8. An absent cell is written as the empty string and the rows kept
    of a candidate are those with a non-blank cell. The table pass makes
    the writes of the kept candidates in order, each file opened with the
    configured encoding, until one of them fails: page after page, and on
    a page the candidates of the lattice strategy followed by those of
    the stream strategy that have a non-blank cell in some row, the k-th
    of them going to table k of the page, k counting from 1 across both
    strategies. The pass returns exactly when every one of these writes
    succeeds; the files written and the paths recorded for a page are
    then those of its kept candidates, in order, so that every candidate
    with a non-blank cell is persisted. When a write fails the pass ends
    with the exception of that write, and the files are those written
    before it and what the failing write left. A candidate with no
    non-blank cell is not kept, a file is only ever created at the path
    of a kept candidate, and no file without rows is asked for. *)
Theorem tables_persisted_until_a_write_fails (D : Disk) (H : Host)
    (self : Converter) (pdf : list PlumberPage) (fs : FS) :
  let files := concat (imap (λ n pg, Spec.persisted H self (S n) pg) pdf) in
  let w := IO.write_all D (IO.csv_writes self files) [] in
  let out := IO.extract_and_save_tables D H self pdf fs in
  (∀ row j, Tables.clean_row row !! j = default EmptyString <$> row !! j)
  ∧ (∀ t, Tables.rows_loop t [] = Spec.cleaned t)
  ∧ out.2 = fs ++ w.2
  ∧ ((∃ tables, out.1 = Ok tables)
     ↔ IO.all_written D (Some (csv_encoding self)) files = true)
  ∧ (∀ tables, out.1 = Ok tables →
       (tables, out.2) = Tables.extract_and_save_tables H self pdf fs
       ∧ out.2 = fs ++ files)
  ∧ (∀ msg, out.1 = Raise msg →
       w.1 = Raise msg ∧ length w.2 ≤ length files)
  ∧ (∀ path c, (path, c) ∈ w.2 → path ∈ files.*1)
  ∧ ∀ n pg, pdf !! n = Some pg →
      (∀ tables, out.1 = Ok tables →
         tables !! S n =
           Some (Tables.table_file H self (S n)
                   <$> seq 1 (length (Spec.kept pg))))
      ∧ (∀ t, t ∈ Spec.candidates_of pg → Spec.has_nonblank t = true →
           Spec.cleaned t ≠ []
           ∧ ∃ k, Spec.kept pg !! k = Some t
                  ∧ (Tables.table_file H self (S n) (S k),
                     CsvRows (Spec.cleaned t)) ∈ files
                  ∧ ((∃ tables, out.1 = Ok tables) →
                     (Tables.table_file H self (S n) (S k),
                      CsvRows (Spec.cleaned t)) ∈ out.2))
      ∧ (∀ t, t ∈ Spec.candidates_of pg → Spec.has_nonblank t = false →
           t ∉ Spec.kept pg)
      ∧ (∀ path, (path, CsvRows []) ∉ Spec.persisted H self (S n) pg).
Proof.
  intros files w out.
  assert (Hout : out =
            (match w.1 with
             | Ok _ => Ok (Tables.pages_loop H self pdf 1 ∅ fs).1
             | Raise msg => Raise msg
             end, fs ++ w.2)).
  { subst out w files. unfold IO.extract_and_save_tables.
    by rewrite io_pages_loop_writes. }
  destruct (pages_loop_persisted H self pdf 1 ∅ fs) as (Hfs & Hget & _).
  simpl in Hfs, Hget. fold files in Hfs.
  pose proof (io_write_all_written D (IO.csv_writes self files)) as Hall.
  rewrite io_csv_writes_files in Hall. fold w in Hall.
  pose proof (io_all_written_csv D self files) as Hiff. fold w in Hiff.
  pose proof (io_write_all_files D (IO.csv_writes self files))
    as [Hlen Hpaths].
  rewrite io_csv_writes_paths in Hpaths. fold w in Hlen, Hpaths.
  unfold IO.csv_writes in Hlen. rewrite length_fmap in Hlen.
  assert (Hok : ∀ tables, out.1 = Ok tables →
            w.1 = Ok tt ∧ tables = (Tables.pages_loop H self pdf 1 ∅ fs).1).
  { intros tables. rewrite Hout. simpl.
    destruct w.1 as [[]|msg]; [|discriminate]. by intros [= <-]. }
  split; [|split; [|split; [|split; [|split; [|split; [|split]]]]]].
  - intros row j. unfold Tables.clean_row. rewrite list_lookup_fmap.
    destruct (row !! j) as [[s|]|]; reflexivity.
  - intros t. by rewrite rows_loop_cleaned.
  - by rewrite Hout.
  - rewrite <- Hiff. split.
    + intros [tables Ht]. by apply Hok in Ht as [-> _].
    + intros Hw. rewrite Hout, Hw. simpl. eauto.
  - intros tables Ht. apply Hok in Ht as [Hw ->].
    rewrite Hout. cbn [snd]. rewrite (Hall Hw).
    unfold Tables.extract_and_save_tables. split; [|reflexivity].
    rewrite <- Hfs. by destruct (Tables.pages_loop H self pdf 1 ∅ fs).
  - intros msg. rewrite Hout. simpl.
    destruct w.1 as [[]|msg']; [discriminate|]. by intros [= ->].
  - exact Hpaths.
  - intros n pg Hpg. split; [|split; [|split]].
    + intros tables Ht. apply Hok in Ht as [_ ->].
      rewrite <- persisted_paths. by apply Hget.
    + intros t Hin Hnb. split.
      * intros Hc. apply cleaned_nil in Hc. congruence.
      * assert (Hk : t ∈ Spec.kept pg) by by apply kept_elem.
        apply list_elem_of_lookup in Hk as [k Hk]. exists k.
        split; [exact Hk|].
        pose proof (persisted_elem H self pdf [] n k pg t Hpg Hk) as Hel.
        split; [exact Hel|].
        intros [tables Ht]. apply Hok in Ht as [Hw _].
        rewrite Hout. cbn [snd]. rewrite (Hall Hw).
        apply elem_of_app. by right.
    + intros t _ Hnb Hk. apply kept_elem in Hk as [_ Hk]. congruence.
    + intros path Hin. apply list_elem_of_lookup in Hin as [k Hk].
      unfold Spec.persisted in Hk. rewrite list_lookup_imap in Hk.
      destruct (Spec.kept pg !! k) as [t|] eqn:Ht; [|discriminate].
      simpl in Hk. injection Hk as _ Hc.
      apply cleaned_nil in Hc.
      assert (Hin : t ∈ Spec.kept pg) by (apply list_elem_of_lookup; eauto).
      apply kept_elem in Hin as [_ Hin]. congruence.
Qed.

Lemma tables_persisted_until_a_write_fails_witness :
  let out :=
    IO.extract_and_save_tables IO.reliable (Sample.host true [])
      (Sample.converter "auto") [Sample.plumber_page] [] in
  ∃ tables,
    out.1 = Ok tables
    ∧ tables !! 1 = Some ["out/tables/page1_table1.csv";
                          "out/tables/page1_table2.csv"]
    ∧ out.2 = [("out/tables/page1_table1.csv",
                CsvRows [[EmptyString; "a"]]);
               ("out/tables/page1_table2.csv",
                CsvRows [[EmptyString; "a"]])].
Proof.
  intros out. eexists. split; [reflexivity|]. split.
  - apply (proj1 (proj2 (proj2 (proj2 (proj2 (proj2 (proj2 (proj2
             (tables_persisted_until_a_write_fails IO.reliable
                (Sample.host true []) (Sample.converter "auto")
                [Sample.plumber_page] [])))))))
             0 Sample.plumber_page eq_refl) _ eq_refl).
  - apply (proj2 (proj1 (proj2 (proj2 (proj2 (proj2
             (tables_persisted_until_a_write_fails IO.reliable
                (Sample.host true []) (Sample.converter "auto")
                [Sample.plumber_page] []))))) _ eq_refl)).
Defined.

(** A candidate with a non-blank cell that is not persisted: the tables
    are to be written in ascii and lattice finds one with an accented
    cell. The write raises, the pass ends with that exception, and the
    file of the table is left without a row. *)
Lemma nonblank_table_not_persisted :
  let t := [[Some ("caf" +:+ String "233"%char EmptyString); Some "1"]] in
  let out :=
    IO.extract_and_save_tables IO.strict_ascii (Sample.host true [])
      IO.ascii_converter [IO.accented_page] [] in
  t ∈ Spec.candidates_of IO.accented_page
  ∧ Spec.has_nonblank t = true
  ∧ out = (Raise "'ascii' codec can't encode character",
           [("out/tables/page1_table1.csv", CsvRows [])])
  ∧ ∀ path, (path, CsvRows (Spec.cleaned t)) ∉ out.2.
Proof.
  intros t out. split; [|split; [|split]].
  - apply list_elem_of_singleton. reflexivity.
  - reflexivity.
  - reflexivity.
  - intros path Hin. apply list_elem_of_singleton in Hin. discriminate Hin.
Qed.
